(** * PredictPesa request pipeline: cache facade, rate limiter, token
      authentication and middleware stack.

    Shallow embedding of
      - predictpesa/core/redis.py          (RedisCache, RateLimiter)
      - predictpesa/middleware/auth.py     (AuthMiddleware)
      - predictpesa/middleware/rate_limit.py (RateLimitMiddleware)
      - predictpesa/middleware/request_id.py (RequestIDMiddleware)
      - predictpesa/api/deps.py            (the dependencies on the user)
      - predictpesa/api/v1/endpoints/auth.py (login, logout, refresh)
      - predictpesa/api/v1/endpoints/markets.py (routes and dependencies)
      - predictpesa/models/user.py         (User)
      - predictpesa/main.py                (create_application)

    Coroutines are modelled as state-passing functions over the key-value
    store; a raised exception is an explicit result constructor. *)

From Stdlib Require Import ZArith String Ascii DecimalString.
From stdpp Require Import gmap strings list.

Local Open Scope string_scope.
Local Open Scope list_scope.
Local Open Scope Z_scope.

(** ** Python strings and values *)

Module Py.

(** [s.startswith(p)] *)
Definition startswith (s p : string) : bool := String.prefix p s.

(** [sub in s] on strings. *)
Fixpoint contains (sub s : string) : bool :=
  String.prefix sub s ||
  match s with
  | EmptyString => false
  | String _ s' => contains sub s'
  end.

(** [s.partition(c)] restricted to the case where [c] occurs:
    [Some (before, after)] at the first occurrence, [None] otherwise. *)
Fixpoint cut (c : ascii) (s : string) : option (string * string) :=
  match s with
  | EmptyString => None
  | String a s' =>
      if Ascii.eqb a c then Some (EmptyString, s')
      else match cut c s' with
           | Some (l, r) => Some (String a l, r)
           | None => None
           end
  end.

(** [s.split(c)[0]] *)
Definition split_head (c : ascii) (s : string) : string :=
  match cut c s with
  | Some (l, _) => l
  | None => s
  end.

(** One character of [str.lower()]; header values are Latin-1 text, one
    character per byte. *)
Definition lower_ascii (a : ascii) : ascii :=
  let n := N_of_ascii a in
  if ((65 <=? n) && (n <=? 90))%N then ascii_of_N (n + 32)
  else if ((192 <=? n) && (n <=? 222) && negb (n =? 215))%N then ascii_of_N (n + 32)
  else a.

Fixpoint lower (s : string) : string :=
  match s with
  | EmptyString => EmptyString
  | String a s' => String (lower_ascii a) (lower s')
  end.

(** Characters removed by [str.strip()] (Latin-1 range). *)
Definition is_space (a : ascii) : bool :=
  let n := N_of_ascii a in
  (((9 <=? n) && (n <=? 13)) || ((28 <=? n) && (n <=? 32)) ||
   (n =? 133) || (n =? 160))%N.

Fixpoint lstrip (s : string) : string :=
  match s with
  | EmptyString => EmptyString
  | String a s' => if is_space a then lstrip s' else s
  end.

Fixpoint rstrip (s : string) : string :=
  match s with
  | EmptyString => EmptyString
  | String a s' =>
      match rstrip s' with
      | EmptyString => if is_space a then EmptyString else String a EmptyString
      | r => String a r
      end
  end.

Definition strip (s : string) : string := rstrip (lstrip s).

(** [str(n)] for an integer. *)
Definition str_of_int (n : Z) : string := NilZero.string_of_int (Z.to_int n).

(** Scalars that occur in token claims and cached identities. *)
Inductive atom : Type :=
| ANone
| ABool (b : bool)
| AInt (n : Z)
| AStr (s : string).

(** JSON-compatible values held by the cache: a scalar or a flat dict. *)
Inductive value : Type :=
| VAtom (a : atom)
| VDict (d : list (string * atom)).

(** Truth value of a scalar ([if x:]). *)
Definition truthy_atom (a : atom) : bool :=
  match a with
  | ANone => false
  | ABool b => b
  | AInt n => negb (n =? 0)
  | AStr s => negb (String.eqb s "")
  end.

Definition truthy (v : value) : bool :=
  match v with
  | VAtom a => truthy_atom a
  | VDict [] => false
  | VDict (_ :: _) => true
  end.

(** [str(x)], as used by f-strings. *)
Definition str (a : atom) : string :=
  match a with
  | ANone => "None"
  | ABool true => "True"
  | ABool false => "False"
  | AInt n => str_of_int n
  | AStr s => s
  end.

(** [d.get(k)] and [d.get(k, default)] *)
Fixpoint dict_find (d : list (string * atom)) (k : string) : option atom :=
  match d with
  | [] => None
  | (k', a) :: d' => if String.eqb k' k then Some a else dict_find d' k
  end.

Definition dict_get (d : list (string * atom)) (k : string) : atom :=
  match dict_find d k with Some a => a | None => ANone end.

Definition dict_get_default (d : list (string * atom)) (k : string) (dflt : atom) : atom :=
  match dict_find d k with Some a => a | None => dflt end.

End Py.

(** ** The key-value store

    An in-memory account of the Redis commands that the application issues:
    values with an optional absolute expiry, a clock, the sequence of
    upcoming transport faults (socket errors and timeouts; [true] makes the
    next round trip raise), and the log of commands handed to the client. *)

Module Redis.

Inductive command : Type :=
| GET (k : string)
| SET (k : string) (v : Py.value) (ex : option Z)
| DEL (k : string)
| EXISTS (k : string)
| INCRBY (k : string) (amount : Z)
| EXPIRE (k : string) (seconds : Z).

Definition command_key (c : command) : string :=
  match c with
  | GET k | SET k _ _ | DEL k | EXISTS k | INCRBY k _ | EXPIRE k _ => k
  end.

Inductive reply : Type :=
| RNil
| ROk
| RInt (n : Z)
| RBulk (v : Py.value).

Record entry : Type := Entry { payload : Py.value; expires_at : option Z }.

Record server : Type := Server {
  kv : gmap string entry;
  now : Z;
  faults : list bool;
  wire : list command
}.

Definition with_kv (s : server) (m : gmap string entry) : server :=
  Server m (now s) (faults s) (wire s).

(** Time passes on the server. *)
Definition advance (dt : Z) (s : server) : server :=
  Server (kv s) (now s + dt) (faults s) (wire s).

(** An entry is visible until its expiry time is reached. *)
Definition live (s : server) (k : string) : option entry :=
  match kv s !! k with
  | Some e =>
      match expires_at e with
      | Some t => if t <=? now s then None else Some e
      | None => Some e
      end
  | None => None
  end.

Definition is_live (s : server) (k : string) : bool :=
  match live s k with Some _ => true | None => false end.

Definition int64 (n : Z) : bool := (- 2 ^ 63 <=? n) && (n <=? 2 ^ 63 - 1).

(** The integer a counter key stands for: 0 when the key is absent,
    nothing when it holds something that the server does not read as a
    64-bit integer. *)
Definition counter (s : server) (k : string) : option Z :=
  match live s k with
  | None => Some 0
  | Some (Entry (Py.VAtom (Py.AInt n)) _) => if int64 n then Some n else None
  | Some _ => None
  end.

(** The server keeps expiry instants as 64-bit millisecond counts.  It
    turns a lifetime in seconds into milliseconds and adds its clock, and
    answers with an error when either step leaves the 64-bit range:
    [max_lifetime] is the largest number of seconds that the first step
    takes.  The clock of this account ticks in whole seconds since the
    epoch. *)
Definition max_lifetime : Z := (2 ^ 63 - 1) / 1000.

Definition in_time_range (s : server) (seconds : Z) : bool :=
  (- max_lifetime <=? seconds) && (seconds <=? max_lifetime) &&
  (now s + seconds <=? max_lifetime).

(** Server-side effect of one command; [None] is an error reply. *)
Definition apply (c : command) (s : server) : option reply * server :=
  match c with
  | GET k =>
      (Some (match live s k with Some e => RBulk (payload e) | None => RNil end), s)
  | SET k v ex =>
      match ex with
      | Some t =>
          if (t <=? 0) || negb (in_time_range s t) then (None, s)
          else (Some ROk, with_kv s (<[k := Entry v (Some (now s + t))]> (kv s)))
      | None => (Some ROk, with_kv s (<[k := Entry v None]> (kv s)))
      end
  | DEL k =>
      (Some (RInt (if is_live s k then 1 else 0)), with_kv s (delete k (kv s)))
  | EXISTS k =>
      (Some (RInt (if is_live s k then 1 else 0)), s)
  | INCRBY k amount =>
      if negb (int64 amount) then (None, s)
      else
        match live s k with
        | None =>
            (Some (RInt amount),
             with_kv s (<[k := Entry (Py.VAtom (Py.AInt amount)) None]> (kv s)))
        | Some (Entry (Py.VAtom (Py.AInt n)) ex) =>
            if int64 n && int64 (n + amount)
            then (Some (RInt (n + amount)),
                  with_kv s (<[k := Entry (Py.VAtom (Py.AInt (n + amount))) ex]> (kv s)))
            else (None, s)
        | Some _ => (None, s)
        end
  | EXPIRE k seconds =>
      if negb (in_time_range s seconds) then (None, s)
      else
        match live s k with
        | None => (Some (RInt 0), s)
        | Some e =>
            if seconds <=? 0 then (Some (RInt 1), with_kv s (delete k (kv s)))
            else (Some (RInt 1),
                  with_kv s (<[k := Entry (payload e) (Some (now s + seconds))]> (kv s)))
        end
  end.

(** Whether the next round trip meets a transport fault. *)
Definition next_fault (s : server) : bool :=
  match faults s with
  | [] => false
  | f :: _ => f
  end.

(** The client takes the commands of one round trip. *)
Definition hand_over (cs : list command) (s : server) : bool * server :=
  (next_fault s, Server (kv s) (now s) (tail (faults s)) (wire s ++ cs)).

(** [await client.<command>(...)]: [None] when the call raises. *)
Definition call (c : command) (s : server) : option reply * server :=
  match hand_over [c] s with
  | (true, s1) => (None, s1)
  | (false, s1) => apply c s1
  end.

(** The queued commands of a pipeline run in order; an error reply does
    not stop the ones after it. *)
Fixpoint run (cs : list command) (s : server) : list (option reply) * server :=
  match cs with
  | [] => ([], s)
  | c :: cs' =>
      let '(r, s1) := apply c s in
      let '(rs, s2) := run cs' s1 in
      (r :: rs, s2)
  end.

Fixpoint replies (rs : list (option reply)) : option (list reply) :=
  match rs with
  | [] => Some []
  | None :: _ => None
  | Some r :: rs' =>
      match replies rs' with
      | Some l => Some (r :: l)
      | None => None
      end
  end.

(** [await pipe.execute()]: one round trip; raises on a transport fault
    and on the first error reply. *)
Definition execute (cs : list command) (s : server) : option (list reply) * server :=
  match hand_over cs s with
  | (true, s1) => (None, s1)
  | (false, s1) => let '(rs, s2) := run cs s1 in (replies rs, s2)
  end.

(** An empty, reachable store at time 0. *)
Definition fresh : server := Server ∅ 0 [] [].

(** The store after an answered [INCRBY key 1; EXPIRE key window] round
    trip that took the counter from [n] to [n + 1]. *)
Definition bumped (key : string) (window n : Z) (s : server) : server :=
  Server
    (<[key := Entry (Py.VAtom (Py.AInt (n + 1))) (Some (now s + window))]> (kv s))
    (now s) (tail (faults s))
    (wire s ++ [INCRBY key 1; EXPIRE key window]).

End Redis.

(** ** core/redis.py: [RedisCache] *)

Module RedisCache.

Record t : Type := { prefix : string }.

(** [RedisCache()] with the default prefix, the global [cache]. *)
Definition cache : t := {| prefix := "predictpesa" |}.

Definition _make_key (self : t) (key : string) : string :=
  prefix self +:+ ":" +:+ key.

(** [json.loads(value)] of a stored value, [None] on a miss or on any
    exception. *)
Definition get (self : t) (key : string) (s : Redis.server) : Py.value * Redis.server :=
  match Redis.call (Redis.GET (_make_key self key)) s with
  | (Some (Redis.RBulk v), s') => (v, s')
  | (_, s') => (Py.VAtom Py.ANone, s')
  end.

Definition set (self : t) (key : string) (value : Py.value) (expire : option Z)
    (s : Redis.server) : bool * Redis.server :=
  match Redis.call (Redis.SET (_make_key self key) value expire) s with
  | (Some _, s') => (true, s')
  | (None, s') => (false, s')
  end.

Definition delete (self : t) (key : string) (s : Redis.server) : bool * Redis.server :=
  match Redis.call (Redis.DEL (_make_key self key)) s with
  | (Some _, s') => (true, s')
  | (None, s') => (false, s')
  end.

Definition reply_bool (r : Redis.reply) : bool :=
  match r with
  | Redis.RInt n => negb (n =? 0)
  | Redis.ROk | Redis.RBulk _ => true
  | Redis.RNil => false
  end.

Definition exists_ (self : t) (key : string) (s : Redis.server) : bool * Redis.server :=
  match Redis.call (Redis.EXISTS (_make_key self key)) s with
  | (Some r, s') => (reply_bool r, s')
  | (None, s') => (false, s')
  end.

Definition increment (self : t) (key : string) (amount : Z) (s : Redis.server)
    : option Z * Redis.server :=
  match Redis.call (Redis.INCRBY (_make_key self key) amount) s with
  | (Some (Redis.RInt n), s') => (Some n, s')
  | (_, s') => (None, s')
  end.

Definition expire (self : t) (key : string) (seconds : Z) (s : Redis.server)
    : bool * Redis.server :=
  match Redis.call (Redis.EXPIRE (_make_key self key) seconds) s with
  | (Some r, s') => (reply_bool r, s')
  | (None, s') => (false, s')
  end.

End RedisCache.

(** ** core/redis.py: [RateLimiter] *)

Module RateLimiter.

(** [is_allowed(key, limit, window)]: the two queued commands go out in
    one [execute]; every exception inside the [try] ends in the fail-open
    answer. *)
Definition is_allowed (key : string) (limit window : Z) (s : Redis.server)
    : (bool * Z) * Redis.server :=
  match Redis.execute [Redis.INCRBY key 1; Redis.EXPIRE key window] s with
  | (Some (Redis.RInt current_count :: _), s') =>
      if current_count <=? limit
      then ((true, limit - current_count), s')
      else ((false, 0), s')
  | (_, s') => ((true, limit), s')
  end.

(** [n] calls one after the other, with their answers in order. *)
Fixpoint successive (n : nat) (key : string) (limit window : Z) (s : Redis.server)
    : list (bool * Z) * Redis.server :=
  match n with
  | O => ([], s)
  | S n' =>
      let '(r, s1) := is_allowed key limit window s in
      let '(rs, s2) := successive n' key limit window s1 in
      (r :: rs, s2)
  end.

End RateLimiter.

(** ** Requests, responses and the environment *)

Module Http.

(** The request headers the pipeline reads. *)
Record headers : Type := {
  authorization : option string;
  x_forwarded_for : option string;
  x_real_ip : option string;
  x_request_id : option string
}.

(** [request.state]; an attribute that was never set reads as [None]. *)
Record state : Type := {
  user : Py.value;
  user_id : Py.atom;
  request_id : option string
}.

Record request : Type := {
  method : string;
  path : string;
  hdrs : headers;
  client_host : option string;
  rstate : state
}.

Definition no_state : state :=
  {| user := Py.VAtom Py.ANone; user_id := Py.ANone; request_id := None |}.

Definition with_state (r : request) (st : state) : request :=
  {| method := method r; path := path r; hdrs := hdrs r;
     client_host := client_host r; rstate := st |}.

(** Status, body text or detail, and headers: the content of a [Response]
    and of an [HTTPException]. *)
Record message : Type := {
  status_code : Z;
  detail : string;
  headers_out : list (string * string)
}.

(** [headers[name] = v] *)
Fixpoint set_item (name v : string) (h : list (string * string)) : list (string * string) :=
  match h with
  | [] => [(name, v)]
  | (n, x) :: h' => if String.eqb n name then (n, v) :: h' else (n, x) :: set_item name v h'
  end.

Fixpoint get_item (name : string) (h : list (string * string)) : option string :=
  match h with
  | [] => None
  | (n, x) :: h' => if String.eqb n name then Some x else get_item name h'
  end.

Definition set_header (name v : string) (m : message) : message :=
  {| status_code := status_code m; detail := detail m;
     headers_out := set_item name v (headers_out m) |}.

(** What a [dispatch] coroutine ends with. *)
Inductive outcome : Type :=
| Response (m : message)            (* a response object is returned *)
| ReturnedException (m : message)   (* an [HTTPException] instance is returned *)
| RaisedException (m : message)     (* [raise HTTPException(...)] *)
| Error (name : string).            (* any other exception *)

(** [obj.headers[name] = v] on whatever was returned. *)
Definition outcome_set_header (name v : string) (o : outcome) : outcome :=
  match o with
  | Response m => Response (set_header name v m)
  | ReturnedException m => ReturnedException (set_header name v m)
  | other => other
  end.

(** Status carried by the object that comes out, if any. *)
Definition outcome_status (o : outcome) : option Z :=
  match o with
  | Response m | ReturnedException m | RaisedException m => Some (status_code m)
  | Error _ => None
  end.

Inductive stage : Type :=
| SCORS | STrustedHost | SRequestID | SRateLimit | SAuth | SMetrics.

(** Mutable surroundings of a request: the store, the number of UUIDs
    drawn so far, and the middleware stages entered so far. *)
Record world : Type := {
  store : Redis.server;
  draws : nat;
  trace : list stage
}.

Definition with_store (w : world) (s : Redis.server) : world :=
  {| store := s; draws := draws w; trace := trace w |}.

Definition app : Type := request -> world -> outcome * world.

(** The routed application below the middleware: it answers every request
    with a response and may use the store. *)
Definition endpoint : Type := request -> Redis.server -> message * Redis.server.

Definition serve (h : endpoint) : app :=
  fun r w => let '(m, s) := h r (store w) in (Response m, with_store w s).

End Http.

(** [jwt.decode(token, secret_key, algorithms=[algorithm])] *)
Inductive jwt_result : Type :=
| Decoded (payload : list (string * Py.atom))
| ExpiredSignatureError
| InvalidTokenError
| OtherError.

Record Settings : Type := {
  access_token_expire_minutes : Z;
  rate_limit_requests_per_minute : Z;
  rate_limit_burst : Z;
  prometheus_enabled : bool;
  is_production : bool
}.

(** What the code takes from outside the repository: the token decoder
    (at a given time), the UUID source and the configuration. *)
Class Env : Type := {
  jwt_decode : Z -> string -> jwt_result;
  uuid4 : nat -> string;
  settings : Settings
}.

(** ** middleware/auth.py *)

Module AuthMiddleware.
Section WithEnv.
Context {E : Env}.

Definition EXEMPT_PATHS : list string :=
  [ "/"; "/health"; "/health/detailed"; "/metrics"; "/docs"; "/redoc";
    "/openapi.json"; "/api/v1/auth/register"; "/api/v1/auth/login";
    "/api/v1/markets/" ].

Definition exempt_patterns : list string := [ "/api/v1/markets/" ].

Definition _is_exempt_path (path : string) : bool :=
  if existsb (String.eqb path) EXEMPT_PATHS then true
  else existsb (Py.startswith path) exempt_patterns.

Definition _requires_auth (path : string) : bool :=
  Py.startswith path "/api/v1/".

(** [None] is modelled by [None]; the token may be the empty string. *)
Definition _extract_token (request : Http.request) : option string :=
  match Http.authorization (Http.hdrs request) with
  | None => None
  | Some authorization =>
      if String.eqb authorization "" then None
      else match Py.cut " " authorization with
           | None => None
           | Some (scheme, token) =>
               if String.eqb (Py.lower scheme) "bearer" then Some token else None
           end
  end.

Definition _validate_token (token : string) (s : Redis.server) : Py.value * Redis.server :=
  let blacklist_key := "blacklist:" +:+ token in
  let '(blacklisted, s1) := RedisCache.exists_ RedisCache.cache blacklist_key s in
  if blacklisted then (Py.VAtom Py.ANone, s1)
  else
    match jwt_decode (Redis.now s1) token with
    | Decoded payload =>
        let user_id := Py.dict_get payload "sub" in
        if negb (Py.truthy_atom user_id) then (Py.VAtom Py.ANone, s1)
        else
          let exp := Py.dict_get payload "exp" in
          if negb (Py.truthy_atom exp) then (Py.VAtom Py.ANone, s1)
          else
            let cache_key := "user:" +:+ Py.str user_id in
            let '(user_data, s2) := RedisCache.get RedisCache.cache cache_key s1 in
            if negb (Py.truthy user_data) then
              let user_data := Py.VDict
                [ ("user_id", user_id);
                  ("email", Py.dict_get payload "email");
                  ("role", Py.dict_get_default payload "role" (Py.AStr "user"));
                  ("is_verified", Py.dict_get_default payload "is_verified" (Py.ABool false)) ] in
              let '(_, s3) := RedisCache.set RedisCache.cache cache_key user_data (Some 300) s2 in
              (user_data, s3)
            else (user_data, s2)
    | ExpiredSignatureError => (Py.VAtom Py.ANone, s1)
    | InvalidTokenError => (Py.VAtom Py.ANone, s1)
    | OtherError => (Py.VAtom Py.ANone, s1)
    end.

Definition unauthorized : Http.message :=
  {| Http.status_code := 401;
     Http.detail := "Invalid or missing authentication token";
     Http.headers_out := [("WWW-Authenticate", "Bearer")] |}.

(** The method builds an [HTTPException] and returns it. *)
Definition _unauthorized_response : Http.outcome := Http.ReturnedException unauthorized.

Definition dispatch (request : Http.request) (call_next : Http.app) (w : Http.world)
    : Http.outcome * Http.world :=
  if _is_exempt_path (Http.path request) then call_next request w
  else
    match _extract_token request with
    | Some (String _ _ as token) =>
        let '(user_data, s1) := _validate_token token (Http.store w) in
        let w1 := Http.with_store w s1 in
        if Py.truthy user_data then
          match user_data with
          | Py.VDict d =>
              let st := {| Http.user := user_data;
                           Http.user_id := Py.dict_get d "user_id";
                           Http.request_id := Http.request_id (Http.rstate request) |} in
              call_next (Http.with_state request st) w1
          | Py.VAtom _ => (Http.Error "AttributeError", w1)
          end
        else (_unauthorized_response, w1)
    | _ =>
        if _requires_auth (Http.path request) then (_unauthorized_response, w)
        else call_next request w
    end.

End WithEnv.
End AuthMiddleware.

(** ** api/v1/endpoints/auth.py: logout *)

Module Endpoints.
Section WithEnv.
Context {E : Env}.

(** [logout_user(current_user, token)]: [credentials] is the text after
    the scheme of the Authorization header. *)
Definition logout_user (current_user_id : Py.atom) (credentials : string)
    (s : Redis.server) : Http.message * Redis.server :=
  let blacklist_key := "blacklist:" +:+ credentials in
  let '(_, s1) := RedisCache.set RedisCache.cache blacklist_key
                    (Py.VAtom (Py.ABool true))
                    (Some (access_token_expire_minutes settings * 60)) s in
  let cache_key := "user:" +:+ Py.str current_user_id in
  let '(_, s2) := RedisCache.delete RedisCache.cache cache_key s1 in
  ({| Http.status_code := 200; Http.detail := "Successfully logged out";
      Http.headers_out := [] |}, s2).

End WithEnv.
End Endpoints.

(** ** middleware/rate_limit.py *)

Module RateLimitMiddleware.
Section WithEnv.
Context {E : Env}.

Record t : Type := { requests_per_minute : Z; burst : Z }.

(** [x or default] on an optional integer argument. *)
Definition or_default (x : option Z) (dflt : Z) : Z :=
  match x with
  | Some n => if n =? 0 then dflt else n
  | None => dflt
  end.

Definition __init__ (requests_per_minute burst : option Z) : t :=
  {| requests_per_minute :=
       or_default requests_per_minute (rate_limit_requests_per_minute settings);
     burst := or_default burst (rate_limit_burst settings) |}.

Definition exempt_paths : list string := [ "/health"; "/health/detailed"; "/metrics" ].

Definition _is_exempt_path (path : string) : bool :=
  existsb (String.eqb path) exempt_paths.

Definition _get_client_ip (request : Http.request) : string :=
  let h := Http.hdrs request in
  match Http.x_forwarded_for h with
  | Some (String _ _ as forwarded_for) => Py.strip (Py.split_head "," forwarded_for)
  | _ =>
      match Http.x_real_ip h with
      | Some (String _ _ as real_ip) => real_ip
      | _ =>
          match Http.client_host request with
          | Some host => host
          | None => "unknown"
          end
      end
  end.

Definition _get_client_id (request : Http.request) : string :=
  let user_id := Http.user_id (Http.rstate request) in
  if Py.truthy_atom user_id then "user:" +:+ Py.str user_id
  else "ip:" +:+ _get_client_ip request.

Definition is_write (method : string) : bool :=
  existsb (String.eqb method) [ "POST"; "PUT"; "DELETE" ].

Definition _get_limits_for_path (self : t) (path method : string) : Z * Z :=
  let default_limit := requests_per_minute self in
  let window := 60 in
  if is_write method then
    if Py.contains "/markets/create" path then (5, window)
    else if Py.contains "/stakes/create" path then (10, window)
    else if Py.contains "/auth/" path then (5, window)
    else (default_limit / 2, window)
  else if String.eqb method "GET" then
    if Py.contains "/markets/" path then (default_limit * 2, window)
    else (default_limit, window)
  else (default_limit, window).

Definition rate_limit_key (client_id : string) (request : Http.request) : string :=
  "rate_limit:" +:+ client_id +:+ ":" +:+ Http.path request.

Definition _check_rate_limit (self : t) (client_id : string) (request : Http.request)
    (s : Redis.server) : (bool * Z) * Redis.server :=
  let '(limit, window) := _get_limits_for_path self (Http.path request) (Http.method request) in
  RateLimiter.is_allowed (rate_limit_key client_id request) limit window s.

Definition too_many_requests (self : t) : Http.message :=
  {| Http.status_code := 429;
     Http.detail := "Rate limit exceeded. Please try again later.";
     Http.headers_out :=
       [ ("X-RateLimit-Limit", Py.str_of_int (requests_per_minute self));
         ("X-RateLimit-Remaining", "0");
         ("X-RateLimit-Reset", "60") ] |}.

Definition dispatch (self : t) (request : Http.request) (call_next : Http.app)
    (w : Http.world) : Http.outcome * Http.world :=
  if _is_exempt_path (Http.path request) then call_next request w
  else
    let client_id := _get_client_id request in
    let '((is_allowed, remaining), s1) := _check_rate_limit self client_id request (Http.store w) in
    let w1 := Http.with_store w s1 in
    if negb is_allowed then (Http.RaisedException (too_many_requests self), w1)
    else
      let '(response, w2) := call_next request w1 in
      (Http.outcome_set_header "X-RateLimit-Reset" "60"
         (Http.outcome_set_header "X-RateLimit-Remaining" (Py.str_of_int remaining)
            (Http.outcome_set_header "X-RateLimit-Limit"
               (Py.str_of_int (requests_per_minute self)) response)), w2).

End WithEnv.
End RateLimitMiddleware.

(** ** middleware/request_id.py *)

Module RequestIDMiddleware.
Section WithEnv.
Context {E : Env}.

Definition header_name : string := "X-Request-ID".

(** The client's id if it sent a non-empty one, a fresh UUID otherwise. *)
Definition _get_or_generate_request_id (request : Http.request) (w : Http.world)
    : string * Http.world :=
  match Http.x_request_id (Http.hdrs request) with
  | Some (String _ _ as existing_id) => (existing_id, w)
  | _ => (uuid4 (Http.draws w),
          {| Http.store := Http.store w; Http.draws := S (Http.draws w);
             Http.trace := Http.trace w |})
  end.

Definition dispatch (request : Http.request) (call_next : Http.app) (w : Http.world)
    : Http.outcome * Http.world :=
  let '(request_id, w1) := _get_or_generate_request_id request w in
  let st := {| Http.user := Http.user (Http.rstate request);
               Http.user_id := Http.user_id (Http.rstate request);
               Http.request_id := Some request_id |} in
  let '(response, w2) := call_next (Http.with_state request st) w1 in
  (Http.outcome_set_header header_name request_id response, w2).

End WithEnv.
End RequestIDMiddleware.

(** ** main.py *)

Module Main.
Section WithEnv.
Context {E : Env}.

(** [MetricsMiddleware.dispatch]: times and counts the request; the
    Prometheus counters are not part of the state. *)
Definition metrics_dispatch (request : Http.request) (call_next : Http.app) (w : Http.world)
    : Http.outcome * Http.world :=
  call_next request w.

(** [app.add_middleware(cls)] is [user_middleware.insert(0, cls)]. *)
Definition add_middleware (cls : Http.stage) (user_middleware : list Http.stage)
    : list Http.stage :=
  cls :: user_middleware.

(** The [add_middleware] calls of [create_application], in source order. *)
Definition create_application : list Http.stage :=
  let um := [] in
  let um := add_middleware Http.SCORS um in
  let um := if is_production settings then add_middleware Http.STrustedHost um else um in
  let um := add_middleware Http.SRequestID um in
  let um := add_middleware Http.SRateLimit um in
  let um := add_middleware Http.SAuth um in
  let um := if prometheus_enabled settings then add_middleware Http.SMetrics um else um in
  um.

Definition enter (st : Http.stage) (w : Http.world) : Http.world :=
  {| Http.store := Http.store w; Http.draws := Http.draws w;
     Http.trace := Http.trace w ++ [st] |}.

(** [BaseHTTPMiddleware.__call__]: what [dispatch] returns is awaited as
    a response, [await response(scope, receive, send)].  An exception
    instance is not callable, so a returned [HTTPException] ends in a
    [TypeError]; a response is sent on, and an exception that [dispatch]
    raised goes on to the caller. *)
Definition send_response (o : Http.outcome) : Http.outcome :=
  match o with
  | Http.ReturnedException _ => Http.Error "TypeError"
  | other => other
  end.

Definition base_http_middleware
    (dispatch : Http.request -> Http.app -> Http.world -> Http.outcome * Http.world)
    (inner : Http.app) : Http.app :=
  fun request w =>
    let '(o, w') := dispatch request inner w in (send_response o, w').

(** One middleware instance around the application it wraps.  The four
    middleware classes of the repository derive from [BaseHTTPMiddleware];
    the CORS and trusted-host middleware come from the framework and pass
    the request on. *)
Definition wrap (cls : Http.stage) (inner : Http.app) : Http.app :=
  fun request w =>
    let w := enter cls w in
    match cls with
    | Http.SCORS | Http.STrustedHost => inner request w
    | Http.SRequestID =>
        base_http_middleware RequestIDMiddleware.dispatch inner request w
    | Http.SRateLimit =>
        base_http_middleware
          (RateLimitMiddleware.dispatch (RateLimitMiddleware.__init__ None None))
          inner request w
    | Http.SAuth => base_http_middleware AuthMiddleware.dispatch inner request w
    | Http.SMetrics => base_http_middleware metrics_dispatch inner request w
    end.

(** [build_middleware_stack]: going through the list in reverse, each
    class wraps what has been built, so the head of the list is outermost. *)
Definition build_middleware_stack (user_middleware : list Http.stage) (router : Http.app)
    : Http.app :=
  fold_left (fun inner cls => wrap cls inner) (rev user_middleware) router.

(** The application object: every request enters here. *)
Definition application (router : Http.endpoint) : Http.app :=
  build_middleware_stack create_application (Http.serve router).

(** Requests handled one after the other. *)
Fixpoint handle_all (a : Http.app) (requests : list Http.request) (w : Http.world)
    : list Http.outcome * Http.world :=
  match requests with
  | [] => ([], w)
  | r :: rs =>
      let '(o, w1) := a r w in
      let '(os, w2) := handle_all a rs w1 in
      (o :: os, w2)
  end.

(** The three custom stages among those entered. *)
Definition is_custom (st : Http.stage) : bool :=
  match st with
  | Http.SRequestID | Http.SRateLimit | Http.SAuth => true
  | _ => false
  end.

Definition custom_stages (l : list Http.stage) : list Http.stage := filter is_custom l.

(** Authentication and rate limiting among the stages entered. *)
Definition is_gate (st : Http.stage) : bool :=
  match st with
  | Http.SRateLimit | Http.SAuth => true
  | _ => false
  end.

Definition gates (l : list Http.stage) : list Http.stage := filter is_gate l.

End WithEnv.
End Main.

(** ** A concrete environment for the examples *)

Module Demo.

(** Accepts the single token [good], issued to subject [u1] and valid
    until time 1800. *)
Definition decode (now : Z) (token : string) : jwt_result :=
  if String.eqb token "good" then
    if now <? 1800 then
      Decoded [ ("sub", Py.AStr "u1"); ("email", Py.AStr "demo@predictpesa.com");
                ("role", Py.AStr "user"); ("is_verified", Py.ABool true);
                ("exp", Py.AInt 1800) ]
    else ExpiredSignatureError
  else InvalidTokenError.

(** The defaults of core/config.py. *)
Definition config : Settings :=
  {| access_token_expire_minutes := 30;
     rate_limit_requests_per_minute := 100;
     rate_limit_burst := 20;
     prometheus_enabled := true;
     is_production := false |}.

Definition env : Env :=
  {| jwt_decode := decode;
     uuid4 := fun n => "uuid-" +:+ Py.str_of_int (Z.of_nat n);
     settings := config |}.

Definition request (method path : string) (authorization : option string) : Http.request :=
  {| Http.method := method; Http.path := path;
     Http.hdrs := {| Http.authorization := authorization;
                     Http.x_forwarded_for := None;
                     Http.x_real_ip := None;
                     Http.x_request_id := None |};
     Http.client_host := Some "10.0.0.1";
     Http.rstate := Http.no_state |}.

Definition world_of (s : Redis.server) : Http.world :=
  {| Http.store := s; Http.draws := 0%nat; Http.trace := [] |}.

(** A routed application that answers 200 to everything. *)
Definition ok : Http.endpoint :=
  fun _ s => ({| Http.status_code := 200; Http.detail := "ok"; Http.headers_out := [] |}, s).

(** The same store with the given transport faults ahead. *)
Definition with_faults (fs : list bool) (s : Redis.server) : Redis.server :=
  Redis.Server (Redis.kv s) (Redis.now s) fs (Redis.wire s).

(** The store after subject [u1] logged out with token [good] at time 0. *)
Definition after_logout : Redis.server :=
  snd (Endpoints.logout_user (E := env) (Py.AStr "u1") "good" Redis.fresh).

End Demo.

(** ** Vocabulary of the statements *)

(** Keys that token validation may use: the blacklist key of the token or
    an identity-cache key, as the cache facade sends them. *)
Definition authenticator_key (token : string) (c : Redis.command) : Prop :=
  Redis.command_key c = RedisCache._make_key RedisCache.cache ("blacklist:" +:+ token) \/
  exists subject : string,
    Redis.command_key c = RedisCache._make_key RedisCache.cache ("user:" +:+ subject).

(** The causes for which the authenticator refuses a request whose path
    is not exempt. *)
Definition refusal_cause {E : Env} (request : Http.request) (s : Redis.server) : Prop :=
  (AuthMiddleware._requires_auth (Http.path request) = true /\
   (AuthMiddleware._extract_token request = None \/
    AuthMiddleware._extract_token request = Some ""))
  \/
  (exists (a : ascii) (t : string),
      AuthMiddleware._extract_token request = Some (String a t) /\
      ( (forall payload, jwt_decode (Redis.now s) (String a t) <> Decoded payload)
        \/ (Redis.next_fault s = false /\
            Redis.is_live s
              (RedisCache._make_key RedisCache.cache ("blacklist:" +:+ String a t)) = true))).

(** ** Calls spread over time *)

Module Paced.

(** One [is_allowed] call, then the given pause, and so on. *)
Fixpoint paced (gaps : list Z) (key : string) (limit window : Z) (s : Redis.server)
    : list (bool * Z) * Redis.server :=
  match gaps with
  | [] => ([], s)
  | g :: gaps' =>
      let '(r, s1) := RateLimiter.is_allowed key limit window s in
      let '(rs, s2) := paced gaps' key limit window (Redis.advance g s1) in
      (r :: rs, s2)
  end.

End Paced.

(** ** models/user.py *)

Module UserModel.

Inductive UserRole : Type := USER | ADMIN | MODERATOR | ORACLE.

Inductive UserStatus : Type := ACTIVE | INACTIVE | SUSPENDED | BANNED.

Definition role_eqb (a b : UserRole) : bool :=
  match a, b with
  | USER, USER | ADMIN, ADMIN | MODERATOR, MODERATOR | ORACLE, ORACLE => true
  | _, _ => false
  end.

Definition status_eqb (a b : UserStatus) : bool :=
  match a, b with
  | ACTIVE, ACTIVE | INACTIVE, INACTIVE | SUSPENDED, SUSPENDED | BANNED, BANNED => true
  | _, _ => false
  end.

(** [UserRole.X.value] *)
Definition role_value (r : UserRole) : string :=
  match r with
  | USER => "user"
  | ADMIN => "admin"
  | MODERATOR => "moderator"
  | ORACLE => "oracle"
  end.

(** What the [role] and [status] attributes hold: a member of the
    enumeration, or whatever other object was assigned. *)
Inductive role_attr : Type :=
| RoleMember (r : UserRole)
| RoleObject (a : Py.atom).

Inductive status_attr : Type :=
| StatusMember (s : UserStatus)
| StatusObject (a : Py.atom).

(** [attr == UserRole.X]: a member of a plain enumeration equals only
    itself; a string or [None] equals no member. *)
Definition role_is (attr : role_attr) (m : UserRole) : bool :=
  match attr with
  | RoleMember r => role_eqb r m
  | RoleObject _ => false
  end.

Definition status_is (attr : status_attr) (m : UserStatus) : bool :=
  match attr with
  | StatusMember s => status_eqb s m
  | StatusObject _ => false
  end.

(** The attributes the methods read. *)
Record User : Type := {
  id : Py.atom;
  email : Py.atom;
  username : Py.atom;
  first_name : Py.atom;
  last_name : Py.atom;
  is_active : Py.atom;
  is_verified : Py.atom;
  role : role_attr;
  status : status_attr;
  hedera_account_id : Py.atom
}.

(** [a or b] *)
Definition py_or (a b : Py.atom) : Py.atom := if Py.truthy_atom a then a else b.

(** [a and b] *)
Definition py_and (a b : Py.atom) : Py.atom := if Py.truthy_atom a then b else a.

Definition full_name (self : User) : Py.atom :=
  if Py.truthy_atom (first_name self) && Py.truthy_atom (last_name self) then
    Py.AStr (Py.str (first_name self) +:+ " " +:+ Py.str (last_name self))
  else if Py.truthy_atom (first_name self) then first_name self
  else if Py.truthy_atom (last_name self) then last_name self
  else py_or (username self) (email self).

Definition display_name (self : User) : Py.atom :=
  py_or (username self) (full_name self).

Definition is_admin (self : User) : bool := role_is (role self) ADMIN.

Definition is_moderator (self : User) : bool :=
  existsb (role_is (role self)) [ADMIN; MODERATOR].

Definition is_oracle (self : User) : bool := role_is (role self) ORACLE.

Definition can_create_markets (self : User) : Py.atom :=
  py_and (is_active self)
    (py_and (is_verified self) (Py.ABool (status_is (status self) ACTIVE))).

Definition is_not_none (a : Py.atom) : bool :=
  match a with Py.ANone => false | _ => true end.

Definition can_stake (self : User) : Py.atom :=
  py_and (is_active self)
    (py_and (is_verified self)
       (py_and (Py.ABool (status_is (status self) ACTIVE))
          (Py.ABool (is_not_none (hedera_account_id self))))).

End UserModel.

(** ** api/deps.py *)

Module Deps.

Definition raise (status : Z) (detail : string) : Http.outcome :=
  Http.RaisedException
    {| Http.status_code := status; Http.detail := detail; Http.headers_out := [] |}.

(** [get_current_user]: the user built from the identity in
    [request.state]; the attributes the constructor is not given read as
    [None]. *)
Definition get_current_user (request : Http.request) : UserModel.User + Http.outcome :=
  let user_data := Http.user (Http.rstate request) in
  if negb (Py.truthy user_data) then inr (raise 401 "Authentication required")
  else
    match user_data with
    | Py.VDict d =>
        let user_id := Py.dict_get d "user_id" in
        if negb (Py.truthy_atom user_id) then inr (raise 401 "Invalid user data")
        else
          inl {| UserModel.id := user_id;
                 UserModel.email := Py.dict_get d "email";
                 UserModel.username := Py.ANone;
                 UserModel.first_name := Py.ANone;
                 UserModel.last_name := Py.ANone;
                 UserModel.is_active := Py.ABool true;
                 UserModel.is_verified := Py.dict_get_default d "is_verified" (Py.ABool false);
                 UserModel.role :=
                   UserModel.RoleObject (Py.dict_get_default d "role" (Py.AStr "user"));
                 UserModel.status := UserModel.StatusObject Py.ANone;
                 UserModel.hedera_account_id := Py.ANone |}
    | Py.VAtom _ => inr (Http.Error "AttributeError")
    end.

(** A dependency on another one: what the inner one raises comes out
    unchanged. *)
Definition depends (inner : UserModel.User + Http.outcome)
    (check : UserModel.User -> UserModel.User + Http.outcome)
    : UserModel.User + Http.outcome :=
  match inner with
  | inl current_user => check current_user
  | inr raised => inr raised
  end.

Definition get_current_active_user (request : Http.request) : UserModel.User + Http.outcome :=
  depends (get_current_user request)
    (fun current_user =>
       if negb (Py.truthy_atom (UserModel.is_active current_user))
       then inr (raise 403 "User account is inactive")
       else inl current_user).

Definition get_current_verified_user (request : Http.request) : UserModel.User + Http.outcome :=
  depends (get_current_active_user request)
    (fun current_user =>
       if negb (Py.truthy_atom (UserModel.is_verified current_user))
       then inr (raise 403 "Email verification required")
       else inl current_user).

Definition get_admin_user (request : Http.request) : UserModel.User + Http.outcome :=
  depends (get_current_verified_user request)
    (fun current_user =>
       if negb (UserModel.is_admin current_user)
       then inr (raise 403 "Admin privileges required")
       else inl current_user).

Definition get_oracle_user (request : Http.request) : UserModel.User + Http.outcome :=
  depends (get_current_verified_user request)
    (fun current_user =>
       if negb (UserModel.is_oracle current_user || UserModel.is_admin current_user)
       then inr (raise 403 "Oracle privileges required")
       else inl current_user).

End Deps.

(** ** api/v1/endpoints/auth.py: tokens, login and refresh *)

Module Account.
Section WithEncoder.
Context {E : Env}.

(** [jwt.encode(claims, secret_key, algorithm=algorithm)] *)
Variable jwt_encode : list (string * Py.atom) -> string.

(** [d.update({k: v})] *)
Fixpoint dict_update (d : list (string * Py.atom)) (k : string) (v : Py.atom)
    : list (string * Py.atom) :=
  match d with
  | [] => [(k, v)]
  | (k', a) :: d' =>
      if String.eqb k' k then (k', v) :: d' else (k', a) :: dict_update d' k v
  end.

(** The claims [create_access_token] hands to the encoder.  Times are in
    seconds; a zero [timedelta] is false. *)
Definition claims_to_encode (data : list (string * Py.atom)) (expires_delta : option Z)
    (utcnow : Z) : list (string * Py.atom) :=
  let expire :=
    match expires_delta with
    | Some delta =>
        if delta =? 0 then utcnow + access_token_expire_minutes settings * 60
        else utcnow + delta
    | None => utcnow + access_token_expire_minutes settings * 60
    end in
  dict_update data "exp" (Py.AInt expire).

Definition create_access_token (data : list (string * Py.atom)) (expires_delta : option Z)
    (utcnow : Z) : string :=
  jwt_encode (claims_to_encode data expires_delta utcnow).

Record TokenResponse : Type := {
  access_token : string;
  token_type : string;
  expires_in : Z
}.

(** [LoginResponse]: a token response with the user's data. *)
Record LoginResponse : Type := {
  token : TokenResponse;
  user : Py.value
}.

Definition demo_user (email : string) : list (string * Py.atom) :=
  [ ("id", Py.AStr "demo-user-id"); ("email", Py.AStr email);
    ("first_name", Py.AStr "Demo"); ("last_name", Py.AStr "User");
    ("country_code", Py.AStr "NG"); ("is_verified", Py.ABool true);
    ("is_active", Py.ABool true); ("role", Py.AStr "user") ].

(** [login_user] on validated credentials; the clock of the store is the
    wall clock. *)
Definition login_user (email password : string) (s : Redis.server)
    : (LoginResponse + Http.outcome) * Redis.server :=
  if String.eqb email "demo@predictpesa.com" && String.eqb password "demo123456" then
    let user_data := demo_user email in
    let access_token_expires := access_token_expire_minutes settings * 60 in
    let token_data :=
      [ ("sub", Py.dict_get user_data "id"); ("email", Py.dict_get user_data "email");
        ("role", Py.dict_get user_data "role");
        ("is_verified", Py.dict_get user_data "is_verified") ] in
    let encoded := create_access_token token_data (Some access_token_expires) (Redis.now s) in
    let cache_key := "user:" +:+ Py.str (Py.dict_get user_data "id") in
    let '(_, s1) := RedisCache.set RedisCache.cache cache_key (Py.VDict user_data)
                      (Some 300) s in
    (inl {| token := {| access_token := encoded; token_type := "bearer";
                        expires_in := access_token_expire_minutes settings * 60 |};
            user := Py.VDict user_data |}, s1)
  else (inr (Deps.raise 401 "Invalid credentials"), s).

(** [current_user.role.value]: only a member of the enumeration has it. *)
Definition role_dot_value (attr : UserModel.role_attr) : option string :=
  match attr with
  | UserModel.RoleMember r => Some (UserModel.role_value r)
  | UserModel.RoleObject _ => None
  end.

(** [refresh_token(current_user)]; any exception in the body ends in the
    500 answer. *)
Definition refresh_token (current_user : UserModel.User) (utcnow : Z)
    : TokenResponse + Http.outcome :=
  match role_dot_value (UserModel.role current_user) with
  | Some role =>
      let token_data :=
        [ ("sub", Py.AStr (Py.str (UserModel.id current_user)));
          ("email", UserModel.email current_user);
          ("role", Py.AStr role);
          ("is_verified", UserModel.is_verified current_user) ] in
      inl {| access_token := create_access_token token_data None utcnow;
             token_type := "bearer";
             expires_in := access_token_expire_minutes settings * 60 |}
  | None => inr (Deps.raise 500 "Token refresh failed")
  end.

End WithEncoder.
End Account.

(** ** api/v1/endpoints/markets.py: the routes and their dependencies *)

Module Markets.

(** Where the router is mounted: [/api/v1] in main.py, [/markets] in
    api/v1/__init__.py. *)
Definition mount : string := "/api/v1" +:+ "/markets".

Inductive handler : Type :=
| create_market
| list_markets
| get_market
| update_market
| delete_market
| get_market_stats
| resolve_market
| get_trending_markets
| get_featured_markets.

(** A route path: literal, or [/{market_id}] followed by a literal. *)
Inductive template : Type :=
| Literal (p : string)
| MarketId (suffix : string).

Record route : Type := { rmethod : string; rtemplate : template; rhandler : handler }.

(** The decorated functions of the module, in source order. *)
Definition routes : list route :=
  [ {| rmethod := "POST";   rtemplate := Literal "/create";    rhandler := create_market |};
    {| rmethod := "GET";    rtemplate := Literal "/";          rhandler := list_markets |};
    {| rmethod := "GET";    rtemplate := MarketId "";          rhandler := get_market |};
    {| rmethod := "PUT";    rtemplate := MarketId "";          rhandler := update_market |};
    {| rmethod := "DELETE"; rtemplate := MarketId "";          rhandler := delete_market |};
    {| rmethod := "GET";    rtemplate := MarketId "/stats";    rhandler := get_market_stats |};
    {| rmethod := "POST";   rtemplate := MarketId "/resolve";  rhandler := resolve_market |};
    {| rmethod := "GET";    rtemplate := Literal "/trending/"; rhandler := get_trending_markets |};
    {| rmethod := "GET";    rtemplate := Literal "/featured/"; rhandler := get_featured_markets |} ].

(** The functions that declare [current_user: User = Depends(get_current_user)]. *)
Definition requires_user (h : handler) : bool :=
  match h with
  | create_market | update_market | delete_market | resolve_market => true
  | _ => false
  end.

(** [s] without the leading [p], when it starts with it. *)
Fixpoint removeprefix (p s : string) : option string :=
  match p, s with
  | EmptyString, _ => Some s
  | String a p', String b s' => if Ascii.eqb a b then removeprefix p' s' else None
  | String _ _, EmptyString => None
  end.

(** The match of a path against a route: a path parameter stands for one
    or more characters other than [/]. *)
Definition matches (t : template) (path : string) : bool :=
  match removeprefix mount path with
  | None => false
  | Some rest =>
      match t with
      | Literal p => String.eqb rest p
      | MarketId suffix =>
          match rest with
          | String "/" after =>
              let '(market_id, tail) :=
                match Py.cut "/" after with
                | Some (l, r) => (l, String "/" r)
                | None => (after, EmptyString)
                end in
              negb (String.eqb market_id "") && String.eqb tail suffix
          | _ => false
          end
      end
  end.

(** A route answers the method of its decorator. *)
Definition method_matches (r : route) (method : string) : bool :=
  String.eqb (rmethod r) method.

(** The first route that matches path and method. *)
Definition resolve (method path : string) : option handler :=
  match find (fun r => method_matches r method && matches (rtemplate r) path) routes with
  | Some r => Some (rhandler r)
  | None => None
  end.

(** A request at the router.  The dependencies of the matched function
    are solved before its body runs: [get_current_user] reads
    [request.state], and the [HTTPException] it raises is answered by the
    framework's handler with the status, detail and headers it carries.
    [bodies] stands for the function bodies, which work on the database,
    and [elsewhere] for the other routers of the application.  The body of
    the request is not part of this account. *)
Definition app (bodies : handler -> Http.app) (elsewhere : Http.app) : Http.app :=
  fun request w =>
    match resolve (Http.method request) (Http.path request) with
    | Some h =>
        if requires_user h then
          match Deps.get_current_user request with
          | inl _ => bodies h request w
          | inr (Http.RaisedException m) => (Http.Response m, w)
          | inr o => (o, w)
          end
        else bodies h request w
    | None => elsewhere request w
    end.

End Markets.

(** ** A second environment for the examples *)

Module Sample.

(** Besides the token of [Demo], a token [demo] issued to the demo
    account, a token [anon] that carries no subject, and a later token
    [promoted] of subject [u1] with the role of an administrator. *)
Definition decode (now : Z) (token : string) : jwt_result :=
  if String.eqb token "demo" then
    Decoded [ ("sub", Py.AStr "demo-user-id"); ("email", Py.AStr "demo@predictpesa.com");
              ("role", Py.AStr "user"); ("is_verified", Py.ABool true);
              ("exp", Py.AInt 1800) ]
  else if String.eqb token "anon" then Decoded [ ("exp", Py.AInt 1800) ]
  else if String.eqb token "promoted" then
    Decoded [ ("sub", Py.AStr "u1"); ("email", Py.AStr "demo@predictpesa.com");
              ("role", Py.AStr "admin"); ("is_verified", Py.ABool true);
              ("exp", Py.AInt 3600) ]
  else Demo.decode now token.

Definition env : Env :=
  {| jwt_decode := decode;
     uuid4 := fun n => "uuid-" +:+ Py.str_of_int (Z.of_nat n);
     settings := Demo.config |}.

(** An encoder that issues the token [demo]. *)
Definition encode (claims : list (string * Py.atom)) : string := "demo".

End Sample.

(** * Properties *)

(** ** The model on small inputs *)

Example lower_bearer : Py.lower "BeArEr" = "bearer".
Proof. reflexivity. Qed.

Example first_forwarded_ip :
  Py.strip (Py.split_head "," " 10.0.0.1 , 10.0.0.2") = "10.0.0.1".
Proof. reflexivity. Qed.

Example create_path_contains :
  Py.contains "/markets/create" "/api/v1/markets/create" = true.
Proof. reflexivity. Qed.

Example str_of_int_samples :
  Py.str_of_int 100 = "100" /\ Py.str_of_int 0 = "0" /\ Py.str_of_int (-3) = "-3".
Proof. repeat split; reflexivity. Qed.

Example extract_token_samples :
  AuthMiddleware._extract_token (Demo.request "GET" "/" (Some "Bearer abc def")) = Some "abc def" /\
  AuthMiddleware._extract_token (Demo.request "GET" "/" (Some "bearer abc")) = Some "abc" /\
  AuthMiddleware._extract_token (Demo.request "GET" "/" (Some "Basic abc")) = None /\
  AuthMiddleware._extract_token (Demo.request "GET" "/" (Some "Bearer")) = None /\
  AuthMiddleware._extract_token (Demo.request "GET" "/" None) = None.
Proof. repeat split; reflexivity. Qed.

Example limits_samples :
  let self := RateLimitMiddleware.__init__ (E := Demo.env) None None in
  RateLimitMiddleware._get_limits_for_path self "/api/v1/markets/create" "POST" = (5, 60) /\
  RateLimitMiddleware._get_limits_for_path self "/api/v1/stakes/create" "POST" = (10, 60) /\
  RateLimitMiddleware._get_limits_for_path self "/api/v1/auth/login" "POST" = (5, 60) /\
  RateLimitMiddleware._get_limits_for_path self "/api/v1/users/me" "PUT" = (50, 60) /\
  RateLimitMiddleware._get_limits_for_path self "/api/v1/markets/" "GET" = (200, 60) /\
  RateLimitMiddleware._get_limits_for_path self "/api/v1/users/me" "GET" = (100, 60).
Proof. repeat split; reflexivity. Qed.

Example stack_of_the_defaults :
  Main.create_application (E := Demo.env) =
    [Http.SMetrics; Http.SAuth; Http.SRateLimit; Http.SRequestID; Http.SCORS].
Proof. reflexivity. Qed.



(** ** The store *)

Section StoreFacts.

Lemma live_with_kv_insert (s : Redis.server) (k : string) (e : Redis.entry) :
  Redis.live (Redis.with_kv s (<[k := e]> (Redis.kv s))) k =
  match Redis.expires_at e with
  | Some t => if t <=? Redis.now s then None else Some e
  | None => Some e
  end.
Proof.
  unfold Redis.live, Redis.with_kv; simpl.
  rewrite lookup_insert_eq. reflexivity.
Qed.

Lemma live_with_kv_insert_ne (s : Redis.server) (k k' : string) (e : Redis.entry) :
  k <> k' ->
  Redis.live (Redis.with_kv s (<[k := e]> (Redis.kv s))) k' = Redis.live s k'.
Proof.
  intros Hne. unfold Redis.live, Redis.with_kv; simpl.
  rewrite lookup_insert_ne by assumption. reflexivity.
Qed.

(** The two commands of [is_allowed] on an answering store whose counter
    is usable, for a window within the server's time range: the counter
    goes up by one and expires [window] from now. *)
Lemma execute_incr_expire (key : string) (window : Z) (s : Redis.server) (n : Z) :
  Redis.next_fault s = false ->
  0 < window ->
  Redis.in_time_range s window = true ->
  Redis.counter s key = Some n ->
  Redis.int64 (n + 1) = true ->
  Redis.execute [Redis.INCRBY key 1; Redis.EXPIRE key window] s =
  (Some [Redis.RInt (n + 1); Redis.RInt 1], Redis.bumped key window n s).
Proof.
  intros Hf Hw Hin Hc Hr.
  unfold Redis.execute, Redis.hand_over, Redis.bumped. rewrite Hf.
  set (s1 := Redis.Server _ _ _ _).
  assert (Hlive : Redis.live s1 key = Redis.live s key) by reflexivity.
  assert (Hin1 : forall m, Redis.in_time_range (Redis.with_kv s1 m) window = true)
    by (intros m; exact Hin).
  unfold Redis.counter in Hc.
  cbn [Redis.run Redis.apply]. change (Redis.int64 1) with true. cbn [negb].
  rewrite Hlive.
  destruct (Redis.live s key) as [[v ex]|] eqn:Hl.
  - destruct v as [[| |m|]|]; try discriminate.
    destruct (Redis.int64 m) eqn:Hm; [|discriminate].
    injection Hc as ->. rewrite Hr. cbn [andb].
    rewrite Hin1. cbn [negb].
    rewrite live_with_kv_insert. cbn [Redis.expires_at].
    assert (Hex : match ex with
                  | Some t => if t <=? Redis.now s1 then None
                              else Some (Redis.Entry (Py.VAtom (Py.AInt (n + 1))) ex)
                  | None => Some (Redis.Entry (Py.VAtom (Py.AInt (n + 1))) ex)
                  end = Some (Redis.Entry (Py.VAtom (Py.AInt (n + 1))) ex)).
    { unfold Redis.live in Hl. destruct (Redis.kv s !! key) as [e0|]; [|discriminate].
      destruct (Redis.expires_at e0) as [t0|] eqn:He0.
      - destruct (t0 <=? Redis.now s) eqn:Ht; [discriminate|].
        injection Hl as ->. cbn in He0. subst ex.
        change (Redis.now s1) with (Redis.now s). rewrite Ht. reflexivity.
      - injection Hl as ->. cbn in He0. subst ex. reflexivity. }
    rewrite Hex.
    destruct (window <=? 0) eqn:Hw0; [lia|].
    cbn. rewrite insert_insert_eq. reflexivity.
  - injection Hc as <-.
    rewrite Hin1. cbn [negb].
    rewrite live_with_kv_insert. cbn [Redis.expires_at].
    destruct (window <=? 0) eqn:Hw0; [lia|].
    cbn. rewrite insert_insert_eq. reflexivity.
Qed.

Lemma counter_bumped (key : string) (window n : Z) (s : Redis.server) :
  0 < window -> Redis.int64 (n + 1) = true ->
  Redis.counter (Redis.bumped key window n s) key = Some (n + 1).
Proof.
  intros Hw Hr. unfold Redis.counter, Redis.live, Redis.bumped; simpl.
  rewrite lookup_insert_eq; simpl.
  destruct (Redis.now s + window <=? Redis.now s) eqn:H; [lia|].
  rewrite Hr. reflexivity.
Qed.

Lemma next_fault_bumped (key : string) (window n : Z) (s : Redis.server) :
  Redis.faults s = [] ->
  Redis.faults (Redis.bumped key window n s) = [] /\
  Redis.next_fault (Redis.bumped key window n s) = false.
Proof.
  intros H. unfold Redis.next_fault, Redis.bumped; simpl. rewrite H. split; reflexivity.
Qed.

End StoreFacts.

(** ** The rate limiter *)

Section RateLimiterFacts.

Lemma allowed_remaining (n limit : Z) :
  (if n <=? limit then (true, limit - n) else (false, 0)) =
  (n <=? limit, Z.max 0 (limit - n)).
Proof.
  destruct (n <=? limit) eqn:H; f_equal; lia.
Qed.

Lemma is_allowed_answered (key : string) (limit window : Z) (s : Redis.server) (n : Z) :
  Redis.next_fault s = false ->
  0 < window ->
  Redis.in_time_range s window = true ->
  Redis.counter s key = Some n ->
  Redis.int64 (n + 1) = true ->
  RateLimiter.is_allowed key limit window s =
  ((n + 1 <=? limit, Z.max 0 (limit - (n + 1))), Redis.bumped key window n s).
Proof.
  intros Hf Hw Hin Hc Hr. unfold RateLimiter.is_allowed.
  rewrite (execute_incr_expire key window s n Hf Hw Hin Hc Hr).
  rewrite <- allowed_remaining. destruct (n + 1 <=? limit); reflexivity.
Qed.

Lemma is_allowed_faulted (key : string) (limit window : Z) (s : Redis.server) :
  Redis.next_fault s = true ->
  RateLimiter.is_allowed key limit window s =
  ((true, limit),
   Redis.Server (Redis.kv s) (Redis.now s) (tail (Redis.faults s))
     (Redis.wire s ++ [Redis.INCRBY key 1; Redis.EXPIRE key window])).
Proof.
  intros Hf. unfold RateLimiter.is_allowed, Redis.execute, Redis.hand_over.
  rewrite Hf. reflexivity.
Qed.

End RateLimiterFacts.

(** C4. An error-free [is_allowed] call whose increment yields [n]
    returns [allowed = (n <= limit)] and [remaining = max(0, limit - n)];
    with limit 5, six calls in a row on a fresh key of a reachable store,
    for a window that the store takes as a lifetime (so that the calls are
    free of errors), return remaining 4, 3, 2, 1, 0, all allowed, and then
    a rejection. *)
Theorem is_allowed_counts :
  (forall (key : string) (limit window n : Z) (rest : list Redis.reply)
          (s s' : Redis.server),
      Redis.execute [Redis.INCRBY key 1; Redis.EXPIRE key window] s =
        (Some (Redis.RInt n :: rest), s') ->
      RateLimiter.is_allowed key limit window s =
        ((n <=? limit, Z.max 0 (limit - n)), s'))
  /\
  (forall (key : string) (window : Z) (s : Redis.server),
      0 < window ->
      Redis.in_time_range s window = true ->
      Redis.live s key = None ->
      Redis.faults s = [] ->
      fst (RateLimiter.successive 6 key 5 window s) =
        [(true, 4); (true, 3); (true, 2); (true, 1); (true, 0); (false, 0)]).
Proof.
  split.
  - intros key limit window n rest s s' Hx.
    unfold RateLimiter.is_allowed. rewrite Hx.
    rewrite <- allowed_remaining. destruct (n <=? limit); reflexivity.
  - intros key window s Hw Hin Hl Hf.
    assert (Hc : Redis.counter s key = Some 0) by (unfold Redis.counter; rewrite Hl; reflexivity).
    assert (Hn : Redis.next_fault s = false) by (unfold Redis.next_fault; rewrite Hf; reflexivity).
    cbn [RateLimiter.successive].
    rewrite (is_allowed_answered key 5 window s 0 Hn Hw Hin Hc eq_refl).
    repeat
      match goal with
      | |- context [RateLimiter.is_allowed key 5 window (Redis.bumped key window ?n ?t)] =>
          let Hf' := fresh "Hf" in
          assert (Hf' : Redis.faults t = []) by
            (first [ exact Hf | apply next_fault_bumped; assumption ]);
          rewrite (is_allowed_answered key 5 window (Redis.bumped key window n t) (n + 1)
                     (proj2 (next_fault_bumped key window n t Hf'))
                     Hw Hin (counter_bumped key window n t Hw eq_refl) eq_refl)
      end.
    reflexivity.
Qed.

Lemma is_allowed_counts_witness :
  RateLimiter.is_allowed "rate_limit:ip:10.0.0.1:/x" 5 60 Redis.fresh =
    ((1 <=? 5, Z.max 0 (5 - 1)),
     snd (Redis.execute [Redis.INCRBY "rate_limit:ip:10.0.0.1:/x" 1;
                         Redis.EXPIRE "rate_limit:ip:10.0.0.1:/x" 60] Redis.fresh))
  /\
  fst (RateLimiter.successive 6 "rate_limit:ip:10.0.0.1:/x" 5 60 Redis.fresh) =
    [(true, 4); (true, 3); (true, 2); (true, 1); (true, 0); (false, 0)].
Proof.
  split.
  - apply (proj1 is_allowed_counts) with (rest := [Redis.RInt 1]). reflexivity.
  - apply (proj2 is_allowed_counts); [lia | reflexivity | reflexivity | reflexivity].
Defined.

Section FailOpen.

Lemma successive_unreachable (n : nat) (key : string) (limit window : Z) :
  forall (s : Redis.server) (rest : list bool),
    Redis.faults s = replicate n true ++ rest ->
    fst (RateLimiter.successive n key limit window s) = replicate n (true, limit) /\
    Redis.kv (snd (RateLimiter.successive n key limit window s)) = Redis.kv s /\
    Redis.faults (snd (RateLimiter.successive n key limit window s)) = rest.
Proof.
  induction n as [|n IH]; intros s rest Hf.
  - simpl in *. auto.
  - assert (Hn : Redis.next_fault s = true)
      by (unfold Redis.next_fault; rewrite Hf; reflexivity).
    cbn [RateLimiter.successive].
    rewrite (is_allowed_faulted key limit window s Hn).
    set (s1 := Redis.Server _ _ _ _).
    destruct (IH s1 rest) as (Hr & Hk & Hrest).
    { unfold s1; simpl. rewrite Hf. reflexivity. }
    destruct (RateLimiter.successive n key limit window s1) as [rs s2].
    simpl in *. subst rs. auto.
Qed.

End FailOpen.

(** C5. Whenever the round trip of [is_allowed] fails, by a transport
    fault or by an error reply, the call returns [(True, limit)]; while
    the store stays unreachable every call is admitted, whatever the
    volume; the middleware's check then answers the route's limit.  The
    call returns a pair in every case: no exception leaves it. *)
Theorem is_allowed_fail_open :
  (forall (key : string) (limit window : Z) (s s' : Redis.server),
      Redis.execute [Redis.INCRBY key 1; Redis.EXPIRE key window] s = (None, s') ->
      RateLimiter.is_allowed key limit window s = ((true, limit), s'))
  /\
  (forall (n : nat) (key : string) (limit window : Z) (s : Redis.server)
          (rest : list bool),
      Redis.faults s = replicate n true ++ rest ->
      fst (RateLimiter.successive n key limit window s) = replicate n (true, limit))
  /\
  (forall (self : RateLimitMiddleware.t) (client_id : string)
          (request : Http.request) (s : Redis.server),
      Redis.next_fault s = true ->
      fst (RateLimitMiddleware._check_rate_limit self client_id request s) =
        (true, fst (RateLimitMiddleware._get_limits_for_path self
                      (Http.path request) (Http.method request)))).
Proof.
  split; [|split].
  - intros key limit window s s' Hx. unfold RateLimiter.is_allowed.
    rewrite Hx. reflexivity.
  - intros n key limit window s rest Hf.
    apply (successive_unreachable n key limit window s rest Hf).
  - intros self client_id request s Hf.
    unfold RateLimitMiddleware._check_rate_limit.
    destruct (RateLimitMiddleware._get_limits_for_path self _ _) as [limit window].
    rewrite is_allowed_faulted by assumption. reflexivity.
Qed.

(** C6 as amended.  Every error-free [is_allowed] call leaves the counter
    expiring [window] seconds from the time of the call, whether the call
    created the counter or found it: the expiry is set on each hit.  The
    call is free of errors when the store answers, the counter is an
    integer with room for one more, and the window is a lifetime that the
    store takes. *)
Theorem is_allowed_sets_ttl_on_every_call
    (key : string) (limit window : Z) (s : Redis.server) (n : Z) :
  Redis.next_fault s = false ->
  0 < window ->
  Redis.in_time_range s window = true ->
  Redis.counter s key = Some n ->
  Redis.int64 (n + 1) = true ->
  Redis.expires_at <$> Redis.live (snd (RateLimiter.is_allowed key limit window s)) key =
    Some (Some (Redis.now s + window)).
Proof.
  intros Hf Hw Hin Hc Hr.
  rewrite (is_allowed_answered key limit window s n Hf Hw Hin Hc Hr).
  unfold Redis.live, Redis.bumped; simpl.
  rewrite lookup_insert_eq; simpl.
  destruct (Redis.now s + window <=? Redis.now s) eqn:H; [lia|reflexivity].
Qed.

Lemma is_allowed_fail_open_witness :
  RateLimiter.is_allowed "k" 5 60 (Demo.with_faults [true; true; true] Redis.fresh) =
    ((true, 5),
     snd (Redis.execute [Redis.INCRBY "k" 1; Redis.EXPIRE "k" 60]
            (Demo.with_faults [true; true; true] Redis.fresh)))
  /\
  fst (RateLimiter.successive 3 "k" 5 60 (Demo.with_faults [true; true; true] Redis.fresh)) =
    [(true, 5); (true, 5); (true, 5)]
  /\
  fst (RateLimitMiddleware._check_rate_limit
         (RateLimitMiddleware.__init__ (E := Demo.env) None None) "ip:10.0.0.1"
         (Demo.request "POST" "/api/v1/markets/create" None)
         (Demo.with_faults [true] Redis.fresh)) = (true, 5).
Proof.
  destruct is_allowed_fail_open as (H1 & H2 & H3).
  split; [|split].
  - apply H1. reflexivity.
  - apply (H2 3%nat "k" 5 60 _ []). reflexivity.
  - apply H3. reflexivity.
Defined.

Lemma is_allowed_sets_ttl_on_every_call_witness :
  Redis.expires_at <$>
    Redis.live
      (snd (RateLimiter.is_allowed "k" 5 60
              (Redis.advance 30 (snd (RateLimiter.is_allowed "k" 5 60 Redis.fresh)))))
      "k" = Some (Some (30 + 60)).
Proof.
  apply (is_allowed_sets_ttl_on_every_call "k" 5 60
           (Redis.advance 30 (snd (RateLimiter.is_allowed "k" 5 60 Redis.fresh))) 1);
    reflexivity.
Defined.

(** C6 as claimed fails: a second hit, 30 seconds into a 60-second window,
    finds the counter at 1 with 30 seconds to live and leaves it with 60. *)
Lemma ttl_changed_on_later_hit :
  let s1 := snd (RateLimiter.is_allowed "k" 5 60 Redis.fresh) in
  let s2 := Redis.advance 30 s1 in
  let s3 := snd (RateLimiter.is_allowed "k" 5 60 s2) in
  Redis.counter s2 "k" = Some 1 /\
  Redis.now s2 = 30 /\ Redis.now s3 = 30 /\
  Redis.expires_at <$> Redis.live s2 "k" = Some (Some 60) /\
  Redis.expires_at <$> Redis.live s3 "k" = Some (Some 90) /\
  ~ (forall (key : string) (limit window : Z) (s : Redis.server) (e : Redis.entry),
        Redis.next_fault s = false ->
        Redis.live s key = Some e ->
        Redis.expires_at <$> Redis.live (snd (RateLimiter.is_allowed key limit window s)) key =
          Some (Redis.expires_at e)).
Proof.
  repeat split; try reflexivity.
  intros H.
  specialize (H "k" 5 60
                (Redis.advance 30 (snd (RateLimiter.is_allowed "k" 5 60 Redis.fresh)))
                (Redis.Entry (Py.VAtom (Py.AInt 1)) (Some 60)) eq_refl eq_refl).
  vm_compute in H. discriminate H.
Qed.

(** ** The cache facade *)

(** Case analysis on the tests that [Redis.apply] makes. *)
Ltac split_apply :=
  repeat match goal with
         | |- context [if ?b then _ else _] => destruct b
         | |- context [match ?x with _ => _ end] => destruct x
         end.

Section FacadeFacts.

Lemma apply_frame (c : Redis.command) (s : Redis.server) :
  Redis.now (snd (Redis.apply c s)) = Redis.now s /\
  Redis.faults (snd (Redis.apply c s)) = Redis.faults s /\
  Redis.wire (snd (Redis.apply c s)) = Redis.wire s.
Proof.
  destruct c as [k|k v ex|k|k|k a|k sec]; cbn [Redis.apply]; split_apply; auto.
Qed.

Lemma call_frame (c : Redis.command) (s : Redis.server) :
  Redis.now (snd (Redis.call c s)) = Redis.now s /\
  Redis.faults (snd (Redis.call c s)) = tail (Redis.faults s) /\
  Redis.wire (snd (Redis.call c s)) = Redis.wire s ++ [c].
Proof.
  unfold Redis.call, Redis.hand_over.
  destruct (Redis.next_fault s).
  - auto.
  - set (s1 := Redis.Server _ _ _ _).
    destruct (apply_frame c s1) as (Hn & Hf & Hw).
    rewrite Hn, Hf, Hw. auto.
Qed.

Lemma exists_answered (self : RedisCache.t) (key : string) (s : Redis.server) :
  Redis.next_fault s = false ->
  fst (RedisCache.exists_ self key s) = Redis.is_live s (RedisCache._make_key self key).
Proof.
  intros Hf. unfold RedisCache.exists_, Redis.call, Redis.hand_over.
  rewrite Hf. cbn [Redis.apply fst].
  set (s1 := Redis.Server _ _ _ _).
  change (Redis.is_live s1 (RedisCache._make_key self key))
    with (Redis.is_live s (RedisCache._make_key self key)).
  destruct (Redis.is_live s _); reflexivity.
Qed.

Lemma exists_now (self : RedisCache.t) (key : string) (s : Redis.server) :
  Redis.now (snd (RedisCache.exists_ self key s)) = Redis.now s.
Proof.
  unfold RedisCache.exists_.
  pose proof (call_frame (Redis.EXISTS (RedisCache._make_key self key)) s) as (Hn & _).
  destruct (Redis.call _ s) as [[r|] s']; exact Hn.
Qed.

End FacadeFacts.

(** ** Token validation and the auth middleware *)

Section AuthFacts.
Context {E : Env}.

Lemma validate_blacklisted (token : string) (s : Redis.server) :
  fst (RedisCache.exists_ RedisCache.cache ("blacklist:" +:+ token) s) = true ->
  fst (AuthMiddleware._validate_token token s) = Py.VAtom Py.ANone.
Proof.
  intros H. unfold AuthMiddleware._validate_token.
  destruct (RedisCache.exists_ _ _ s) as [b s1]. simpl in H. subst b. reflexivity.
Qed.

Lemma validate_decode_failure (token : string) (s : Redis.server) :
  (forall payload, jwt_decode (Redis.now s) token <> Decoded payload) ->
  fst (AuthMiddleware._validate_token token s) = Py.VAtom Py.ANone.
Proof.
  intros H. unfold AuthMiddleware._validate_token.
  pose proof (exists_now RedisCache.cache ("blacklist:" +:+ token) s) as Hn.
  destruct (RedisCache.exists_ _ _ s) as [b s1]. simpl in Hn.
  destruct b; [reflexivity|]. rewrite Hn.
  destruct (jwt_decode (Redis.now s) token) as [payload| | |] eqn:Hd;
    try reflexivity.
  exfalso. exact (H payload eq_refl).
Qed.

(** A request that is not exempt and carries a token that does not
    validate gets the unauthorized answer. *)
Lemma dispatch_invalid_token (request : Http.request) (call_next : Http.app)
    (w : Http.world) (a : ascii) (t : string) :
  AuthMiddleware._is_exempt_path (Http.path request) = false ->
  AuthMiddleware._extract_token request = Some (String a t) ->
  fst (AuthMiddleware._validate_token (String a t) (Http.store w)) = Py.VAtom Py.ANone ->
  fst (AuthMiddleware.dispatch request call_next w) = AuthMiddleware._unauthorized_response.
Proof.
  intros Hx Ht Hv. unfold AuthMiddleware.dispatch. rewrite Hx, Ht.
  destruct (AuthMiddleware._validate_token (String a t) (Http.store w)) as [u s1].
  simpl in Hv. subst u. reflexivity.
Qed.

Lemma dispatch_missing_token (request : Http.request) (call_next : Http.app)
    (w : Http.world) :
  AuthMiddleware._is_exempt_path (Http.path request) = false ->
  AuthMiddleware._requires_auth (Http.path request) = true ->
  (AuthMiddleware._extract_token request = None \/
   AuthMiddleware._extract_token request = Some "") ->
  fst (AuthMiddleware.dispatch request call_next w) = AuthMiddleware._unauthorized_response.
Proof.
  intros Hx Hr Ht. unfold AuthMiddleware.dispatch. rewrite Hx, Hr.
  destruct Ht as [-> | ->]; reflexivity.
Qed.

End AuthFacts.

(** ** The middleware stack *)

Section StackFacts.
Context {E : Env}.

Lemma application_unfold (router : Http.endpoint) :
  Main.application router =
  let below :=
    if is_production settings
    then Main.wrap Http.STrustedHost (Main.wrap Http.SCORS (Http.serve router))
    else Main.wrap Http.SCORS (Http.serve router) in
  let core :=
    Main.wrap Http.SAuth (Main.wrap Http.SRateLimit (Main.wrap Http.SRequestID below)) in
  if prometheus_enabled settings then Main.wrap Http.SMetrics core else core.
Proof.
  unfold Main.application, Main.create_application, Main.build_middleware_stack,
    Main.add_middleware.
  destruct (is_production settings), (prometheus_enabled settings); reflexivity.
Qed.

Lemma send_response_idempotent (o : Http.outcome) :
  Main.send_response (Main.send_response o) = Main.send_response o.
Proof. destruct o; reflexivity. Qed.

Lemma wrap_auth (inner : Http.app) (request : Http.request) (w : Http.world) :
  Main.wrap Http.SAuth inner request w =
  (Main.send_response (fst (AuthMiddleware.dispatch request inner (Main.enter Http.SAuth w))),
   snd (AuthMiddleware.dispatch request inner (Main.enter Http.SAuth w))).
Proof.
  unfold Main.wrap, Main.base_http_middleware.
  destruct (AuthMiddleware.dispatch request inner _) as [o w1]. reflexivity.
Qed.

Lemma wrap_metrics (inner : Http.app) (request : Http.request) (w : Http.world) :
  Main.wrap Http.SMetrics inner request w =
  (Main.send_response (fst (inner request (Main.enter Http.SMetrics w))),
   snd (inner request (Main.enter Http.SMetrics w))).
Proof.
  unfold Main.wrap, Main.base_http_middleware, Main.metrics_dispatch.
  destruct (inner request _) as [o w1]. reflexivity.
Qed.

Lemma wrap_rate_limit (inner : Http.app) (request : Http.request) (w : Http.world) :
  Main.wrap Http.SRateLimit inner request w =
  (Main.send_response
     (fst (RateLimitMiddleware.dispatch (RateLimitMiddleware.__init__ None None)
             request inner (Main.enter Http.SRateLimit w))),
   snd (RateLimitMiddleware.dispatch (RateLimitMiddleware.__init__ None None)
          request inner (Main.enter Http.SRateLimit w))).
Proof.
  unfold Main.wrap, Main.base_http_middleware.
  destruct (RateLimitMiddleware.dispatch _ request inner _) as [o w1]. reflexivity.
Qed.

Lemma wrap_request_id (inner : Http.app) (request : Http.request) (w : Http.world) :
  Main.wrap Http.SRequestID inner request w =
  (Main.send_response
     (fst (RequestIDMiddleware.dispatch request inner (Main.enter Http.SRequestID w))),
   snd (RequestIDMiddleware.dispatch request inner (Main.enter Http.SRequestID w))).
Proof.
  unfold Main.wrap, Main.base_http_middleware.
  destruct (RequestIDMiddleware.dispatch request inner _) as [o w1]. reflexivity.
Qed.

(** The auth middleware is the first custom stage a request meets, on the
    store as the request found it; what its [dispatch] ends with is sent
    as the response of the application. *)
Lemma application_auth_outermost (router : Http.endpoint) (request : Http.request)
    (w : Http.world) :
  exists (inner : Http.app) (w' : Http.world),
    Http.store w' = Http.store w /\
    Http.draws w' = Http.draws w /\
    Main.application router request w =
      (Main.send_response (fst (AuthMiddleware.dispatch request inner w')),
       snd (AuthMiddleware.dispatch request inner w')).
Proof.
  rewrite application_unfold. cbv zeta.
  destruct (prometheus_enabled settings).
  - eexists _, (Main.enter Http.SAuth (Main.enter Http.SMetrics w)).
    split; [reflexivity|]. split; [reflexivity|].
    rewrite wrap_metrics, wrap_auth. cbn [fst snd].
    rewrite send_response_idempotent. reflexivity.
  - eexists _, (Main.enter Http.SAuth w).
    split; [reflexivity|]. split; [reflexivity|].
    rewrite wrap_auth. reflexivity.
Qed.

End StackFacts.

Section PipelineRejects.
Context {E : Env}.

(** For each cause of refusal [dispatch] returns the exception object
    that [_unauthorized_response] builds, without calling the next stage. *)
Lemma dispatch_refuses
    (request : Http.request) (call_next : Http.app) (w : Http.world) :
  AuthMiddleware._is_exempt_path (Http.path request) = false ->
  refusal_cause request (Http.store w) ->
  fst (AuthMiddleware.dispatch request call_next w) = AuthMiddleware._unauthorized_response.
Proof.
  intros Hx Hcause.
  destruct Hcause as [[Hr Ht] | (a & t & Ht & Hc)].
  - apply dispatch_missing_token; assumption.
  - apply (dispatch_invalid_token request call_next w a t Hx Ht).
    destruct Hc as [Hd | [Hf Hl]].
    + apply validate_decode_failure. exact Hd.
    + apply validate_blacklisted. rewrite exists_answered by assumption. exact Hl.
Qed.

(** The framework then awaits that object as a response, which ends the
    request in a [TypeError]. *)
Lemma pipeline_rejects
    (router : Http.endpoint) (request : Http.request) (w : Http.world) :
  AuthMiddleware._is_exempt_path (Http.path request) = false ->
  refusal_cause request (Http.store w) ->
  fst (Main.application router request w) = Http.Error "TypeError".
Proof.
  intros Hx Hcause.
  destruct (application_auth_outermost router request w) as (inner & w' & Hs & _ & ->).
  cbn [fst]. rewrite dispatch_refuses; [reflexivity|assumption|].
  rewrite Hs. exact Hcause.
Qed.

(** A header [Bearer <token>] is read as that token. *)
Lemma extract_token_bearer (request : Http.request) (token : string) :
  Http.authorization (Http.hdrs request) = Some ("Bearer " +:+ token) ->
  AuthMiddleware._extract_token request = Some token.
Proof.
  intros H. unfold AuthMiddleware._extract_token. rewrite H. reflexivity.
Qed.

Lemma extract_token_no_header (request : Http.request) :
  Http.authorization (Http.hdrs request) = None ->
  AuthMiddleware._extract_token request = None.
Proof.
  intros H. unfold AuthMiddleware._extract_token. rewrite H. reflexivity.
Qed.

End PipelineRejects.

Section AuthTheorems.
Context {E : Env}.

(** C7.  The code builds the uniform answer and then loses it.  For each
    authentication failure on a path that is not exempt (no Authorization
    header on a protected path; a header [Bearer <token>] whose token the
    decoder refuses, for a bad signature or as expired; a token that the
    answered blacklist check finds), [dispatch] ends with the object of
    [_unauthorized_response], which carries status 401, one fixed message
    and WWW-Authenticate: Bearer.  That object is an exception instance
    and it is returned, not raised: the framework awaits it as a response,
    and the application ends the request in a [TypeError] instead of a
    401. *)
Theorem authentication_failure_ends_in_type_error
    (router : Http.endpoint) (request : Http.request) (w : Http.world) :
  AuthMiddleware._is_exempt_path (Http.path request) = false ->
  ( (AuthMiddleware._requires_auth (Http.path request) = true /\
     Http.authorization (Http.hdrs request) = None)
    \/
    (exists (a : ascii) (t : string),
        Http.authorization (Http.hdrs request) = Some ("Bearer " +:+ String a t) /\
        ( jwt_decode (Redis.now (Http.store w)) (String a t) = InvalidTokenError
          \/ jwt_decode (Redis.now (Http.store w)) (String a t) = ExpiredSignatureError
          \/ (Redis.next_fault (Http.store w) = false /\
              Redis.is_live (Http.store w)
                (RedisCache._make_key RedisCache.cache ("blacklist:" +:+ String a t)) = true))) ) ->
  (forall call_next : Http.app,
      fst (AuthMiddleware.dispatch request call_next w) =
        Http.ReturnedException
          {| Http.status_code := 401;
             Http.detail := "Invalid or missing authentication token";
             Http.headers_out := [("WWW-Authenticate", "Bearer")] |})
  /\ fst (Main.application router request w) = Http.Error "TypeError"
  /\ Http.outcome_status (fst (Main.application router request w)) <> Some 401.
Proof.
  intros Hx Hcause.
  assert (Hc : refusal_cause request (Http.store w)).
  { destruct Hcause as [[Hr Hh] | (a & t & Hh & Hc)].
    - left. split; [exact Hr|]. left. apply extract_token_no_header. exact Hh.
    - right. exists a, t. split; [apply extract_token_bearer; exact Hh|].
      destruct Hc as [Hd | [Hd | Hb]].
      + left. intros payload. rewrite Hd. discriminate.
      + left. intros payload. rewrite Hd. discriminate.
      + right. exact Hb. }
  split; [|split].
  - intros call_next. apply dispatch_refuses; assumption.
  - apply pipeline_rejects; assumption.
  - rewrite (pipeline_rejects router request w Hx Hc). discriminate.
Qed.

End AuthTheorems.

Lemma authentication_failure_ends_in_type_error_witness :
  let protected := "/api/v1/users/me" in
  let lost :=
    fun (authorization : option string) (s : Redis.server) =>
      fst (Main.application (E := Demo.env) Demo.ok
             (Demo.request "GET" protected authorization) (Demo.world_of s)) =
      Http.Error "TypeError" in
  lost None Redis.fresh /\
  lost (Some "Bearer forged") Redis.fresh /\
  lost (Some "Bearer good") (Redis.advance 2000 Redis.fresh) /\
  lost (Some "Bearer good") Demo.after_logout.
Proof.
  cbv zeta. split; [|split; [|split]].
  - apply (authentication_failure_ends_in_type_error (E := Demo.env)); [reflexivity|].
    left. split; reflexivity.
  - apply (authentication_failure_ends_in_type_error (E := Demo.env)); [reflexivity|].
    right. exists "f"%char, "orged". split; [reflexivity | left; reflexivity].
  - apply (authentication_failure_ends_in_type_error (E := Demo.env)); [reflexivity|].
    right. exists "g"%char, "ood". split; [reflexivity | right; left; reflexivity].
  - apply (authentication_failure_ends_in_type_error (E := Demo.env)); [reflexivity|].
    right. exists "g"%char, "ood".
    split; [reflexivity | right; right; split; reflexivity].
Defined.

Section BlacklistFacts.
Context {E : Env}.

Lemma user_key_not_blacklist_key (u token : string) :
  RedisCache._make_key RedisCache.cache ("user:" +:+ u) <>
  RedisCache._make_key RedisCache.cache ("blacklist:" +:+ token).
Proof. cbn. discriminate. Qed.

(** An answered logout leaves the blacklist entry of the token in the
    store, expiring one access-token lifetime later. *)
Lemma logout_writes_blacklist (user_id : Py.atom) (token : string) (s : Redis.server) :
  Redis.next_fault s = false ->
  0 < access_token_expire_minutes settings * 60 ->
  Redis.in_time_range s (access_token_expire_minutes settings * 60) = true ->
  let s' := snd (Endpoints.logout_user user_id token s) in
  Redis.kv s' !! RedisCache._make_key RedisCache.cache ("blacklist:" +:+ token) =
    Some (Redis.Entry (Py.VAtom (Py.ABool true))
            (Some (Redis.now s + access_token_expire_minutes settings * 60)))
  /\ Redis.now s' = Redis.now s.
Proof.
  intros Hf Hpos Hin. cbv zeta.
  set (bk := RedisCache._make_key RedisCache.cache ("blacklist:" +:+ token)).
  set (ttl := access_token_expire_minutes settings * 60) in *.
  set (s1 := Redis.Server
               (<[bk := Redis.Entry (Py.VAtom (Py.ABool true)) (Some (Redis.now s + ttl))]>
                  (Redis.kv s))
               (Redis.now s) (tail (Redis.faults s))
               (Redis.wire s ++ [Redis.SET bk (Py.VAtom (Py.ABool true)) (Some ttl)])).
  assert (Hset : RedisCache.set RedisCache.cache ("blacklist:" +:+ token)
                   (Py.VAtom (Py.ABool true)) (Some ttl) s = (true, s1)).
  { unfold RedisCache.set, Redis.call, Redis.hand_over. rewrite Hf.
    cbn [Redis.apply]. destruct (ttl <=? 0) eqn:Hle; [lia|].
    change (Redis.in_time_range _ ttl) with (Redis.in_time_range s ttl).
    rewrite Hin. reflexivity. }
  unfold Endpoints.logout_user. fold ttl. rewrite Hset.
  unfold RedisCache.delete.
  set (uk := RedisCache._make_key RedisCache.cache ("user:" +:+ Py.str user_id)).
  assert (Hne : uk <> bk) by apply user_key_not_blacklist_key.
  pose proof (call_frame (Redis.DEL uk) s1) as (Hn & _ & _).
  assert (Hkv : Redis.kv (snd (Redis.call (Redis.DEL uk) s1)) !! bk = Redis.kv s1 !! bk).
  { unfold Redis.call, Redis.hand_over.
    destruct (Redis.next_fault s1); [reflexivity|].
    cbn. rewrite lookup_delete_ne by assumption. reflexivity. }
  destruct (Redis.call (Redis.DEL uk) s1) as [[r|] s2]; cbn [snd] in *.
  all: rewrite Hkv, Hn; split; [|reflexivity].
  all: unfold s1; cbn; rewrite lookup_insert_eq; reflexivity.
Qed.

End BlacklistFacts.

Section BlacklistTheorems.
Context {E : Env}.

(** C1 as amended.  While the blacklist entry of a token is in the store
    and the store answers the existence check, validation of the token
    returns no identity and a request presenting it on a path that is not
    exempt is refused, whatever the decoder says about signature and
    expiry: the auth middleware ends with its unauthorized answer without
    calling the next stage, and no response of the routed application
    comes out.  After an answered logout that stored the entry (the
    token lifetime of the configuration being one the store takes) this
    holds for every validation the store answers until the entry's
    lifetime has passed. *)
Theorem blacklisted_token_rejected_when_store_answers :
  (forall (token : string) (s : Redis.server),
      Redis.next_fault s = false ->
      Redis.is_live s (RedisCache._make_key RedisCache.cache ("blacklist:" +:+ token)) = true ->
      fst (AuthMiddleware._validate_token token s) = Py.VAtom Py.ANone
      /\
      forall (router : Http.endpoint) (request : Http.request) (w : Http.world)
             (a : ascii) (t : string),
        Http.store w = s ->
        token = String a t ->
        AuthMiddleware._is_exempt_path (Http.path request) = false ->
        AuthMiddleware._extract_token request = Some token ->
        (forall call_next : Http.app,
            fst (AuthMiddleware.dispatch request call_next w) =
              Http.ReturnedException AuthMiddleware.unauthorized) /\
        fst (Main.application router request w) = Http.Error "TypeError")
  /\
  (forall (user_id : Py.atom) (token : string) (s : Redis.server) (dt : Z),
      Redis.next_fault s = false ->
      Redis.in_time_range s (access_token_expire_minutes settings * 60) = true ->
      0 <= dt < access_token_expire_minutes settings * 60 ->
      let s' := Redis.advance dt (snd (Endpoints.logout_user user_id token s)) in
      Redis.next_fault s' = false ->
      fst (AuthMiddleware._validate_token token s') = Py.VAtom Py.ANone).
Proof.
  assert (Hmain : forall token s,
             Redis.next_fault s = false ->
             Redis.is_live s (RedisCache._make_key RedisCache.cache ("blacklist:" +:+ token)) = true ->
             fst (AuthMiddleware._validate_token token s) = Py.VAtom Py.ANone).
  { intros token s Hf Hl. apply validate_blacklisted.
    rewrite exists_answered by assumption. exact Hl. }
  split.
  - intros token s Hf Hl. split; [apply Hmain; assumption|].
    intros router request w a t Hs -> Hx Ht.
    assert (Hc : refusal_cause request (Http.store w)).
    { right. exists a, t. split; [assumption|]. right.
      rewrite Hs. split; assumption. }
    split.
    + intros call_next. apply dispatch_refuses; assumption.
    + apply pipeline_rejects; assumption.
  - intros user_id token s dt Hf Hin Hdt s' Hf'.
    apply Hmain; [assumption|].
    destruct (logout_writes_blacklist user_id token s Hf) as (Hkv & Hnow); [lia|assumption|].
    unfold s', Redis.is_live, Redis.live, Redis.advance; cbn.
    rewrite Hkv; cbn. rewrite Hnow.
    destruct (_ <=? _) eqn:Hle; [lia|reflexivity].
Qed.

End BlacklistTheorems.

Lemma blacklisted_token_rejected_when_store_answers_witness :
  fst (AuthMiddleware._validate_token (E := Demo.env) "good" Demo.after_logout) =
    Py.VAtom Py.ANone
  /\
  fst (Main.application (E := Demo.env) Demo.ok
         (Demo.request "GET" "/api/v1/users/me" (Some "Bearer good"))
         (Demo.world_of Demo.after_logout)) =
    Http.Error "TypeError"
  /\
  fst (AuthMiddleware._validate_token (E := Demo.env) "good"
         (Redis.advance 1799
            (snd (Endpoints.logout_user (E := Demo.env) (Py.AStr "u1") "good" Redis.fresh)))) =
    Py.VAtom Py.ANone.
Proof.
  destruct (blacklisted_token_rejected_when_store_answers (E := Demo.env)) as [H1 H2].
  destruct (H1 "good" Demo.after_logout eq_refl eq_refl) as [Hv Hd].
  split; [exact Hv|split].
  - apply (Hd Demo.ok _ _ "g"%char "ood"); reflexivity.
  - apply (H2 (Py.AStr "u1") "good" Redis.fresh 1799); [reflexivity|reflexivity| |reflexivity].
    cbn. lia.
Defined.

(** C1 as claimed fails: the token [good] is validated, its holder logs
    out, and the entry is in the store; the next existence check times
    out, the facade reports the key absent, and the token is accepted. *)
Lemma blacklisted_token_accepted_on_fault :
  let s := Demo.with_faults [true] Demo.after_logout in
  Redis.is_live s "predictpesa:blacklist:good" = true /\
  fst (AuthMiddleware._validate_token (E := Demo.env) "good" s) =
    Py.VDict [ ("user_id", Py.AStr "u1"); ("email", Py.AStr "demo@predictpesa.com");
               ("role", Py.AStr "user"); ("is_verified", Py.ABool true) ] /\
  fst (Main.application (E := Demo.env) Demo.ok
         (Demo.request "GET" "/api/v1/users/me" (Some "Bearer good")) (Demo.world_of s)) =
    Http.Response
      {| Http.status_code := 200; Http.detail := "ok";
         Http.headers_out :=
           [ ("X-Request-ID", "uuid-0"); ("X-RateLimit-Limit", "100");
             ("X-RateLimit-Remaining", "99"); ("X-RateLimit-Reset", "60") ] |}.
Proof. repeat split; reflexivity. Qed.

Section MarketsPrefix.
Context {E : Env}.


End MarketsPrefix.

Section MarketsFacts.
Context {E : Env}.









End MarketsFacts.

Section MarketsTheorems.
Context {E : Env}.


End MarketsTheorems.



(** ** Keys on the wire *)

Section WireFacts.

Lemma call_wire (c : Redis.command) (s : Redis.server) :
  Redis.wire (snd (Redis.call c s)) = Redis.wire s ++ [c].
Proof. apply call_frame. Qed.

Lemma get_wire (self : RedisCache.t) (key : string) (s : Redis.server) :
  Redis.wire (snd (RedisCache.get self key s)) =
  Redis.wire s ++ [Redis.GET (RedisCache._make_key self key)].
Proof.
  unfold RedisCache.get. rewrite <- call_wire.
  destruct (Redis.call _ s) as [[[| | |]|] s']; reflexivity.
Qed.

Lemma set_wire (self : RedisCache.t) (key : string) (v : Py.value) (ex : option Z)
    (s : Redis.server) :
  Redis.wire (snd (RedisCache.set self key v ex s)) =
  Redis.wire s ++ [Redis.SET (RedisCache._make_key self key) v ex].
Proof.
  unfold RedisCache.set. rewrite <- call_wire.
  destruct (Redis.call _ s) as [[r|] s']; reflexivity.
Qed.

Lemma delete_wire (self : RedisCache.t) (key : string) (s : Redis.server) :
  Redis.wire (snd (RedisCache.delete self key s)) =
  Redis.wire s ++ [Redis.DEL (RedisCache._make_key self key)].
Proof.
  unfold RedisCache.delete. rewrite <- call_wire.
  destruct (Redis.call _ s) as [[r|] s']; reflexivity.
Qed.

Lemma exists_wire (self : RedisCache.t) (key : string) (s : Redis.server) :
  Redis.wire (snd (RedisCache.exists_ self key s)) =
  Redis.wire s ++ [Redis.EXISTS (RedisCache._make_key self key)].
Proof.
  unfold RedisCache.exists_. rewrite <- call_wire.
  destruct (Redis.call _ s) as [[r|] s']; reflexivity.
Qed.

Lemma increment_wire (self : RedisCache.t) (key : string) (amount : Z) (s : Redis.server) :
  Redis.wire (snd (RedisCache.increment self key amount s)) =
  Redis.wire s ++ [Redis.INCRBY (RedisCache._make_key self key) amount].
Proof.
  unfold RedisCache.increment. rewrite <- call_wire.
  destruct (Redis.call _ s) as [[[| | |]|] s']; reflexivity.
Qed.

Lemma expire_wire (self : RedisCache.t) (key : string) (seconds : Z) (s : Redis.server) :
  Redis.wire (snd (RedisCache.expire self key seconds s)) =
  Redis.wire s ++ [Redis.EXPIRE (RedisCache._make_key self key) seconds].
Proof.
  unfold RedisCache.expire. rewrite <- call_wire.
  destruct (Redis.call _ s) as [[r|] s']; reflexivity.
Qed.

Lemma run_wire (cs : list Redis.command) :
  forall s : Redis.server, Redis.wire (snd (Redis.run cs s)) = Redis.wire s.
Proof.
  induction cs as [|c cs IH]; intros s; cbn [Redis.run]; [reflexivity|].
  pose proof (apply_frame c s) as (_ & _ & Hw).
  destruct (Redis.apply c s) as [r s1]. cbn [snd] in Hw.
  specialize (IH s1). destruct (Redis.run cs s1) as [rs s2]. cbn [snd] in *.
  congruence.
Qed.

Lemma execute_wire (cs : list Redis.command) (s : Redis.server) :
  Redis.wire (snd (Redis.execute cs s)) = Redis.wire s ++ cs.
Proof.
  unfold Redis.execute, Redis.hand_over.
  destruct (Redis.next_fault s); [reflexivity|].
  set (s1 := Redis.Server _ _ _ _).
  pose proof (run_wire cs s1) as Hw.
  destruct (Redis.run cs s1) as [rs s2]. exact Hw.
Qed.

Lemma is_allowed_wire (key : string) (limit window : Z) (s : Redis.server) :
  Redis.wire (snd (RateLimiter.is_allowed key limit window s)) =
  Redis.wire s ++ [Redis.INCRBY key 1; Redis.EXPIRE key window].
Proof.
  unfold RateLimiter.is_allowed. rewrite <- execute_wire.
  destruct (Redis.execute _ s) as [[[|[| |n|] rest]|] s']; try reflexivity.
  destruct (n <=? limit); reflexivity.
Qed.

Lemma limits_window (self : RateLimitMiddleware.t) (path method : string) :
  snd (RateLimitMiddleware._get_limits_for_path self path method) = 60.
Proof.
  unfold RateLimitMiddleware._get_limits_for_path.
  repeat match goal with |- context [if ?b then _ else _] => destruct b end; reflexivity.
Qed.

End WireFacts.

Section KeyTheorems.

(** C8 as amended.  Every key that goes through the cache facade, and so
    every identity-cache key [user:<subject_id>] and blacklist key
    [blacklist:<token>] of token validation and logout, reaches the store
    with the namespace in front; the rate limiter talks to the client
    directly and its key [rate_limit:<client_id>:<path>] reaches the store
    as it is, without the namespace. *)
Theorem facade_keys_prefixed_rate_limit_keys_plain :
  (forall (self : RedisCache.t) (key : string) (v : Py.value) (ex : option Z)
          (n : Z) (s : Redis.server),
      RedisCache._make_key self key = RedisCache.prefix self +:+ ":" +:+ key /\
      Redis.wire (snd (RedisCache.get self key s)) =
        Redis.wire s ++ [Redis.GET (RedisCache._make_key self key)] /\
      Redis.wire (snd (RedisCache.set self key v ex s)) =
        Redis.wire s ++ [Redis.SET (RedisCache._make_key self key) v ex] /\
      Redis.wire (snd (RedisCache.delete self key s)) =
        Redis.wire s ++ [Redis.DEL (RedisCache._make_key self key)] /\
      Redis.wire (snd (RedisCache.exists_ self key s)) =
        Redis.wire s ++ [Redis.EXISTS (RedisCache._make_key self key)] /\
      Redis.wire (snd (RedisCache.increment self key n s)) =
        Redis.wire s ++ [Redis.INCRBY (RedisCache._make_key self key) n] /\
      Redis.wire (snd (RedisCache.expire self key n s)) =
        Redis.wire s ++ [Redis.EXPIRE (RedisCache._make_key self key) n])
  /\
  (forall (E : Env) (token : string) (s : Redis.server),
      exists cs : list Redis.command,
        Redis.wire (snd (AuthMiddleware._validate_token token s)) = Redis.wire s ++ cs /\
        Forall (authenticator_key token) cs /\
        Forall (fun c => Py.startswith (Redis.command_key c) "predictpesa:" = true) cs)
  /\
  (forall (E : Env) (user_id : Py.atom) (token : string) (s : Redis.server),
      Redis.wire (snd (Endpoints.logout_user user_id token s)) =
        Redis.wire s ++
        [ Redis.SET ("predictpesa:blacklist:" +:+ token) (Py.VAtom (Py.ABool true))
            (Some (access_token_expire_minutes settings * 60));
          Redis.DEL ("predictpesa:user:" +:+ Py.str user_id) ])
  /\
  (forall (self : RateLimitMiddleware.t) (client_id : string) (request : Http.request)
          (s : Redis.server),
      let key := "rate_limit:" +:+ client_id +:+ ":" +:+ Http.path request in
      Redis.wire (snd (RateLimitMiddleware._check_rate_limit self client_id request s)) =
        Redis.wire s ++ [Redis.INCRBY key 1; Redis.EXPIRE key 60] /\
      Py.startswith key "predictpesa:" = false).
Proof.
  split; [|split; [|split]].
  - intros self key v ex n s.
    split; [reflexivity|].
    repeat split; auto using get_wire, set_wire, delete_wire, exists_wire,
      increment_wire, expire_wire.
  - intros E token s. unfold AuthMiddleware._validate_token.
    pose proof (exists_wire RedisCache.cache ("blacklist:" +:+ token) s) as Hw1.
    destruct (RedisCache.exists_ _ _ s) as [b s1]. cbn [snd] in Hw1.
    assert (Hone : exists cs : list Redis.command,
               Redis.wire s1 = Redis.wire s ++ cs /\
               Forall (authenticator_key token) cs /\
               Forall (fun c => Py.startswith (Redis.command_key c) "predictpesa:" = true) cs).
    { eexists. split; [exact Hw1|]. split.
      - apply List.Forall_cons; [left; reflexivity | apply List.Forall_nil].
      - apply List.Forall_cons; [reflexivity | apply List.Forall_nil]. }
    destruct b; [exact Hone|].
    destruct (jwt_decode (Redis.now s1) token) as [payload| | |]; try exact Hone.
    destruct (negb (Py.truthy_atom (Py.dict_get payload "sub"))); [exact Hone|].
    destruct (negb (Py.truthy_atom (Py.dict_get payload "exp"))); [exact Hone|].
    set (uk := "user:" +:+ Py.str (Py.dict_get payload "sub")).
    pose proof (get_wire RedisCache.cache uk s1) as Hw2.
    destruct (RedisCache.get RedisCache.cache uk s1) as [u s2]. cbn [snd] in Hw2.
    destruct (negb (Py.truthy u)).
    + match goal with |- context [RedisCache.set ?c ?k ?v ?e s2] =>
        pose proof (set_wire c k v e s2) as Hw3;
        destruct (RedisCache.set c k v e s2) as [ok s3] end.
      cbn [snd] in *. eexists.
      split; [rewrite Hw3, Hw2, Hw1, <- !app_assoc; reflexivity|].
      split; repeat (apply List.Forall_cons || apply List.Forall_nil);
        first [ reflexivity
              | left; reflexivity
              | right; exists (Py.str (Py.dict_get payload "sub")); reflexivity ].
    + cbn [snd]. eexists.
      split; [rewrite Hw2, Hw1, <- !app_assoc; reflexivity|].
      split; repeat (apply List.Forall_cons || apply List.Forall_nil);
        first [ reflexivity
              | left; reflexivity
              | right; exists (Py.str (Py.dict_get payload "sub")); reflexivity ].
  - intros E user_id token s. unfold Endpoints.logout_user.
    match goal with |- context [RedisCache.set ?c ?k ?v ?e s] =>
      pose proof (set_wire c k v e s) as Hw1;
      destruct (RedisCache.set c k v e s) as [ok s1] end.
    match goal with |- context [RedisCache.delete ?c ?k s1] =>
      pose proof (delete_wire c k s1) as Hw2;
      destruct (RedisCache.delete c k s1) as [ok2 s2] end.
    cbn [snd] in *. rewrite Hw2, Hw1, <- app_assoc. reflexivity.
  - intros self client_id request s. cbv zeta. split; [|reflexivity].
    unfold RateLimitMiddleware._check_rate_limit.
    pose proof (limits_window self (Http.path request) (Http.method request)) as Hwin.
    destruct (RateLimitMiddleware._get_limits_for_path self _ _) as [limit window].
    cbn [snd] in Hwin. subst window.
    rewrite is_allowed_wire. reflexivity.
Qed.

End KeyTheorems.

(** C8 as claimed fails: on an authenticated request the two rate-limit
    commands carry a key that does not start with the namespace, and the
    counter sits in the store under that plain key. *)
Lemma rate_limit_key_reaches_store_plain :
  let w := snd (Main.application (E := Demo.env) Demo.ok
                  (Demo.request "GET" "/api/v1/users/me" (Some "Bearer good"))
                  (Demo.world_of Redis.fresh)) in
  let keys := map Redis.command_key (Redis.wire (Http.store w)) in
  keys = [ "predictpesa:blacklist:good"; "predictpesa:user:u1"; "predictpesa:user:u1";
           "rate_limit:user:u1:/api/v1/users/me"; "rate_limit:user:u1:/api/v1/users/me" ] /\
  forallb (fun k => Py.startswith k "predictpesa:") keys = false /\
  Redis.counter (Http.store w) "rate_limit:user:u1:/api/v1/users/me" = Some 1 /\
  Redis.live (Http.store w) "predictpesa:rate_limit:user:u1:/api/v1/users/me" = None.
Proof. repeat split; reflexivity. Qed.

(** ** Rate-limit headers *)

Section HeaderFacts.

Lemma get_set_item (name v : string) (h : list (string * string)) :
  Http.get_item name (Http.set_item name v h) = Some v.
Proof.
  induction h as [|[n x] h IH]; cbn.
  - rewrite String.eqb_refl. reflexivity.
  - destruct (String.eqb n name) eqn:Hn; cbn; rewrite Hn; [reflexivity|exact IH].
Qed.

Lemma get_set_item_ne (name name' v : string) (h : list (string * string)) :
  name <> name' ->
  Http.get_item name (Http.set_item name' v h) = Http.get_item name h.
Proof.
  intros Hne. induction h as [|[n x] h IH]; cbn.
  - destruct (String.eqb name' name) eqn:Hn; [|reflexivity].
    apply String.eqb_eq in Hn. congruence.
  - destruct (String.eqb n name') eqn:Hn; cbn.
    + apply String.eqb_eq in Hn. subst n.
      destruct (String.eqb name' name) eqn:Hn'; [|reflexivity].
      apply String.eqb_eq in Hn'. congruence.
    + rewrite IH. reflexivity.
Qed.

End HeaderFacts.

(** C10. On a response admitted by the rate-limit middleware on a path
    it does not exempt, X-RateLimit-Limit is the text of the middleware's
    global requests-per-minute value and X-RateLimit-Remaining is the text
    of the remaining count of the check, which is taken against the limit
    of the route: when the check was answered with count [n], remaining is
    the route's limit minus [n] (and the route's limit itself when the
    check failed open), so whenever the route's limit differs from the
    global value (a write to market creation has limit 5) the two headers
    do not add up: remaining is not the announced limit minus the requests
    counted. *)
Theorem rate_limit_headers_disagree
    (self : RateLimitMiddleware.t) (request : Http.request) (call_next : Http.app)
    (w w2 : Http.world) (s1 : Redis.server) (remaining : Z) (m : Http.message) :
  let client_id := RateLimitMiddleware._get_client_id request in
  let route_limit :=
    fst (RateLimitMiddleware._get_limits_for_path self
           (Http.path request) (Http.method request)) in
  RateLimitMiddleware._is_exempt_path (Http.path request) = false ->
  RateLimitMiddleware._check_rate_limit self client_id request (Http.store w) =
    ((true, remaining), s1) ->
  call_next request (Http.with_store w s1) = (Http.Response m, w2) ->
  (exists m' : Http.message,
      RateLimitMiddleware.dispatch self request call_next w = (Http.Response m', w2) /\
      Http.get_item "X-RateLimit-Limit" (Http.headers_out m') =
        Some (Py.str_of_int (RateLimitMiddleware.requests_per_minute self)) /\
      Http.get_item "X-RateLimit-Remaining" (Http.headers_out m') =
        Some (Py.str_of_int remaining))
  /\
  (forall (n : Z) (rest : list Redis.reply) (s' : Redis.server),
      Redis.execute
        [ Redis.INCRBY (RateLimitMiddleware.rate_limit_key client_id request) 1;
          Redis.EXPIRE (RateLimitMiddleware.rate_limit_key client_id request) 60 ]
        (Http.store w) = (Some (Redis.RInt n :: rest), s') ->
      remaining = route_limit - n /\
      (route_limit <> RateLimitMiddleware.requests_per_minute self ->
       remaining <> RateLimitMiddleware.requests_per_minute self - n))
  /\
  (forall s' : Redis.server,
      Redis.execute
        [ Redis.INCRBY (RateLimitMiddleware.rate_limit_key client_id request) 1;
          Redis.EXPIRE (RateLimitMiddleware.rate_limit_key client_id request) 60 ]
        (Http.store w) = (None, s') ->
      remaining = route_limit)
  /\
  (RateLimitMiddleware.is_write (Http.method request) = true ->
   Py.contains "/markets/create" (Http.path request) = true ->
   route_limit = 5).
Proof.
  cbv zeta. intros Hx Hcheck Hnext.
  split; [|split; [|split]].
  - unfold RateLimitMiddleware.dispatch. rewrite Hx, Hcheck. cbn [negb].
    rewrite Hnext. eexists. split; [reflexivity|]. cbn.
    split.
    + rewrite get_set_item_ne by discriminate.
      rewrite get_set_item_ne by discriminate.
      apply get_set_item.
    + rewrite get_set_item_ne by discriminate.
      apply get_set_item.
  - intros n rest s' Hexec.
    unfold RateLimitMiddleware._check_rate_limit in Hcheck.
    pose proof (limits_window self (Http.path request) (Http.method request)) as Hwin.
    destruct (RateLimitMiddleware._get_limits_for_path self _ _) as [limit window].
    cbn [fst snd] in *. subst window.
    unfold RateLimiter.is_allowed in Hcheck. rewrite Hexec in Hcheck.
    destruct (n <=? limit); [|discriminate].
    injection Hcheck as <- _. split; [reflexivity|lia].
  - intros s' Hexec.
    unfold RateLimitMiddleware._check_rate_limit in Hcheck.
    pose proof (limits_window self (Http.path request) (Http.method request)) as Hwin.
    destruct (RateLimitMiddleware._get_limits_for_path self _ _) as [limit window].
    cbn [fst snd] in *. subst window.
    unfold RateLimiter.is_allowed in Hcheck. rewrite Hexec in Hcheck.
    injection Hcheck as <- _. reflexivity.
  - intros Hw Hp. unfold RateLimitMiddleware._get_limits_for_path.
    rewrite Hw, Hp. reflexivity.
Qed.

Lemma rate_limit_headers_disagree_witness :
  let self := RateLimitMiddleware.__init__ (E := Demo.env) None None in
  let request := Demo.request "POST" "/api/v1/markets/create" None in
  exists m' : Http.message,
    fst (RateLimitMiddleware.dispatch self request (Http.serve Demo.ok)
           (Demo.world_of Redis.fresh)) = Http.Response m' /\
    Http.get_item "X-RateLimit-Limit" (Http.headers_out m') = Some "100" /\
    Http.get_item "X-RateLimit-Remaining" (Http.headers_out m') = Some "4".
Proof.
  cbv zeta.
  destruct (rate_limit_headers_disagree
              (RateLimitMiddleware.__init__ (E := Demo.env) None None)
              (Demo.request "POST" "/api/v1/markets/create" None)
              (Http.serve Demo.ok) (Demo.world_of Redis.fresh)
              (snd (Http.serve Demo.ok (Demo.request "POST" "/api/v1/markets/create" None)
                      (Http.with_store (Demo.world_of Redis.fresh)
                         (Redis.bumped "rate_limit:ip:10.0.0.1:/api/v1/markets/create" 60 0
                            Redis.fresh))))
              (Redis.bumped "rate_limit:ip:10.0.0.1:/api/v1/markets/create" 60 0 Redis.fresh)
              4
              {| Http.status_code := 200; Http.detail := "ok"; Http.headers_out := [] |}
              eq_refl eq_refl eq_refl) as ((m' & Hd & Hlim & Hrem) & _).
  exists m'. split; [rewrite Hd; reflexivity|]. split; assumption.
Defined.

(** ** Exempt paths *)

Section ExemptFacts.
Context {E : Env}.

Lemma auth_dispatch_exempt (request : Http.request) (call_next : Http.app) (w : Http.world) :
  AuthMiddleware._is_exempt_path (Http.path request) = true ->
  AuthMiddleware.dispatch request call_next w = call_next request w.
Proof. intros H. unfold AuthMiddleware.dispatch. rewrite H. reflexivity. Qed.

Lemma rate_limit_dispatch_exempt (self : RateLimitMiddleware.t) (request : Http.request)
    (call_next : Http.app) (w : Http.world) :
  RateLimitMiddleware._is_exempt_path (Http.path request) = true ->
  RateLimitMiddleware.dispatch self request call_next w = call_next request w.
Proof. intros H. unfold RateLimitMiddleware.dispatch. rewrite H. reflexivity. Qed.

(** The paths the rate limiter exempts are exempt from authentication too. *)
Lemma rate_limit_exempt_auth_exempt (path : string) :
  RateLimitMiddleware._is_exempt_path path = true ->
  AuthMiddleware._is_exempt_path path = true.
Proof.
  unfold RateLimitMiddleware._is_exempt_path, RateLimitMiddleware.exempt_paths.
  cbn [existsb]. intros H.
  repeat (apply orb_prop in H; destruct H as [H|H]);
    try discriminate; apply String.eqb_eq in H; subst path; reflexivity.
Qed.

End ExemptFacts.

Section ExemptTheorems.
Context {E : Env}.

(** C9 as amended.  A request whose path is exempt from rate limiting
    (/health, /health/detailed, /metrics) is exempt from authentication
    as well, and the pipeline answers it with the response of the routed
    application, to which only the request id is added: no stage turns it
    into a 401 or a 429, whatever its headers and whatever the state of
    the store, which the pipeline does not touch. *)
Theorem paths_exempt_in_both_pass_through
    (router : Http.endpoint) (request : Http.request) (w : Http.world) :
  RateLimitMiddleware._is_exempt_path (Http.path request) = true ->
  let rid := fst (RequestIDMiddleware._get_or_generate_request_id request w) in
  let request' :=
    Http.with_state request
      {| Http.user := Http.user (Http.rstate request);
         Http.user_id := Http.user_id (Http.rstate request);
         Http.request_id := Some rid |} in
  AuthMiddleware._is_exempt_path (Http.path request) = true /\
  fst (Main.application router request w) =
    Http.Response (Http.set_header "X-Request-ID" rid (fst (router request' (Http.store w)))) /\
  Http.outcome_status (fst (Main.application router request w)) =
    Some (Http.status_code (fst (router request' (Http.store w)))) /\
  Http.store (snd (Main.application router request w)) = snd (router request' (Http.store w)).
Proof.
  intros Hrl. cbv zeta.
  pose proof (rate_limit_exempt_auth_exempt _ Hrl) as Hauth.
  split; [exact Hauth|].
  set (rid := fst (RequestIDMiddleware._get_or_generate_request_id request w)).
  set (request' := Http.with_state request _).
  assert (Happ : exists w' : Http.world,
             Main.application router request w =
               (Http.Response (Http.set_header "X-Request-ID" rid
                                 (fst (router request' (Http.store w)))), w') /\
             Http.store w' = snd (router request' (Http.store w))).
  { rewrite application_unfold. cbv zeta.
    assert (Hcore : forall (below : Http.app) (w0 : Http.world),
               Main.wrap Http.SAuth
                 (Main.wrap Http.SRateLimit (Main.wrap Http.SRequestID below)) request w0 =
               (Main.send_response
                  (fst (RequestIDMiddleware.dispatch request below
                          (Main.enter Http.SRequestID
                             (Main.enter Http.SRateLimit (Main.enter Http.SAuth w0))))),
                snd (RequestIDMiddleware.dispatch request below
                       (Main.enter Http.SRequestID
                          (Main.enter Http.SRateLimit (Main.enter Http.SAuth w0)))))).
    { intros below w0. rewrite wrap_auth.
      rewrite auth_dispatch_exempt by exact Hauth.
      rewrite wrap_rate_limit.
      rewrite rate_limit_dispatch_exempt by exact Hrl.
      rewrite wrap_request_id. cbn [fst snd].
      rewrite !send_response_idempotent. reflexivity. }
    subst rid request'.
    unfold RequestIDMiddleware._get_or_generate_request_id.
    destruct (prometheus_enabled settings), (is_production settings);
      [ rewrite wrap_metrics | rewrite wrap_metrics | | ];
      rewrite Hcore;
      unfold RequestIDMiddleware.dispatch, RequestIDMiddleware._get_or_generate_request_id,
        Main.wrap, Http.serve;
      destruct (Http.x_request_id (Http.hdrs request)) as [[|a rid0]|]; cbn;
      match goal with |- context [router ?r ?s] => destruct (router r s) as [m0 s0] end;
      eexists; split; reflexivity. }
  destruct Happ as (w' & -> & Hstore).
  split; [reflexivity|]. split; [reflexivity|exact Hstore].
Qed.

End ExemptTheorems.

Lemma paths_exempt_in_both_pass_through_witness :
  fst (Main.application (E := Demo.env) Demo.ok
         (Demo.request "GET" "/health" (Some "Bearer forged"))
         (Demo.world_of Redis.fresh)) =
    Http.Response
      {| Http.status_code := 200; Http.detail := "ok";
         Http.headers_out := [("X-Request-ID", "uuid-0")] |}.
Proof.
  apply (paths_exempt_in_both_pass_through (E := Demo.env) Demo.ok
           (Demo.request "GET" "/health" (Some "Bearer forged"))
           (Demo.world_of Redis.fresh)).
  reflexivity.
Defined.

(** C9 as claimed fails: /api/v1/auth/login is one of the paths the auth
    middleware exempts, and the sixth POST to it within the window ends in
    the rate limiter's 429. *)
Lemma login_path_exempt_yet_rate_limited :
  In "/api/v1/auth/login" AuthMiddleware.EXEMPT_PATHS /\
  AuthMiddleware._is_exempt_path "/api/v1/auth/login" = true /\
  map Http.outcome_status
    (fst (Main.handle_all (Main.application (E := Demo.env) Demo.ok)
            (replicate 6 (Demo.request "POST" "/api/v1/auth/login" None))
            (Demo.world_of Redis.fresh))) =
    [Some 200; Some 200; Some 200; Some 200; Some 200; Some 429].
Proof.
  split; [|split].
  - cbn. tauto.
  - reflexivity.
  - vm_compute. reflexivity.
Qed.

(** ** Order of the stages *)

Section OrderFacts.
Context {E : Env}.

Lemma serve_trace (router : Http.endpoint) (request : Http.request) (w : Http.world) :
  Http.trace (snd (Http.serve router request w)) = Http.trace w.
Proof.
  unfold Http.serve. destruct (router request (Http.store w)). reflexivity.
Qed.

(** The stages that never answer by themselves hand one request to the
    application they wrap, having touched only the UUID count. *)
Lemma wrap_trace_through (cls : Http.stage) (inner : Http.app) (request : Http.request)
    (w : Http.world) :
  cls <> Http.SAuth -> cls <> Http.SRateLimit ->
  exists (request' : Http.request) (w1 : Http.world),
    Http.trace w1 = Http.trace w ++ [cls] /\
    Http.trace (snd (Main.wrap cls inner request w)) =
      Http.trace (snd (inner request' w1)).
Proof.
  intros Hna Hnr. destruct cls; try congruence.
  - eexists _, _. split; [|reflexivity]. reflexivity.
  - eexists _, _. split; [|reflexivity]. reflexivity.
  - rewrite wrap_request_id. cbn [snd].
    unfold RequestIDMiddleware.dispatch,
      RequestIDMiddleware._get_or_generate_request_id.
    destruct (Http.x_request_id (Http.hdrs request)) as [[|a rid]|];
      match goal with |- context [inner ?r ?w1] =>
        exists r, w1; split; [reflexivity|]; destruct (inner r w1); reflexivity end.
  - rewrite wrap_metrics. cbn [snd].
    eexists _, _. split; [|reflexivity]. reflexivity.
Qed.

(** The rate limiter and the authenticator are entered and then either
    answer themselves or hand one request to the application they wrap,
    having touched only the store. *)
Lemma wrap_trace_gate (cls : Http.stage) (inner : Http.app) (request : Http.request)
    (w : Http.world) :
  cls = Http.SAuth \/ cls = Http.SRateLimit ->
  Http.trace (snd (Main.wrap cls inner request w)) = Http.trace w ++ [cls] \/
  exists (request' : Http.request) (w1 : Http.world),
    Http.trace w1 = Http.trace w ++ [cls] /\
    Http.trace (snd (Main.wrap cls inner request w)) =
      Http.trace (snd (inner request' w1)).
Proof.
  intros [-> | ->].
  - rewrite wrap_auth. cbn [snd]. unfold AuthMiddleware.dispatch.
    destruct (AuthMiddleware._is_exempt_path (Http.path request)).
    + right. eexists _, _. split; [|reflexivity]. reflexivity.
    + destruct (AuthMiddleware._extract_token request) as [[|a t]|].
      * destruct (AuthMiddleware._requires_auth (Http.path request)).
        -- left. reflexivity.
        -- right. eexists _, _. split; [|reflexivity]. reflexivity.
      * destruct (AuthMiddleware._validate_token (String a t) _) as [u s1].
        destruct (Py.truthy u).
        -- destruct u as [x|d].
           ++ left. reflexivity.
           ++ right. eexists _, _. split; [|reflexivity]. reflexivity.
        -- left. reflexivity.
      * destruct (AuthMiddleware._requires_auth (Http.path request)).
        -- left. reflexivity.
        -- right. eexists _, _. split; [|reflexivity]. reflexivity.
  - rewrite wrap_rate_limit. cbn [snd]. unfold RateLimitMiddleware.dispatch.
    destruct (RateLimitMiddleware._is_exempt_path (Http.path request)).
    + right. eexists _, _. split; [|reflexivity]. reflexivity.
    + destruct (RateLimitMiddleware._check_rate_limit _ _ _ _) as [[allowed remaining] s1].
      destruct allowed; cbn [negb].
      * right.
        match goal with |- context [inner ?r ?w1] =>
          exists r, w1; split; [reflexivity|]; destruct (inner r w1); reflexivity end.
      * left. reflexivity.
Qed.

(** Steps through the stack from the outside, stage by stage. *)
Ltac walk_stack :=
  repeat
    match goal with
    | |- context [Http.trace (snd (Main.wrap Http.SAuth ?inner ?r ?w0))] =>
        let H := fresh "H" in
        let r' := fresh "r" in
        let w1 := fresh "w" in
        let Hw := fresh "Hw" in
        destruct (wrap_trace_gate Http.SAuth inner r w0 (or_introl eq_refl))
          as [H | (r' & w1 & Hw & H)];
        rewrite H; clear H
    | |- context [Http.trace (snd (Main.wrap Http.SRateLimit ?inner ?r ?w0))] =>
        let H := fresh "H" in
        let r' := fresh "r" in
        let w1 := fresh "w" in
        let Hw := fresh "Hw" in
        destruct (wrap_trace_gate Http.SRateLimit inner r w0 (or_intror eq_refl))
          as [H | (r' & w1 & Hw & H)];
        rewrite H; clear H
    | |- context [Http.trace (snd (Main.wrap ?cls ?inner ?r ?w0))] =>
        let H := fresh "H" in
        let r' := fresh "r" in
        let w1 := fresh "w" in
        let Hw := fresh "Hw" in
        destruct (wrap_trace_through cls inner r w0) as (r' & w1 & Hw & H);
        [discriminate | discriminate |];
        rewrite H; clear H
    | |- context [Http.trace (snd (Http.serve ?rt ?r ?w0))] =>
        rewrite (serve_trace rt r w0)
    end.

(** Authentication and rate limiting among the stages that one request
    enters. *)
Lemma gates_entered (router : Http.endpoint) (request : Http.request) (w : Http.world) :
  exists l : list Http.stage,
    Http.trace (snd (Main.application router request w)) = Http.trace w ++ l /\
    (Main.gates l = [Http.SAuth] \/ Main.gates l = [Http.SAuth; Http.SRateLimit]).
Proof.
  rewrite application_unfold. cbv zeta.
  destruct (prometheus_enabled settings), (is_production settings).
  all: walk_stack.
  all: repeat match goal with H : Http.trace _ = _ |- _ => rewrite H; clear H end.
  all: rewrite <- ?app_assoc; cbn [app].
  all: eexists; split; [reflexivity|]; cbn; tauto.
Qed.

(** A request that the auth middleware refuses stops there. *)
Lemma refused_trace (router : Http.endpoint) (request : Http.request) (w : Http.world) :
  AuthMiddleware._is_exempt_path (Http.path request) = false ->
  refusal_cause request (Http.store w) ->
  Http.trace (snd (Main.application router request w)) =
    Http.trace w ++
    (if prometheus_enabled settings then [Http.SMetrics; Http.SAuth] else [Http.SAuth]).
Proof.
  intros Hx Hc.
  assert (Hd : forall (inner : Http.app) (w0 : Http.world),
             Http.store w0 = Http.store w ->
             Http.trace (snd (AuthMiddleware.dispatch request inner w0)) = Http.trace w0).
  { intros inner w0 Hs. unfold AuthMiddleware.dispatch. rewrite Hx.
    destruct Hc as [[Hr [Ht | Ht]] | (a & t & Ht & Hc)]; rewrite Ht.
    - rewrite Hr. reflexivity.
    - rewrite Hr. reflexivity.
    - assert (Hnone : fst (AuthMiddleware._validate_token (String a t) (Http.store w0)) =
                      Py.VAtom Py.ANone).
      { rewrite Hs. destruct Hc as [Hd | [Hf Hl]].
        - apply validate_decode_failure. exact Hd.
        - apply validate_blacklisted. rewrite exists_answered by assumption. exact Hl. }
      destruct (AuthMiddleware._validate_token (String a t) (Http.store w0)) as [u s1].
      cbn [fst] in Hnone. subst u. reflexivity. }
  rewrite application_unfold. cbv zeta.
  destruct (prometheus_enabled settings).
  - rewrite wrap_metrics, wrap_auth. cbn [snd]. rewrite Hd by reflexivity.
    cbn. rewrite <- app_assoc. reflexivity.
  - rewrite wrap_auth. cbn [snd]. rewrite Hd by reflexivity. reflexivity.
Qed.

(** A request on a path exempt from authentication goes on to the rate
    limiter. *)
Lemma exempt_trace (router : Http.endpoint) (request : Http.request) (w : Http.world) :
  AuthMiddleware._is_exempt_path (Http.path request) = true ->
  exists l : list Http.stage,
    Http.trace (snd (Main.application router request w)) = Http.trace w ++ l /\
    Main.gates l = [Http.SAuth; Http.SRateLimit].
Proof.
  intros Hx.
  assert (Hp : forall (inner : Http.app) (w0 : Http.world),
             Http.trace (snd (Main.wrap Http.SAuth inner request w0)) =
             Http.trace (snd (inner request (Main.enter Http.SAuth w0)))).
  { intros inner w0. rewrite wrap_auth. cbn [snd].
    rewrite auth_dispatch_exempt by exact Hx. reflexivity. }
  rewrite application_unfold. cbv zeta.
  destruct (prometheus_enabled settings), (is_production settings).
  all: rewrite ?wrap_metrics; cbn [snd]; rewrite Hp.
  all: walk_stack.
  all: repeat match goal with H : Http.trace _ = _ |- _ => rewrite H; clear H end.
  all: cbn [Main.enter Http.trace]; rewrite <- ?app_assoc; cbn [app].
  all: eexists; split; [reflexivity|]; reflexivity.
Qed.

End OrderFacts.

Section OrderTheorems.
Context {E : Env}.

(** C2 as amended.  Authentication runs before rate limiting.  The stack
    of the application lists the auth middleware outside the rate limiter,
    and every request enters the auth middleware first and the rate
    limiter after it, at most once; a request that the auth middleware
    refuses does not reach the rate limiter, and a request on a path that
    is exempt from authentication does. *)
Theorem authentication_runs_before_rate_limiting
    (router : Http.endpoint) (request : Http.request) (w : Http.world) :
  Main.gates Main.create_application = [Http.SAuth; Http.SRateLimit]
  /\
  exists l : list Http.stage,
    Http.trace (snd (Main.application router request w)) = Http.trace w ++ l /\
    (Main.gates l = [Http.SAuth] \/ Main.gates l = [Http.SAuth; Http.SRateLimit]) /\
    (AuthMiddleware._is_exempt_path (Http.path request) = false ->
     refusal_cause request (Http.store w) ->
     Main.gates l = [Http.SAuth]) /\
    (AuthMiddleware._is_exempt_path (Http.path request) = true ->
     Main.gates l = [Http.SAuth; Http.SRateLimit]).
Proof.
  split.
  - unfold Main.create_application, Main.add_middleware.
    destruct (is_production settings), (prometheus_enabled settings); reflexivity.
  - destruct (gates_entered router request w) as (l & Hl & Hcases).
    exists l. split; [exact Hl|]. split; [exact Hcases|]. split.
    + intros Hx Hc.
      pose proof (refused_trace router request w Hx Hc) as Hr.
      rewrite Hl in Hr. apply app_inv_head in Hr. subst l.
      destruct (prometheus_enabled settings); reflexivity.
    + intros Hx.
      destruct (exempt_trace router request w Hx) as (l' & Hl' & Hg).
      rewrite Hl in Hl'. apply app_inv_head in Hl'. subst l'. exact Hg.
Qed.

End OrderTheorems.

Lemma authentication_runs_before_rate_limiting_witness :
  let run := fun (path : string) (authorization : option string) =>
    Main.gates
      (Http.trace (snd (Main.application (E := Demo.env) Demo.ok
                          (Demo.request "GET" path authorization)
                          (Demo.world_of Redis.fresh)))) in
  run "/api/v1/users/me" (Some "Bearer forged") = [Http.SAuth] /\
  run "/health" None = [Http.SAuth; Http.SRateLimit].
Proof.
  cbv zeta. split.
  - destruct (authentication_runs_before_rate_limiting (E := Demo.env) Demo.ok
                (Demo.request "GET" "/api/v1/users/me" (Some "Bearer forged"))
                (Demo.world_of Redis.fresh)) as (_ & l & Hl & _ & Href & _).
    rewrite Hl. apply Href; [reflexivity|].
    right. exists "f"%char, "orged". split; [reflexivity|]. left. discriminate.
  - destruct (authentication_runs_before_rate_limiting (E := Demo.env) Demo.ok
                (Demo.request "GET" "/health" None)
                (Demo.world_of Redis.fresh)) as (_ & l & Hl & _ & _ & Hex).
    rewrite Hl. apply Hex. reflexivity.
Defined.

(** C2 as claimed fails: an authenticated request enters the auth
    middleware before the rate limiter and the rate limiter before the
    request-ID middleware, and a request without token on a protected path
    is rejected before any request id is assigned. *)
Lemma auth_runs_before_request_id :
  let run := fun authorization =>
    Http.trace (snd (Main.application (E := Demo.env) Demo.ok
                       (Demo.request "GET" "/api/v1/users/me" authorization)
                       (Demo.world_of Redis.fresh))) in
  run (Some "Bearer good") =
    [Http.SMetrics; Http.SAuth; Http.SRateLimit; Http.SRequestID; Http.SCORS] /\
  Main.custom_stages (run (Some "Bearer good")) <>
    [Http.SRequestID; Http.SRateLimit; Http.SAuth] /\
  run None = [Http.SMetrics; Http.SAuth].
Proof.
  cbv zeta. split; [reflexivity|]. split; [|reflexivity].
  vm_compute. discriminate.
Qed.

(** * Further properties *)

(** ** The cache facade, operation by operation *)

Section RoundTripFacts.

Lemma call_faulted (c : Redis.command) (s : Redis.server) :
  Redis.next_fault s = true ->
  Redis.call c s = (None, snd (Redis.hand_over [c] s)).
Proof. intros H. unfold Redis.call, Redis.hand_over. rewrite H. reflexivity. Qed.

Lemma call_answered (c : Redis.command) (s : Redis.server) :
  Redis.next_fault s = false ->
  Redis.call c s = Redis.apply c (snd (Redis.hand_over [c] s)).
Proof. intros H. unfold Redis.call, Redis.hand_over. rewrite H. reflexivity. Qed.

Lemma live_hand_over (cs : list Redis.command) (s : Redis.server) (k : string) :
  Redis.live (snd (Redis.hand_over cs s)) k = Redis.live s k.
Proof. reflexivity. Qed.

Lemma live_advance_insert (s : Redis.server) (k : string) (v : Py.value) (ex : option Z)
    (now : Z) (faults : list bool) (wire : list Redis.command) (dt : Z) :
  Redis.live
    (Redis.advance dt
       (Redis.Server (<[k := Redis.Entry v ex]> (Redis.kv s)) now faults wire)) k =
  match ex with
  | Some t => if t <=? now + dt then None else Some (Redis.Entry v ex)
  | None => Some (Redis.Entry v ex)
  end.
Proof.
  unfold Redis.live, Redis.advance; cbn. rewrite lookup_insert_eq. reflexivity.
Qed.

(** One command changes nothing under any other key. *)
Lemma apply_other_key (c : Redis.command) (s : Redis.server) (k' : string) :
  k' <> Redis.command_key c ->
  Redis.kv (snd (Redis.apply c s)) !! k' = Redis.kv s !! k'.
Proof.
  intros Hne.
  destruct c as [k|k v ex|k|k|k a|k sec]; cbn [Redis.apply Redis.command_key] in *;
    split_apply; cbn;
    rewrite ?lookup_insert_ne, ?lookup_delete_ne by congruence; reflexivity.
Qed.

Lemma call_other_key (c : Redis.command) (s : Redis.server) (k' : string) :
  k' <> Redis.command_key c ->
  Redis.kv (snd (Redis.call c s)) !! k' = Redis.kv s !! k'.
Proof.
  intros Hne. unfold Redis.call, Redis.hand_over.
  destruct (Redis.next_fault s); [reflexivity|].
  rewrite apply_other_key by assumption. reflexivity.
Qed.

Lemma append_inj_r (p a b : string) : p +:+ a = p +:+ b -> a = b.
Proof.
  induction p as [|c p IH]; cbn; intros H; [exact H|].
  injection H as H. exact (IH H).
Qed.

End RoundTripFacts.

(** X1. When the round trip fails, every facade operation swallows the
    error: [get] and [increment] return [None], [set], [delete], [exists]
    and [expire] return [False], and the data of the store is as before. *)
Theorem cache_operations_fail_soft
    (self : RedisCache.t) (key : string) (v : Py.value) (ex : option Z) (n : Z)
    (s : Redis.server) :
  Redis.next_fault s = true ->
  (fst (RedisCache.get self key s) = Py.VAtom Py.ANone /\
   Redis.kv (snd (RedisCache.get self key s)) = Redis.kv s) /\
  (fst (RedisCache.set self key v ex s) = false /\
   Redis.kv (snd (RedisCache.set self key v ex s)) = Redis.kv s) /\
  (fst (RedisCache.delete self key s) = false /\
   Redis.kv (snd (RedisCache.delete self key s)) = Redis.kv s) /\
  (fst (RedisCache.exists_ self key s) = false /\
   Redis.kv (snd (RedisCache.exists_ self key s)) = Redis.kv s) /\
  (fst (RedisCache.increment self key n s) = None /\
   Redis.kv (snd (RedisCache.increment self key n s)) = Redis.kv s) /\
  (fst (RedisCache.expire self key n s) = false /\
   Redis.kv (snd (RedisCache.expire self key n s)) = Redis.kv s).
Proof.
  intros Hf.
  unfold RedisCache.get, RedisCache.set, RedisCache.delete, RedisCache.exists_,
    RedisCache.increment, RedisCache.expire.
  rewrite !call_faulted by assumption.
  repeat split.
Qed.

Lemma cache_operations_fail_soft_witness :
  fst (RedisCache.get RedisCache.cache "user:u1"
         (Demo.with_faults [true] Demo.after_logout)) = Py.VAtom Py.ANone /\
  fst (RedisCache.exists_ RedisCache.cache "blacklist:good"
         (Demo.with_faults [true] Demo.after_logout)) = false.
Proof.
  pose proof (cache_operations_fail_soft RedisCache.cache "user:u1"
                (Py.VAtom Py.ANone) None 0
                (Demo.with_faults [true] Demo.after_logout) eq_refl) as H1.
  pose proof (cache_operations_fail_soft RedisCache.cache "blacklist:good"
                (Py.VAtom Py.ANone) None 0
                (Demo.with_faults [true] Demo.after_logout) eq_refl) as H2.
  split; [apply H1 | apply H2].
Defined.

(** X2. A value written with [set] on an answering store, without
    [expire] or with a positive one that the store takes as a lifetime, is
    what [get] returns and what [exists] reports for as long as its
    lifetime has not run out: always without [expire], and for less than
    [expire] seconds with it; from then on [get] returns [None] and
    [exists] [False]. *)
Theorem set_then_get
    (self : RedisCache.t) (key : string) (v : Py.value) (ex : option Z) (dt : Z)
    (s : Redis.server) :
  Redis.next_fault s = false ->
  match ex with
  | Some t => 0 < t /\ Redis.in_time_range s t = true
  | None => True
  end ->
  0 <= dt ->
  let s1 := Redis.advance dt (snd (RedisCache.set self key v ex s)) in
  Redis.next_fault s1 = false ->
  let kept := match ex with Some t => dt <? t | None => true end in
  fst (RedisCache.set self key v ex s) = true /\
  fst (RedisCache.get self key s1) = (if kept then v else Py.VAtom Py.ANone) /\
  fst (RedisCache.exists_ self key s1) = kept.
Proof.
  intros Hf Hex Hdt. cbv zeta.
  unfold RedisCache.set. rewrite call_answered by assumption.
  set (s0 := snd (Redis.hand_over _ s)).
  assert (Hs1 : exists m,
             Redis.apply (Redis.SET (RedisCache._make_key self key) v ex) s0 =
             (Some Redis.ROk,
              Redis.Server
                (<[RedisCache._make_key self key :=
                     Redis.Entry v (match ex with Some t => Some (Redis.now s + t) | None => None end)]>
                   (Redis.kv s))
                (Redis.now s) (tail (Redis.faults s)) m)).
  { cbn [Redis.apply]. destruct ex as [t|]; [|eexists; reflexivity].
    destruct Hex as [Hpos Hin].
    change (Redis.in_time_range s0 t) with (Redis.in_time_range s t). rewrite Hin.
    destruct (t <=? 0) eqn:Hle; [lia|]. eexists; reflexivity. }
  destruct Hs1 as (m & ->). cbn [fst snd].
  intros Hf1. split; [reflexivity|].
  unfold RedisCache.get, RedisCache.exists_.
  rewrite !call_answered by assumption. cbn [Redis.apply fst].
  unfold Redis.is_live. rewrite !live_hand_over, !live_advance_insert.
  destruct ex as [t|]; cbn.
  - destruct (Redis.now s + t <=? Redis.now s + dt) eqn:H1;
      destruct (dt <? t) eqn:H2; try lia; split; reflexivity.
  - split; reflexivity.
Qed.

Lemma set_then_get_witness :
  fst (RedisCache.get RedisCache.cache "user:u1"
         (Redis.advance 299
            (snd (RedisCache.set RedisCache.cache "user:u1"
                    (Py.VDict [("user_id", Py.AStr "u1")]) (Some 300) Redis.fresh)))) =
    Py.VDict [("user_id", Py.AStr "u1")] /\
  fst (RedisCache.get RedisCache.cache "user:u1"
         (Redis.advance 300
            (snd (RedisCache.set RedisCache.cache "user:u1"
                    (Py.VDict [("user_id", Py.AStr "u1")]) (Some 300) Redis.fresh)))) =
    Py.VAtom Py.ANone.
Proof.
  split.
  - apply (set_then_get RedisCache.cache "user:u1" (Py.VDict [("user_id", Py.AStr "u1")])
             (Some 300) 299 Redis.fresh);
      [reflexivity | split; [lia | reflexivity] | lia | reflexivity].
  - apply (set_then_get RedisCache.cache "user:u1" (Py.VDict [("user_id", Py.AStr "u1")])
             (Some 300) 300 Redis.fresh);
      [reflexivity | split; [lia | reflexivity] | lia | reflexivity].
Defined.

(** X3. On an answering store [delete] returns [True] whether or not
    the key was there, and from then on [get] returns [None] and [exists]
    [False] for that key, at any later time. *)
Theorem delete_then_absent
    (self : RedisCache.t) (key : string) (dt : Z) (s : Redis.server) :
  Redis.next_fault s = false ->
  let s1 := Redis.advance dt (snd (RedisCache.delete self key s)) in
  Redis.next_fault s1 = false ->
  fst (RedisCache.delete self key s) = true /\
  fst (RedisCache.get self key s1) = Py.VAtom Py.ANone /\
  fst (RedisCache.exists_ self key s1) = false.
Proof.
  intros Hf. cbv zeta.
  unfold RedisCache.delete. rewrite call_answered by assumption.
  cbn [Redis.apply fst snd]. intros Hf1. split; [reflexivity|].
  unfold RedisCache.get, RedisCache.exists_.
  rewrite !call_answered by assumption. cbn [Redis.apply fst].
  unfold Redis.is_live. rewrite !live_hand_over.
  unfold Redis.live, Redis.advance, Redis.with_kv; cbn.
  rewrite lookup_delete_eq. split; reflexivity.
Qed.

Lemma delete_then_absent_witness :
  fst (RedisCache.delete RedisCache.cache "user:nobody" Redis.fresh) = true /\
  fst (RedisCache.get RedisCache.cache "blacklist:good"
         (Redis.advance 1
            (snd (RedisCache.delete RedisCache.cache "blacklist:good" Demo.after_logout)))) =
    Py.VAtom Py.ANone.
Proof.
  split.
  - apply (delete_then_absent RedisCache.cache "user:nobody" 0 Redis.fresh);
      reflexivity.
  - apply (delete_then_absent RedisCache.cache "blacklist:good" 1 Demo.after_logout);
      reflexivity.
Defined.

(** X4. On an answering store [increment] by a 64-bit [amount] adds it
    to the 64-bit integer under the key, counting an absent key as 0, and
    returns the sum when that is a 64-bit integer too; the counter keeps
    the expiry it had, and a counter that [increment] creates has none, so
    it stays until something else removes it. *)
Theorem increment_adds_and_keeps_expiry
    (self : RedisCache.t) (key : string) (amount n : Z) (s : Redis.server) :
  Redis.next_fault s = false ->
  Redis.int64 amount = true ->
  Redis.counter s (RedisCache._make_key self key) = Some n ->
  Redis.int64 (n + amount) = true ->
  let s1 := snd (RedisCache.increment self key amount s) in
  fst (RedisCache.increment self key amount s) = Some (n + amount) /\
  Redis.counter s1 (RedisCache._make_key self key) = Some (n + amount) /\
  Redis.expires_at <$> Redis.live s1 (RedisCache._make_key self key) =
    Some (match Redis.live s (RedisCache._make_key self key) with
          | Some e => Redis.expires_at e
          | None => None
          end).
Proof.
  intros Hf Ha Hc Hr. cbv zeta.
  unfold RedisCache.increment. rewrite call_answered by assumption.
  set (K := RedisCache._make_key self key) in *.
  set (s0 := snd (Redis.hand_over _ s)).
  cbn [Redis.apply]. rewrite Ha. cbn [negb].
  change (Redis.live s0 K) with (Redis.live s K).
  unfold Redis.counter in *.
  destruct (Redis.live s K) as [[[[| |m|]|] ex]|] eqn:Hl; try discriminate.
  - destruct (Redis.int64 m) eqn:Hm; [|discriminate].
    injection Hc as ->. rewrite Hr. cbn [andb fst snd].
    rewrite live_with_kv_insert. cbn [Redis.expires_at].
    assert (Hex : match ex with
                  | Some t => if t <=? Redis.now s0 then None
                              else Some (Redis.Entry (Py.VAtom (Py.AInt (n + amount))) ex)
                  | None => Some (Redis.Entry (Py.VAtom (Py.AInt (n + amount))) ex)
                  end = Some (Redis.Entry (Py.VAtom (Py.AInt (n + amount))) ex)).
    { unfold Redis.live in Hl. destruct (Redis.kv s !! K) as [e0|]; [|discriminate].
      destruct (Redis.expires_at e0) as [t0|] eqn:He0.
      - destruct (t0 <=? Redis.now s) eqn:Ht; [discriminate|].
        injection Hl as ->. cbn in He0. subst ex.
        change (Redis.now s0) with (Redis.now s). rewrite Ht. reflexivity.
      - injection Hl as ->. cbn in He0. subst ex. reflexivity. }
    rewrite Hex. rewrite Hr. repeat split.
  - injection Hc as <-. rewrite Z.add_0_l in *. cbn [fst snd].
    rewrite live_with_kv_insert. cbn [Redis.expires_at]. rewrite Hr. repeat split.
Qed.

Lemma increment_adds_and_keeps_expiry_witness :
  fst (RedisCache.increment RedisCache.cache "hits" 2 Redis.fresh) = Some (0 + 2) /\
  fst (RedisCache.increment RedisCache.cache "hits" 3
         (snd (RedisCache.increment RedisCache.cache "hits" 2 Redis.fresh))) = Some (2 + 3).
Proof.
  split.
  - apply (increment_adds_and_keeps_expiry RedisCache.cache "hits" 2 0 Redis.fresh);
      reflexivity.
  - apply (increment_adds_and_keeps_expiry RedisCache.cache "hits" 3 2
             (snd (RedisCache.increment RedisCache.cache "hits" 2 Redis.fresh)));
      reflexivity.
Defined.

(** X5. On an answering store [expire] returns [False] for a key that
    is not there and creates nothing; for a key that is there and a
    positive number of seconds that the store takes as a lifetime it
    returns [True], keeps the value, and the key is gone exactly when that
    many seconds have passed. *)
Theorem expire_sets_lifetime
    (self : RedisCache.t) (key : string) (seconds : Z) (s : Redis.server) :
  Redis.next_fault s = false ->
  let K := RedisCache._make_key self key in
  let s1 := snd (RedisCache.expire self key seconds s) in
  (Redis.live s K = None ->
   fst (RedisCache.expire self key seconds s) = false /\ Redis.kv s1 = Redis.kv s)
  /\
  (forall e : Redis.entry,
      Redis.live s K = Some e ->
      0 < seconds ->
      Redis.in_time_range s seconds = true ->
      fst (RedisCache.expire self key seconds s) = true /\
      forall dt : Z,
        0 <= dt ->
        Redis.live (Redis.advance dt s1) K =
          if dt <? seconds
          then Some (Redis.Entry (Redis.payload e) (Some (Redis.now s + seconds)))
          else None).
Proof.
  intros Hf. cbv zeta.
  unfold RedisCache.expire. rewrite call_answered by assumption.
  set (K := RedisCache._make_key self key).
  cbn [Redis.apply].
  match goal with |- context [Redis.live (snd (Redis.hand_over ?cs s)) K] =>
    change (Redis.live (snd (Redis.hand_over cs s)) K) with (Redis.live s K);
    change (Redis.in_time_range (snd (Redis.hand_over cs s)) seconds)
      with (Redis.in_time_range s seconds)
  end.
  split.
  - intros ->. destruct (Redis.in_time_range s seconds); cbn; split; reflexivity.
  - intros e -> Hpos ->. cbn [negb].
    destruct (seconds <=? 0) eqn:Hs; [lia|]. cbn [fst snd].
    split; [reflexivity|].
    intros dt Hdt. unfold Redis.with_kv. rewrite live_advance_insert.
    cbn. destruct (Redis.now s + seconds <=? Redis.now s + dt) eqn:H1;
      destruct (dt <? seconds) eqn:H2; try lia; reflexivity.
Qed.

Lemma expire_sets_lifetime_witness :
  fst (RedisCache.expire RedisCache.cache "user:nobody" 60 Redis.fresh) = false /\
  fst (RedisCache.expire RedisCache.cache "blacklist:good" 60 Demo.after_logout) = true.
Proof.
  split.
  - apply (expire_sets_lifetime RedisCache.cache "user:nobody" 60 Redis.fresh eq_refl).
    reflexivity.
  - apply (proj2 (expire_sets_lifetime RedisCache.cache "blacklist:good" 60
                    Demo.after_logout eq_refl)
             (Redis.Entry (Py.VAtom (Py.ABool true)) (Some 1800)));
      [reflexivity | lia | reflexivity].
Defined.

(** X6. A facade operation on a logical key reaches no other key of the
    store: whatever is under a different store key stays as it is.
    Distinct logical keys of one cache are distinct store keys, and no key
    of the global cache is a rate-limit key, so the cache never changes a
    rate-limit counter. *)
Theorem cache_operations_touch_one_key
    (self : RedisCache.t) (key : string) (v : Py.value) (ex : option Z) (n : Z)
    (s : Redis.server) :
  (forall k' : string,
      k' <> RedisCache._make_key self key ->
      Redis.kv (snd (RedisCache.get self key s)) !! k' = Redis.kv s !! k' /\
      Redis.kv (snd (RedisCache.set self key v ex s)) !! k' = Redis.kv s !! k' /\
      Redis.kv (snd (RedisCache.delete self key s)) !! k' = Redis.kv s !! k' /\
      Redis.kv (snd (RedisCache.exists_ self key s)) !! k' = Redis.kv s !! k' /\
      Redis.kv (snd (RedisCache.increment self key n s)) !! k' = Redis.kv s !! k' /\
      Redis.kv (snd (RedisCache.expire self key n s)) !! k' = Redis.kv s !! k')
  /\
  (forall key' : string,
      RedisCache._make_key self key = RedisCache._make_key self key' -> key = key')
  /\
  (forall k' : string,
      Py.startswith k' "rate_limit:" = true ->
      k' <> RedisCache._make_key RedisCache.cache key).
Proof.
  split; [|split].
  - intros k' Hne.
    unfold RedisCache.get, RedisCache.set, RedisCache.delete, RedisCache.exists_,
      RedisCache.increment, RedisCache.expire.
    repeat split;
      match goal with |- context [Redis.call ?c ?t] =>
        pose proof (call_other_key c t k' Hne) as H;
        destruct (Redis.call c t) as [[r|] s']
      end;
      try exact H; destruct r; exact H.
  - intros key' H. unfold RedisCache._make_key in H.
    apply append_inj_r in H. apply (append_inj_r ":") in H. exact H.
  - intros k' Hk ->. cbn in Hk. discriminate.
Qed.

Lemma cache_operations_touch_one_key_witness :
  Redis.kv (snd (RedisCache.delete RedisCache.cache "user:u1" Demo.after_logout))
    !! "predictpesa:blacklist:good" =
  Redis.kv Demo.after_logout !! "predictpesa:blacklist:good".
Proof.
  apply (cache_operations_touch_one_key RedisCache.cache "user:u1" (Py.VAtom Py.ANone)
           None 0 Demo.after_logout).
  cbn. discriminate.
Defined.

(** ** The rate limiter over many calls *)

Section ManyCalls.

Lemma int64_intro (x : Z) : - 2 ^ 63 <= x <= 2 ^ 63 - 1 -> Redis.int64 x = true.
Proof.
  intros H. unfold Redis.int64. apply andb_true_intro. split; apply Z.leb_le; lia.
Qed.

Lemma faults_bumped (key : string) (window n : Z) (s : Redis.server) :
  Redis.faults s = [] -> Redis.faults (Redis.bumped key window n s) = [].
Proof. intros H. unfold Redis.bumped; cbn. rewrite H. reflexivity. Qed.

Lemma next_fault_of_no_faults (s : Redis.server) :
  Redis.faults s = [] -> Redis.next_fault s = false.
Proof. intros H. unfold Redis.next_fault. rewrite H. reflexivity. Qed.

(** After an answered call the counter is still there for less than
    [window] seconds and gone from then on. *)
Lemma counter_after_pause (key : string) (window n dt : Z) (s : Redis.server) :
  0 <= dt ->
  Redis.int64 (n + 1) = true ->
  Redis.counter (Redis.advance dt (Redis.bumped key window n s)) key =
    Some (if dt <? window then n + 1 else 0).
Proof.
  intros Hdt Hr. unfold Redis.counter, Redis.bumped. rewrite live_advance_insert.
  destruct (Redis.now s + window <=? Redis.now s + dt) eqn:H1;
    destruct (dt <? window) eqn:H2; try lia; [reflexivity|].
  rewrite Hr. reflexivity.
Qed.

(** A lifetime that the store takes at some time, it takes at any
    earlier time. *)
Lemma in_time_range_earlier (s : Redis.server) (dt seconds : Z) :
  0 <= dt ->
  Redis.in_time_range (Redis.advance dt s) seconds = true ->
  Redis.in_time_range s seconds = true.
Proof.
  unfold Redis.in_time_range, Redis.advance; cbn [Redis.now]. intros Hdt H.
  apply andb_prop in H. destruct H as [H H3].
  apply andb_prop in H. destruct H as [H1 H2].
  repeat (apply andb_true_intro; split); lia.
Qed.

Lemma run_now (cs : list Redis.command) :
  forall s : Redis.server, Redis.now (snd (Redis.run cs s)) = Redis.now s.
Proof.
  induction cs as [|c cs IH]; intros s; [reflexivity|].
  cbn [Redis.run].
  pose proof (apply_frame c s) as (Hn & _).
  destruct (Redis.apply c s) as [r s1]. cbn [snd] in Hn.
  specialize (IH s1). destruct (Redis.run cs s1) as [rs s2].
  cbn [snd] in *. congruence.
Qed.

(** The clock does not move during a call. *)
Lemma is_allowed_now (key : string) (limit window : Z) (s : Redis.server) :
  Redis.now (snd (RateLimiter.is_allowed key limit window s)) = Redis.now s.
Proof.
  unfold RateLimiter.is_allowed, Redis.execute, Redis.hand_over.
  destruct (Redis.next_fault s); [reflexivity|].
  set (s1 := Redis.Server _ _ _ _).
  pose proof (run_now [Redis.INCRBY key 1; Redis.EXPIRE key window] s1) as Hn.
  destruct (Redis.run _ s1) as [rs s2]. cbn [snd] in Hn.
  destruct (Redis.replies rs) as [[|[| |c|] l]|];
    try destruct (c <=? limit); exact Hn.
Qed.

Lemma successive_from (n : nat) (key : string) (limit window : Z) :
  forall (s : Redis.server) (m : Z),
    0 < window ->
    Redis.in_time_range s window = true ->
    Redis.faults s = [] ->
    Redis.counter s key = Some m ->
    0 <= m ->
    m + Z.of_nat n <= 2 ^ 63 - 1 ->
    fst (RateLimiter.successive n key limit window s) =
      map (fun i : nat => (m + Z.of_nat i <=? limit, Z.max 0 (limit - (m + Z.of_nat i))))
        (seq 1 n).
Proof.
  induction n as [|n IH]; intros s m Hw Hin Hf Hc Hm Hb; [reflexivity|].
  cbn [RateLimiter.successive].
  rewrite (is_allowed_answered key limit window s m
             (next_fault_of_no_faults s Hf) Hw Hin Hc) by (apply int64_intro; lia).
  specialize (IH (Redis.bumped key window m s) (m + 1) Hw Hin
                (faults_bumped key window m s Hf)
                (counter_bumped key window m s Hw ltac:(apply int64_intro; lia))).
  destruct (RateLimiter.successive n key limit window (Redis.bumped key window m s))
    as [rs s2].
  cbn [fst] in *. rewrite IH by lia.
  cbn [seq map]. f_equal.
  rewrite <- (seq_shift n 1), map_map.
  apply map_ext. intros i.
  replace (m + 1 + Z.of_nat i) with (m + Z.of_nat (S i)) by lia. reflexivity.
Qed.

End ManyCalls.

(** X7. On a reachable store, for a window that the store takes as a
    lifetime, [n] calls in a row on a fresh key are counted 1, 2, ...,
    [n] without gap or repetition: the [i]-th call is allowed exactly when
    [i <= limit] and reports [max(0, limit - i)] remaining, for every
    limit and every [n]. *)
Theorem successive_calls_count_up
    (n : nat) (key : string) (limit window : Z) (s : Redis.server) :
  0 < window ->
  Redis.in_time_range s window = true ->
  Redis.faults s = [] ->
  Redis.live s key = None ->
  Z.of_nat n <= 2 ^ 63 - 1 ->
  fst (RateLimiter.successive n key limit window s) =
    map (fun i : nat => (Z.of_nat i <=? limit, Z.max 0 (limit - Z.of_nat i))) (seq 1 n).
Proof.
  intros Hw Hin Hf Hl Hb.
  rewrite (successive_from n key limit window s 0 Hw Hin Hf); try lia.
  - reflexivity.
  - unfold Redis.counter. rewrite Hl. reflexivity.
Qed.

Lemma successive_calls_count_up_witness :
  fst (RateLimiter.successive 4 "rate_limit:ip:10.0.0.1:/x" 2 60 Redis.fresh) =
    [(true, 1); (true, 0); (false, 0); (false, 0)].
Proof.
  apply (successive_calls_count_up 4 "rate_limit:ip:10.0.0.1:/x" 2 60 Redis.fresh);
    [lia | reflexivity | reflexivity | reflexivity | cbn; lia].
Defined.

(** X8. When a key is left alone for at least [window] seconds after an
    answered call, the next answered call starts again from count 1,
    whatever the count was before.  Both calls are answered: the store is
    reachable and takes the window as a lifetime at the time of each. *)
Theorem window_restarts_after_silence
    (key : string) (limit window n dt : Z) (s : Redis.server) :
  Redis.next_fault s = false ->
  0 < window ->
  Redis.counter s key = Some n ->
  Redis.int64 (n + 1) = true ->
  window <= dt ->
  let s1 := Redis.advance dt (snd (RateLimiter.is_allowed key limit window s)) in
  Redis.next_fault s1 = false ->
  Redis.in_time_range s1 window = true ->
  fst (RateLimiter.is_allowed key limit window s1) = (1 <=? limit, Z.max 0 (limit - 1)).
Proof.
  intros Hf Hw Hc Hr Hdt. cbv zeta. intros Hf1 Hin1.
  assert (Hin : Redis.in_time_range s window = true).
  { apply (in_time_range_earlier s dt window); [lia|].
    rewrite <- Hin1. unfold Redis.in_time_range, Redis.advance. cbn [Redis.now].
    rewrite is_allowed_now. reflexivity. }
  revert Hf1 Hin1.
  rewrite (is_allowed_answered key limit window s n Hf Hw Hin Hc Hr). cbn [snd].
  intros Hf1 Hin1.
  rewrite (is_allowed_answered key limit window _ 0 Hf1 Hw Hin1); [reflexivity| |reflexivity].
  rewrite counter_after_pause by (lia || assumption).
  destruct (dt <? window) eqn:H; [lia|reflexivity].
Qed.

Lemma window_restarts_after_silence_witness :
  fst (RateLimiter.is_allowed "k" 5 60
         (Redis.advance 60
            (snd (RateLimiter.is_allowed "k" 5 60
                    (snd (RateLimiter.successive 7 "k" 5 60 Redis.fresh)))))) = (true, 4).
Proof.
  apply (window_restarts_after_silence "k" 5 60 7 60
           (snd (RateLimiter.successive 7 "k" 5 60 Redis.fresh)));
    [reflexivity | lia | reflexivity | reflexivity | lia | reflexivity | reflexivity].
Defined.

(** X9. A client that is over the limit and keeps calling, each call
    less than [window] seconds after the one before, is rejected every
    time: each call, rejected or not, counts and moves the expiry, so the
    window never runs out.  The store is reachable and takes the window as
    a lifetime up to the time of the last call. *)
Theorem retries_within_window_stay_rejected
    (gaps : list Z) (key : string) (limit window : Z) :
  forall (s : Redis.server) (n : Z),
    0 < window ->
    Redis.in_time_range (Redis.advance (fold_right Z.add 0 gaps) s) window = true ->
    Redis.faults s = [] ->
    Redis.counter s key = Some n ->
    0 <= n ->
    limit <= n ->
    n + Z.of_nat (length gaps) <= 2 ^ 63 - 1 ->
    Forall (fun g => 0 <= g < window) gaps ->
    fst (Paced.paced gaps key limit window s) = replicate (length gaps) (false, 0).
Proof.
  induction gaps as [|g gaps IH]; intros s n Hw Hin Hf Hc Hn Hl Hb Hg; [reflexivity|].
  cbn [Paced.paced length fold_right] in *.
  apply Forall_cons_1 in Hg. destruct Hg as [Hg Hgs].
  assert (Hsum : 0 <= fold_right Z.add 0 gaps).
  { clear -Hgs. induction Hgs as [|x l Hx _ IHl]; cbn; lia. }
  assert (Hin0 : Redis.in_time_range s window = true).
  { apply (in_time_range_earlier s (g + fold_right Z.add 0 gaps) window); [lia|exact Hin]. }
  rewrite (is_allowed_answered key limit window s n
             (next_fault_of_no_faults s Hf) Hw Hin0 Hc) by (apply int64_intro; lia).
  specialize (IH (Redis.advance g (Redis.bumped key window n s)) (n + 1) Hw).
  destruct (Paced.paced gaps key limit window _) as [rs s2].
  cbn [fst] in *. rewrite IH; try lia; try assumption.
  - destruct (n + 1 <=? limit) eqn:H; [lia|].
    replace (Z.max 0 (limit - (n + 1))) with 0 by lia. reflexivity.
  - rewrite <- Hin. unfold Redis.in_time_range, Redis.advance, Redis.bumped.
    cbn [Redis.now]. rewrite Z.add_assoc. reflexivity.
  - cbn. rewrite Hf. reflexivity.
  - rewrite counter_after_pause by (lia || (apply int64_intro; lia)).
    destruct (g <? window) eqn:H; [reflexivity|lia].
Qed.

Lemma retries_within_window_stay_rejected_witness :
  fst (Paced.paced [59; 59; 59] "k" 5 60
         (snd (RateLimiter.successive 5 "k" 5 60 Redis.fresh))) =
    [(false, 0); (false, 0); (false, 0)].
Proof.
  apply (retries_within_window_stay_rejected [59; 59; 59] "k" 5 60
           (snd (RateLimiter.successive 5 "k" 5 60 Redis.fresh)) 5);
    try reflexivity; try lia.
  - cbn. lia.
  - repeat (apply List.Forall_cons; [lia|]). apply List.Forall_nil.
Defined.

(** ** Reading the Authorization header *)

Section HeaderParsing.

Lemma cut_spec (c : ascii) (s l r : string) :
  Py.cut c s = Some (l, r) -> s = l +:+ String c r /\ Py.cut c l = None.
Proof.
  revert l r. induction s as [|a s IH]; intros l r H; cbn [Py.cut] in H; [discriminate|].
  destruct (Ascii.eqb a c) eqn:Ha.
  - injection H as <- <-. apply Ascii.eqb_eq in Ha. subst a. split; reflexivity.
  - destruct (Py.cut c s) as [[l0 r0]|]; [|discriminate].
    injection H as <- <-. destruct (IH l0 r0 eq_refl) as [-> Hn].
    split; [reflexivity|]. cbn [Py.cut]. rewrite Ha, Hn. reflexivity.
Qed.

Lemma cut_app (c : ascii) (l r : string) :
  Py.cut c l = None -> Py.cut c (l +:+ String c r) = Some (l, r).
Proof.
  induction l as [|a l IH]; intros H.
  - change ("" +:+ String c r) with (String c r). cbn [Py.cut].
    rewrite Ascii.eqb_refl. reflexivity.
  - change (String a l +:+ String c r) with (String a (l +:+ String c r)).
    cbn [Py.cut] in *.
    destruct (Ascii.eqb a c); [discriminate|].
    destruct (Py.cut c l) as [[l0 r0]|]; [discriminate|].
    rewrite IH by reflexivity. reflexivity.
Qed.

(** Lower-casing neither removes nor introduces a space. *)
Lemma cut_space_lower (s : string) :
  Py.cut " " (Py.lower s) = None -> Py.cut " " s = None.
Proof.
  induction s as [|a s IH]; cbn [Py.cut Py.lower]; intros H; [reflexivity|].
  destruct (Ascii.eqb a " ") eqn:Ha.
  - apply Ascii.eqb_eq in Ha. subst a. cbn in H. discriminate.
  - destruct (Ascii.eqb (Py.lower_ascii a) " "); [discriminate|].
    destruct (Py.cut " " (Py.lower s)) as [[l0 r0]|]; [discriminate|].
    rewrite IH by reflexivity. reflexivity.
Qed.

End HeaderParsing.

(** X10. [_extract_token] returns a token exactly for a header of the
    form scheme, one space, token, where the scheme is "bearer" in any
    mix of upper and lower case; the token is everything after that first
    space, further spaces included.  Every other header, among them one
    without a space, gives [None]. *)
Theorem extract_token_reads_bearer_scheme (request : Http.request) :
  (forall scheme token : string,
      Http.authorization (Http.hdrs request) = Some (scheme +:+ " " +:+ token) ->
      Py.lower scheme = "bearer" ->
      AuthMiddleware._extract_token request = Some token)
  /\
  (forall token : string,
      AuthMiddleware._extract_token request = Some token ->
      exists scheme : string,
        Http.authorization (Http.hdrs request) = Some (scheme +:+ " " +:+ token) /\
        Py.lower scheme = "bearer")
  /\
  (forall header : string,
      Http.authorization (Http.hdrs request) = Some header ->
      Py.cut " " header = None ->
      AuthMiddleware._extract_token request = None).
Proof.
  unfold AuthMiddleware._extract_token.
  split; [|split].
  - intros scheme token -> Hl.
    assert (Hc : Py.cut " " scheme = None).
    { apply cut_space_lower. rewrite Hl. reflexivity. }
    assert (Hne : String.eqb (scheme +:+ " " +:+ token) "" = false).
    { destruct scheme; [discriminate Hl | reflexivity]. }
    rewrite Hne.
    change (scheme +:+ " " +:+ token) with (scheme +:+ String " " token).
    rewrite cut_app by assumption. rewrite Hl. reflexivity.
  - intros token H.
    destruct (Http.authorization (Http.hdrs request)) as [h|]; [|discriminate].
    destruct (String.eqb h ""); [discriminate|].
    destruct (Py.cut " " h) as [[scheme tok]|] eqn:Hc; [|discriminate].
    destruct (String.eqb (Py.lower scheme) "bearer") eqn:Hl; [|discriminate].
    injection H as ->. apply String.eqb_eq in Hl.
    exists scheme. split; [|assumption].
    destruct (cut_spec _ _ _ _ Hc) as [-> _]. reflexivity.
  - intros header -> Hc.
    destruct (String.eqb header ""); [reflexivity|]. rewrite Hc. reflexivity.
Qed.

Lemma extract_token_reads_bearer_scheme_witness :
  AuthMiddleware._extract_token (Demo.request "GET" "/x" (Some "BEARER a b c")) =
    Some "a b c" /\
  AuthMiddleware._extract_token (Demo.request "GET" "/x" (Some "Bearer")) = None.
Proof.
  pose proof (extract_token_reads_bearer_scheme
                (Demo.request "GET" "/x" (Some "BEARER a b c"))) as (H1 & _ & _).
  pose proof (extract_token_reads_bearer_scheme
                (Demo.request "GET" "/x" (Some "Bearer"))) as (_ & _ & H3).
  split.
  - apply (H1 "BEARER" "a b c"); reflexivity.
  - apply (H3 "Bearer"); reflexivity.
Defined.

(** ** Token validation and the identity cache *)

Section ValidationFacts.
Context {E : Env}.

Lemma exists_on_answer (self : RedisCache.t) (key : string) (s : Redis.server) :
  Redis.next_fault s = false ->
  RedisCache.exists_ self key s =
  (Redis.is_live s (RedisCache._make_key self key),
   snd (Redis.hand_over [Redis.EXISTS (RedisCache._make_key self key)] s)).
Proof.
  intros Hf. unfold RedisCache.exists_. rewrite call_answered by assumption.
  cbn [Redis.apply]. unfold Redis.is_live. rewrite live_hand_over.
  destruct (Redis.live s _); reflexivity.
Qed.

Lemma get_on_answer (self : RedisCache.t) (key : string) (s : Redis.server) :
  Redis.next_fault s = false ->
  RedisCache.get self key s =
  (match Redis.live s (RedisCache._make_key self key) with
   | Some e => Redis.payload e
   | None => Py.VAtom Py.ANone
   end,
   snd (Redis.hand_over [Redis.GET (RedisCache._make_key self key)] s)).
Proof.
  intros Hf. unfold RedisCache.get. rewrite call_answered by assumption.
  cbn [Redis.apply]. rewrite live_hand_over.
  destruct (Redis.live s _); reflexivity.
Qed.

Lemma set_on_answer (self : RedisCache.t) (key : string) (v : Py.value) (t : Z)
    (s : Redis.server) :
  Redis.next_fault s = false ->
  0 < t ->
  Redis.in_time_range s t = true ->
  RedisCache.set self key v (Some t) s =
  (true,
   Redis.Server
     (<[RedisCache._make_key self key := Redis.Entry v (Some (Redis.now s + t))]>
        (Redis.kv s))
     (Redis.now s) (tail (Redis.faults s))
     (Redis.wire s ++ [Redis.SET (RedisCache._make_key self key) v (Some t)])).
Proof.
  intros Hf Ht Hin. unfold RedisCache.set. rewrite call_answered by assumption.
  cbn [Redis.apply]. destruct (t <=? 0) eqn:H; [lia|].
  change (Redis.in_time_range _ t) with (Redis.in_time_range s t). rewrite Hin.
  reflexivity.
Qed.

(** A lifetime outside the time range of the store is refused: the
    facade reports the failure and nothing is stored. *)
Lemma set_out_of_range (self : RedisCache.t) (key : string) (v : Py.value) (t : Z)
    (s : Redis.server) :
  Redis.next_fault s = false ->
  Redis.in_time_range s t = false ->
  RedisCache.set self key v (Some t) s =
  (false,
   Redis.Server (Redis.kv s) (Redis.now s) (tail (Redis.faults s))
     (Redis.wire s ++ [Redis.SET (RedisCache._make_key self key) v (Some t)])).
Proof.
  intros Hf Hin. unfold RedisCache.set. rewrite call_answered by assumption.
  cbn [Redis.apply].
  change (Redis.in_time_range _ t) with (Redis.in_time_range s t). rewrite Hin.
  rewrite orb_true_r. reflexivity.
Qed.

(** The identity built from the claims of a token. *)
Lemma validate_on_reachable_store (token : string) (s : Redis.server)
    (payload : list (string * Py.atom)) :
  Redis.faults s = [] ->
  Redis.is_live s (RedisCache._make_key RedisCache.cache ("blacklist:" +:+ token)) = false ->
  jwt_decode (Redis.now s) token = Decoded payload ->
  Py.truthy_atom (Py.dict_get payload "sub") = true ->
  Py.truthy_atom (Py.dict_get payload "exp") = true ->
  let bk := RedisCache._make_key RedisCache.cache ("blacklist:" +:+ token) in
  let uk := RedisCache._make_key RedisCache.cache
              ("user:" +:+ Py.str (Py.dict_get payload "sub")) in
  let cached := match Redis.live s uk with
                | Some e => Redis.payload e
                | None => Py.VAtom Py.ANone
                end in
  let fresh_identity :=
    Py.VDict [ ("user_id", Py.dict_get payload "sub");
               ("email", Py.dict_get payload "email");
               ("role", Py.dict_get_default payload "role" (Py.AStr "user"));
               ("is_verified", Py.dict_get_default payload "is_verified" (Py.ABool false)) ] in
  AuthMiddleware._validate_token token s =
  if Py.truthy cached
  then (cached,
        Redis.Server (Redis.kv s) (Redis.now s) []
          (Redis.wire s ++ [Redis.EXISTS bk; Redis.GET uk]))
  else (fresh_identity,
        Redis.Server
          (if Redis.in_time_range s 300
           then <[uk := Redis.Entry fresh_identity (Some (Redis.now s + 300))]> (Redis.kv s)
           else Redis.kv s)
          (Redis.now s) []
          (Redis.wire s ++ [Redis.EXISTS bk; Redis.GET uk;
                            Redis.SET uk fresh_identity (Some 300)])).
Proof.
  intros Hf Hbl Hd Hsub Hexp. cbv zeta.
  unfold AuthMiddleware._validate_token.
  rewrite exists_on_answer by (apply next_fault_of_no_faults; assumption).
  rewrite Hbl.
  set (s1 := snd (Redis.hand_over _ s)).
  assert (Hf1 : Redis.faults s1 = []) by (unfold s1; cbn; rewrite Hf; reflexivity).
  lazy iota beta.
  change (Redis.now s1) with (Redis.now s). rewrite Hd, Hsub, Hexp.
  lazy iota beta. cbn [negb].
  rewrite get_on_answer by (apply next_fault_of_no_faults; assumption).
  set (uk := RedisCache._make_key RedisCache.cache
               ("user:" +:+ Py.str (Py.dict_get payload "sub"))).
  change (Redis.live s1 uk) with (Redis.live s uk).
  set (s2 := snd (Redis.hand_over _ s1)).
  assert (Hf2 : Redis.faults s2 = []) by (unfold s2, s1; cbn; rewrite Hf; reflexivity).
  lazy iota beta.
  destruct (Py.truthy (match Redis.live s uk with
                       | Some e => Redis.payload e
                       | None => Py.VAtom Py.ANone
                       end)) eqn:Ht; cbn [negb]; lazy iota beta.
  - unfold s2, s1, Redis.hand_over; cbn. rewrite Hf. cbn. rewrite <- app_assoc. reflexivity.
  - assert (Hin2 : Redis.in_time_range s2 300 = Redis.in_time_range s 300) by reflexivity.
    destruct (Redis.in_time_range s 300) eqn:Hin.
    + rewrite set_on_answer;
        [|apply next_fault_of_no_faults; assumption|lia|rewrite Hin2; reflexivity].
      unfold s2, s1, Redis.hand_over; cbn. rewrite Hf. cbn. rewrite <- !app_assoc.
      reflexivity.
    + rewrite set_out_of_range;
        [|apply next_fault_of_no_faults; assumption|rewrite Hin2; reflexivity].
      unfold s2, s1, Redis.hand_over; cbn. rewrite Hf. cbn. rewrite <- !app_assoc.
      reflexivity.
Qed.

(** A key that is not visible now is not visible later either, as long
    as nothing writes it. *)
Lemma not_live_later (s : Redis.server) (k : string) (dt : Z) :
  0 <= dt -> Redis.is_live s k = false -> Redis.is_live (Redis.advance dt s) k = false.
Proof.
  intros Hdt. unfold Redis.is_live, Redis.live, Redis.advance; cbn.
  destruct (Redis.kv s !! k) as [[v [t|]]|]; cbn; try discriminate; try reflexivity.
  destruct (t <=? Redis.now s) eqn:H1; [|discriminate].
  destruct (t <=? Redis.now s + dt) eqn:H2; [reflexivity|lia].
Qed.

End ValidationFacts.

Section ValidationTheorems.
Context {E : Env}.

(** X11. When the identity cache holds a true value for the subject of
    a token that decodes and is not blacklisted, validation on a reachable
    store returns that cached value as it is, whatever the other claims of
    the token say, and writes nothing: it only checks the blacklist and
    reads the cache. *)
Theorem validation_prefers_cached_identity
    (token : string) (s : Redis.server) (payload : list (string * Py.atom))
    (e : Redis.entry) :
  Redis.faults s = [] ->
  Redis.is_live s (RedisCache._make_key RedisCache.cache ("blacklist:" +:+ token)) = false ->
  jwt_decode (Redis.now s) token = Decoded payload ->
  Py.truthy_atom (Py.dict_get payload "sub") = true ->
  Py.truthy_atom (Py.dict_get payload "exp") = true ->
  Redis.live s (RedisCache._make_key RedisCache.cache
                  ("user:" +:+ Py.str (Py.dict_get payload "sub"))) = Some e ->
  Py.truthy (Redis.payload e) = true ->
  fst (AuthMiddleware._validate_token token s) = Redis.payload e /\
  Redis.kv (snd (AuthMiddleware._validate_token token s)) = Redis.kv s /\
  Redis.wire (snd (AuthMiddleware._validate_token token s)) =
    Redis.wire s ++
    [ Redis.EXISTS (RedisCache._make_key RedisCache.cache ("blacklist:" +:+ token));
      Redis.GET (RedisCache._make_key RedisCache.cache
                   ("user:" +:+ Py.str (Py.dict_get payload "sub"))) ].
Proof.
  intros Hf Hbl Hd Hsub Hexp Hl Ht.
  rewrite (validate_on_reachable_store token s payload Hf Hbl Hd Hsub Hexp).
  cbv zeta. rewrite Hl, Ht. repeat split.
Qed.

(** X12. A token that decodes, is not blacklisted and finds no cached
    identity is validated to the identity built from its claims (subject,
    email, role defaulting to "user", verification defaulting to false);
    that identity is cached, the store taking the 300 seconds as a
    lifetime, and for the next 300 seconds the validation of any token
    with the same subject that decodes and is not blacklisted, the same
    token or another one, returns it again, even if the other claims
    differ. *)
Theorem validation_caches_identity
    (token : string) (s : Redis.server) (payload : list (string * Py.atom)) :
  Redis.faults s = [] ->
  Redis.in_time_range s 300 = true ->
  Redis.is_live s (RedisCache._make_key RedisCache.cache ("blacklist:" +:+ token)) = false ->
  jwt_decode (Redis.now s) token = Decoded payload ->
  Py.truthy_atom (Py.dict_get payload "sub") = true ->
  Py.truthy_atom (Py.dict_get payload "exp") = true ->
  Redis.live s (RedisCache._make_key RedisCache.cache
                  ("user:" +:+ Py.str (Py.dict_get payload "sub"))) = None ->
  fst (AuthMiddleware._validate_token token s) =
    Py.VDict [ ("user_id", Py.dict_get payload "sub");
               ("email", Py.dict_get payload "email");
               ("role", Py.dict_get_default payload "role" (Py.AStr "user"));
               ("is_verified", Py.dict_get_default payload "is_verified" (Py.ABool false)) ]
  /\
  forall (dt : Z) (token' : string) (payload' : list (string * Py.atom)),
    0 <= dt < 300 ->
    Redis.is_live s (RedisCache._make_key RedisCache.cache ("blacklist:" +:+ token')) = false ->
    jwt_decode (Redis.now s + dt) token' = Decoded payload' ->
    Py.dict_get payload' "sub" = Py.dict_get payload "sub" ->
    Py.truthy_atom (Py.dict_get payload' "exp") = true ->
    fst (AuthMiddleware._validate_token token'
           (Redis.advance dt (snd (AuthMiddleware._validate_token token s)))) =
    fst (AuthMiddleware._validate_token token s).
Proof.
  intros Hf Hin Hbl Hd Hsub Hexp Hl.
  rewrite (validate_on_reachable_store token s payload Hf Hbl Hd Hsub Hexp).
  cbv zeta. rewrite Hl, Hin. cbn [Py.truthy Py.truthy_atom fst snd].
  split; [reflexivity|].
  intros dt token' payload' Hdt Hbl' Hd' Hsame Hexp'.
  set (uk := RedisCache._make_key RedisCache.cache
               ("user:" +:+ Py.str (Py.dict_get payload "sub"))).
  set (ident := Py.VDict _).
  set (s3 := Redis.Server _ _ _ _).
  assert (Hbl3 : Redis.is_live (Redis.advance dt s3)
                   (RedisCache._make_key RedisCache.cache ("blacklist:" +:+ token')) = false).
  { apply not_live_later; [lia|].
    unfold Redis.is_live, Redis.live in *. unfold s3; cbn [Redis.kv Redis.now].
    rewrite lookup_insert_ne by apply user_key_not_blacklist_key. exact Hbl'. }
  assert (Hsub' : Py.truthy_atom (Py.dict_get payload' "sub") = true)
    by (rewrite Hsame; exact Hsub).
  rewrite (validate_on_reachable_store token' (Redis.advance dt s3) payload'
             eq_refl Hbl3 Hd' Hsub' Hexp').
  cbv zeta. rewrite Hsame. fold uk.
  unfold s3. rewrite live_advance_insert.
  destruct (Redis.now s + 300 <=? Redis.now s + dt) eqn:H; [lia|].
  reflexivity.
Qed.

(** X13. A token that decodes but carries no subject, an empty subject,
    no expiry or expiry 0 is refused, after the blacklist check alone:
    the identity cache is neither read nor written. *)
Theorem token_without_subject_or_expiry_refused
    (token : string) (s : Redis.server) (payload : list (string * Py.atom)) :
  jwt_decode (Redis.now s) token = Decoded payload ->
  Py.truthy_atom (Py.dict_get payload "sub") = false \/
  Py.truthy_atom (Py.dict_get payload "exp") = false ->
  fst (AuthMiddleware._validate_token token s) = Py.VAtom Py.ANone /\
  Redis.kv (snd (AuthMiddleware._validate_token token s)) = Redis.kv s /\
  Redis.wire (snd (AuthMiddleware._validate_token token s)) =
    Redis.wire s ++
    [Redis.EXISTS (RedisCache._make_key RedisCache.cache ("blacklist:" +:+ token))].
Proof.
  intros Hd Hmiss. unfold AuthMiddleware._validate_token.
  pose proof (exists_now RedisCache.cache ("blacklist:" +:+ token) s) as Hn.
  pose proof (exists_wire RedisCache.cache ("blacklist:" +:+ token) s) as Hw.
  assert (Hk : Redis.kv (snd (RedisCache.exists_ RedisCache.cache ("blacklist:" +:+ token) s))
               = Redis.kv s).
  { unfold RedisCache.exists_, Redis.call, Redis.hand_over.
    destruct (Redis.next_fault s); reflexivity. }
  destruct (RedisCache.exists_ RedisCache.cache ("blacklist:" +:+ token) s) as [b s1].
  cbn [snd] in *.
  destruct b; [auto|]. rewrite Hn, Hd.
  destruct Hmiss as [H | H].
  - rewrite H. cbn [negb]. auto.
  - destruct (negb (Py.truthy_atom (Py.dict_get payload "sub"))); [auto|].
    rewrite H. cbn [negb]. auto.
Qed.

(** X14. A request on a path that is not exempt, with a token that
    decodes, is not blacklisted and has no cached identity, goes on to the
    next stage with the token's subject in [request.state]: there
    [get_current_user] returns a user with that id, the email, role and
    verification flag of the claims, and the rate limiter's client id is
    [user:<subject>]. *)
Theorem authenticated_request_carries_subject
    (request : Http.request) (call_next : Http.app) (w : Http.world)
    (a : ascii) (t : string) (payload : list (string * Py.atom)) :
  AuthMiddleware._is_exempt_path (Http.path request) = false ->
  AuthMiddleware._extract_token request = Some (String a t) ->
  Redis.faults (Http.store w) = [] ->
  Redis.is_live (Http.store w)
    (RedisCache._make_key RedisCache.cache ("blacklist:" +:+ String a t)) = false ->
  jwt_decode (Redis.now (Http.store w)) (String a t) = Decoded payload ->
  Py.truthy_atom (Py.dict_get payload "sub") = true ->
  Py.truthy_atom (Py.dict_get payload "exp") = true ->
  Redis.live (Http.store w)
    (RedisCache._make_key RedisCache.cache
       ("user:" +:+ Py.str (Py.dict_get payload "sub"))) = None ->
  exists (st : Http.state) (w1 : Http.world),
    AuthMiddleware.dispatch request call_next w =
      call_next (Http.with_state request st) w1 /\
    Http.user_id st = Py.dict_get payload "sub" /\
    Http.request_id st = Http.request_id (Http.rstate request) /\
    Deps.get_current_user (Http.with_state request st) =
      inl {| UserModel.id := Py.dict_get payload "sub";
             UserModel.email := Py.dict_get payload "email";
             UserModel.username := Py.ANone;
             UserModel.first_name := Py.ANone;
             UserModel.last_name := Py.ANone;
             UserModel.is_active := Py.ABool true;
             UserModel.is_verified :=
               Py.dict_get_default payload "is_verified" (Py.ABool false);
             UserModel.role :=
               UserModel.RoleObject (Py.dict_get_default payload "role" (Py.AStr "user"));
             UserModel.status := UserModel.StatusObject Py.ANone;
             UserModel.hedera_account_id := Py.ANone |} /\
    RateLimitMiddleware._get_client_id (Http.with_state request st) =
      "user:" +:+ Py.str (Py.dict_get payload "sub").
Proof.
  intros Hx Ht Hf Hbl Hd Hsub Hexp Hl.
  unfold AuthMiddleware.dispatch. rewrite Hx, Ht.
  rewrite (validate_on_reachable_store (String a t) (Http.store w) payload
             Hf Hbl Hd Hsub Hexp).
  cbv zeta. rewrite Hl. cbn [Py.truthy Py.truthy_atom].
  eexists _, _. split; [reflexivity|].
  split; [reflexivity|]. split; [reflexivity|].
  split.
  - unfold Deps.get_current_user. cbn. rewrite Hsub. reflexivity.
  - unfold RateLimitMiddleware._get_client_id. cbn. rewrite Hsub. reflexivity.
Qed.

(** X15. Outside /api/v1/ a token is optional but not ignored: on a
    path that is neither exempt nor under /api/v1/, a request without a
    usable token goes on unchanged and without any access to the store,
    while a request whose token does not decode is answered with the 401
    whatever the next stage would do. *)
Theorem token_optional_outside_api
    (request : Http.request) (w : Http.world) :
  AuthMiddleware._is_exempt_path (Http.path request) = false ->
  AuthMiddleware._requires_auth (Http.path request) = false ->
  (AuthMiddleware._extract_token request = None \/
   AuthMiddleware._extract_token request = Some "" ->
   forall call_next : Http.app,
     AuthMiddleware.dispatch request call_next w = call_next request w)
  /\
  (forall (a : ascii) (t : string),
      AuthMiddleware._extract_token request = Some (String a t) ->
      (forall payload, jwt_decode (Redis.now (Http.store w)) (String a t) <> Decoded payload) ->
      forall call_next : Http.app,
        fst (AuthMiddleware.dispatch request call_next w) =
          Http.ReturnedException AuthMiddleware.unauthorized).
Proof.
  intros Hx Hr. split.
  - intros Ht call_next. unfold AuthMiddleware.dispatch. rewrite Hx, Hr.
    destruct Ht as [-> | ->]; reflexivity.
  - intros a t Ht Hd call_next.
    apply (dispatch_invalid_token request call_next w a t Hx Ht).
    apply validate_decode_failure. exact Hd.
Qed.

End ValidationTheorems.

Lemma validation_prefers_cached_identity_witness :
  let cached := Py.VDict [ ("id", Py.AStr "u1"); ("role", Py.AStr "admin") ] in
  let s := snd (RedisCache.set RedisCache.cache "user:u1" cached (Some 300) Redis.fresh) in
  fst (AuthMiddleware._validate_token (E := Demo.env) "good" s) = cached.
Proof.
  cbv zeta.
  apply (validation_prefers_cached_identity (E := Demo.env) "good"
           (snd (RedisCache.set RedisCache.cache "user:u1"
                   (Py.VDict [ ("id", Py.AStr "u1"); ("role", Py.AStr "admin") ])
                   (Some 300) Redis.fresh))
           [ ("sub", Py.AStr "u1"); ("email", Py.AStr "demo@predictpesa.com");
             ("role", Py.AStr "user"); ("is_verified", Py.ABool true);
             ("exp", Py.AInt 1800) ]
           (Redis.Entry (Py.VDict [ ("id", Py.AStr "u1"); ("role", Py.AStr "admin") ])
              (Some 300)));
    reflexivity.
Defined.

Lemma validation_caches_identity_witness :
  fst (AuthMiddleware._validate_token (E := Sample.env) "good" Redis.fresh) =
    Py.VDict [ ("user_id", Py.AStr "u1"); ("email", Py.AStr "demo@predictpesa.com");
               ("role", Py.AStr "user"); ("is_verified", Py.ABool true) ] /\
  fst (AuthMiddleware._validate_token (E := Sample.env) "promoted"
         (Redis.advance 299
            (snd (AuthMiddleware._validate_token (E := Sample.env) "good" Redis.fresh)))) =
  fst (AuthMiddleware._validate_token (E := Sample.env) "good" Redis.fresh).
Proof.
  destruct (validation_caches_identity (E := Sample.env) "good" Redis.fresh
              [ ("sub", Py.AStr "u1"); ("email", Py.AStr "demo@predictpesa.com");
                ("role", Py.AStr "user"); ("is_verified", Py.ABool true);
                ("exp", Py.AInt 1800) ]
              eq_refl eq_refl eq_refl eq_refl eq_refl eq_refl eq_refl) as [H1 H2].
  split; [exact H1|].
  apply (H2 299 "promoted"
            [ ("sub", Py.AStr "u1"); ("email", Py.AStr "demo@predictpesa.com");
              ("role", Py.AStr "admin"); ("is_verified", Py.ABool true);
              ("exp", Py.AInt 3600) ]);
    [lia | reflexivity | reflexivity | reflexivity | reflexivity].
Defined.

Lemma token_without_subject_or_expiry_refused_witness :
  fst (AuthMiddleware._validate_token (E := Sample.env) "anon" Redis.fresh) =
    Py.VAtom Py.ANone.
Proof.
  apply (token_without_subject_or_expiry_refused (E := Sample.env) "anon" Redis.fresh
           [ ("exp", Py.AInt 1800) ]); [reflexivity | left; reflexivity].
Defined.

Lemma authenticated_request_carries_subject_witness :
  exists (st : Http.state) (w1 : Http.world),
    AuthMiddleware.dispatch (E := Demo.env)
      (Demo.request "GET" "/api/v1/users/me" (Some "Bearer good"))
      (Http.serve Demo.ok) (Demo.world_of Redis.fresh) =
    Http.serve Demo.ok
      (Http.with_state (Demo.request "GET" "/api/v1/users/me" (Some "Bearer good")) st) w1 /\
    Http.user_id st = Py.AStr "u1".
Proof.
  destruct (authenticated_request_carries_subject (E := Demo.env)
              (Demo.request "GET" "/api/v1/users/me" (Some "Bearer good"))
              (Http.serve Demo.ok) (Demo.world_of Redis.fresh) "g" "ood"
              [ ("sub", Py.AStr "u1"); ("email", Py.AStr "demo@predictpesa.com");
                ("role", Py.AStr "user"); ("is_verified", Py.ABool true);
                ("exp", Py.AInt 1800) ]
              eq_refl eq_refl eq_refl eq_refl eq_refl eq_refl eq_refl eq_refl)
    as (st & w1 & Hd & Hid & _).
  exists st, w1. split; [exact Hd | exact Hid].
Defined.

Lemma token_optional_outside_api_witness :
  AuthMiddleware.dispatch (E := Demo.env) (Demo.request "GET" "/status" None)
    (Http.serve Demo.ok) (Demo.world_of Redis.fresh) =
  Http.serve Demo.ok (Demo.request "GET" "/status" None) (Demo.world_of Redis.fresh) /\
  fst (AuthMiddleware.dispatch (E := Demo.env)
         (Demo.request "GET" "/status" (Some "Bearer forged"))
         (Http.serve Demo.ok) (Demo.world_of Redis.fresh)) =
  Http.ReturnedException AuthMiddleware.unauthorized.
Proof.
  split.
  - apply (token_optional_outside_api (E := Demo.env) (Demo.request "GET" "/status" None)
             (Demo.world_of Redis.fresh) eq_refl eq_refl).
    left. reflexivity.
  - apply (proj2 (token_optional_outside_api (E := Demo.env)
                    (Demo.request "GET" "/status" (Some "Bearer forged"))
                    (Demo.world_of Redis.fresh) eq_refl eq_refl) "f"%char "orged");
      [reflexivity | discriminate].
Defined.

(** ** Logout, login and the claims of a token *)

Section AccountFacts.
Context {E : Env}.

Lemma dict_find_update (d : list (string * Py.atom)) (k k' : string) (v : Py.atom) :
  Py.dict_find (Account.dict_update d k v) k' =
  if String.eqb k k' then Some v else Py.dict_find d k'.
Proof.
  induction d as [|[k0 a] d IH]; cbn [Account.dict_update Py.dict_find].
  - reflexivity.
  - destruct (String.eqb k0 k) eqn:H0; cbn [Py.dict_find].
    + apply String.eqb_eq in H0. subst k0.
      destruct (String.eqb k k'); reflexivity.
    + rewrite IH. destruct (String.eqb k0 k') eqn:H1; [|reflexivity].
      apply String.eqb_eq in H1. subst k0.
      destruct (String.eqb k k') eqn:H2; [|reflexivity].
      apply String.eqb_eq in H2. subst k'. rewrite String.eqb_refl in H0. discriminate.
Qed.

End AccountFacts.

Section AccountTheorems.
Context {E : Env}.

(** X16. [logout_user] answers 200 "Successfully logged out" in every
    state of the store.  When both of its writes fail, nothing in the
    store has changed, so the token is no more blacklisted than before;
    when the store is reachable, the cached identity of the subject is
    gone afterwards. *)
Theorem logout_reports_success_regardless
    (user_id : Py.atom) (token : string) (s : Redis.server) :
  fst (Endpoints.logout_user user_id token s) =
    {| Http.status_code := 200; Http.detail := "Successfully logged out";
       Http.headers_out := [] |}
  /\
  (forall rest : list bool,
      Redis.faults s = true :: true :: rest ->
      Redis.kv (snd (Endpoints.logout_user user_id token s)) = Redis.kv s)
  /\
  (Redis.faults s = [] ->
   Redis.is_live (snd (Endpoints.logout_user user_id token s))
     (RedisCache._make_key RedisCache.cache ("user:" +:+ Py.str user_id)) = false).
Proof.
  unfold Endpoints.logout_user.
  split; [|split].
  - destruct (RedisCache.set _ _ _ _ s) as [b1 s1].
    destruct (RedisCache.delete _ _ s1) as [b2 s2]. reflexivity.
  - intros rest Hf.
    unfold RedisCache.set. rewrite call_faulted
      by (unfold Redis.next_fault; rewrite Hf; reflexivity).
    unfold RedisCache.delete. rewrite call_faulted
      by (unfold Redis.next_fault; cbn; rewrite Hf; reflexivity).
    reflexivity.
  - intros Hf.
    match goal with |- context [RedisCache.set ?c ?k ?v ?e s] =>
      pose proof (call_frame (Redis.SET (RedisCache._make_key c k) v e) s) as (_ & Hf1 & _);
      unfold RedisCache.set;
      destruct (Redis.call (Redis.SET (RedisCache._make_key c k) v e) s) as [r1 s1]
    end.
    cbn [snd] in Hf1. rewrite Hf in Hf1. cbn in Hf1.
    destruct r1; lazy iota beta;
      unfold RedisCache.delete;
      rewrite call_answered by (apply next_fault_of_no_faults; assumption);
      cbn [Redis.apply snd];
      unfold Redis.is_live, Redis.live, Redis.with_kv; cbn [Redis.kv];
      rewrite lookup_delete_eq; reflexivity.
Qed.

(** X17. [create_access_token] hands the encoder the given claims with
    [exp] set to the time of the call plus the given lifetime, or plus the
    configured lifetime when none or a zero one is given: an [exp] already
    among the claims is replaced, every other claim is left as it is. *)
Theorem access_token_claims
    (data : list (string * Py.atom)) (expires_delta : option Z) (utcnow : Z) :
  let lifetime :=
    match expires_delta with
    | Some 0 | None => access_token_expire_minutes settings * 60
    | Some delta => delta
    end in
  Py.dict_find (Account.claims_to_encode data expires_delta utcnow) "exp" =
    Some (Py.AInt (utcnow + lifetime))
  /\
  forall k : string,
    k <> "exp" ->
    Py.dict_find (Account.claims_to_encode data expires_delta utcnow) k =
    Py.dict_find data k.
Proof.
  cbv zeta. unfold Account.claims_to_encode. split.
  - rewrite dict_find_update. cbn.
    destruct expires_delta as [[|p|p]|]; reflexivity.
  - intros k Hk. rewrite dict_find_update.
    destruct (String.eqb "exp" k) eqn:H; [|reflexivity].
    apply String.eqb_eq in H. congruence.
Qed.

End AccountTheorems.

Lemma logout_reports_success_regardless_witness :
  Redis.kv (snd (Endpoints.logout_user (E := Demo.env) (Py.AStr "u1") "good"
                   (Demo.with_faults [true; true] Redis.fresh))) = Redis.kv Redis.fresh /\
  Redis.is_live (snd (Endpoints.logout_user (E := Demo.env) (Py.AStr "u1") "good"
                        (snd (AuthMiddleware._validate_token (E := Demo.env) "good"
                                Redis.fresh))))
    "predictpesa:user:u1" = false.
Proof.
  split.
  - apply (proj1 (proj2 (logout_reports_success_regardless (E := Demo.env)
                           (Py.AStr "u1") "good"
                           (Demo.with_faults [true; true] Redis.fresh))) []).
    reflexivity.
  - apply (proj2 (proj2 (logout_reports_success_regardless (E := Demo.env)
                           (Py.AStr "u1") "good"
                           (snd (AuthMiddleware._validate_token (E := Demo.env) "good"
                                   Redis.fresh))))).
    reflexivity.
Defined.

Lemma access_token_claims_witness :
  Py.dict_find
    (Account.claims_to_encode (E := Demo.env)
       [("sub", Py.AStr "u1"); ("exp", Py.AInt 7)] (Some 0) 100) "sub" =
  Py.dict_find [("sub", Py.AStr "u1"); ("exp", Py.AInt 7)] "sub".
Proof.
  apply (access_token_claims (E := Demo.env)
           [("sub", Py.AStr "u1"); ("exp", Py.AInt 7)] (Some 0) 100).
  discriminate.
Defined.

Section LoginTheorems.
Context {E : Env}.
Variable jwt_encode : list (string * Py.atom) -> string.

(** X18. [login_user] lets in the demo credentials and nothing else.
    Any other pair is answered with 401 "Invalid credentials" without a
    single command to the store.  The demo pair gets a bearer token whose
    claims are subject, email, role, verification flag and an expiry one
    configured lifetime after the call, with [expires_in] that lifetime in
    seconds; the one command sent caches the user's data for 300 seconds,
    and the login succeeds whether or not that write does. *)
Theorem login_only_with_demo_credentials (s : Redis.server) :
  (forall email password : string,
      email <> "demo@predictpesa.com" \/ password <> "demo123456" ->
      Account.login_user jwt_encode email password s =
        (inr (Deps.raise 401 "Invalid credentials"), s))
  /\
  exists s1 : Redis.server,
    Account.login_user jwt_encode "demo@predictpesa.com" "demo123456" s =
      (inl {| Account.token :=
                {| Account.access_token :=
                     jwt_encode
                       [ ("sub", Py.AStr "demo-user-id");
                         ("email", Py.AStr "demo@predictpesa.com");
                         ("role", Py.AStr "user");
                         ("is_verified", Py.ABool true);
                         ("exp", Py.AInt (Redis.now s +
                                          access_token_expire_minutes settings * 60)) ];
                   Account.token_type := "bearer";
                   Account.expires_in := access_token_expire_minutes settings * 60 |};
              Account.user := Py.VDict (Account.demo_user "demo@predictpesa.com") |}, s1)
    /\
    Redis.wire s1 =
      Redis.wire s ++
      [ Redis.SET "predictpesa:user:demo-user-id"
          (Py.VDict (Account.demo_user "demo@predictpesa.com")) (Some 300) ].
Proof.
  split.
  - intros email password Hne. unfold Account.login_user.
    destruct (String.eqb email "demo@predictpesa.com") eqn:He;
      destruct (String.eqb password "demo123456") eqn:Hp; try reflexivity.
    apply String.eqb_eq in He, Hp. destruct Hne; congruence.
  - unfold Account.login_user. cbn [String.eqb Ascii.eqb Bool.eqb andb].
    match goal with |- context [RedisCache.set ?c ?k ?v ?e s] =>
      pose proof (set_wire c k v e s) as Hw;
      destruct (RedisCache.set c k v e s) as [ok s1]
    end.
    exists s1. split; [|exact Hw].
    unfold Account.create_access_token, Account.claims_to_encode.
    cbn [Py.dict_get Py.dict_find String.eqb Ascii.eqb Bool.eqb Account.demo_user
         Account.dict_update].
    destruct (access_token_expire_minutes settings * 60 =? 0) eqn:Hz; [|reflexivity].
    apply Z.eqb_eq in Hz. rewrite Hz. reflexivity.
Qed.

(** X19. For 300 seconds after a login the identity cache holds the
    login's user data (the store being reachable and 300 seconds from its
    clock within its time range), which has the key [id] and no key
    [user_id].  A
    request in that time with a token of the demo subject, on a path that
    is not exempt, passes the auth middleware with that data as
    [request.state.user] and [None] as [request.state.user_id]: the rate
    limiter then takes the client for anonymous, and [get_current_user]
    raises 401 "Invalid user data". *)
Theorem login_cache_hides_user_id
    (request : Http.request) (call_next : Http.app) (w : Http.world)
    (a : ascii) (t : string) (payload : list (string * Py.atom)) (dt : Z)
    (s : Redis.server) :
  Redis.faults s = [] ->
  Redis.in_time_range s 300 = true ->
  0 <= dt < 300 ->
  Http.store w =
    Redis.advance dt
      (snd (Account.login_user jwt_encode "demo@predictpesa.com" "demo123456" s)) ->
  AuthMiddleware._is_exempt_path (Http.path request) = false ->
  AuthMiddleware._extract_token request = Some (String a t) ->
  Redis.is_live s
    (RedisCache._make_key RedisCache.cache ("blacklist:" +:+ String a t)) = false ->
  jwt_decode (Redis.now s + dt) (String a t) = Decoded payload ->
  Py.dict_get payload "sub" = Py.AStr "demo-user-id" ->
  Py.truthy_atom (Py.dict_get payload "exp") = true ->
  exists (st : Http.state) (w1 : Http.world),
    AuthMiddleware.dispatch request call_next w =
      call_next (Http.with_state request st) w1 /\
    Http.user st = Py.VDict (Account.demo_user "demo@predictpesa.com") /\
    Http.user_id st = Py.ANone /\
    Deps.get_current_user (Http.with_state request st) =
      inr (Deps.raise 401 "Invalid user data") /\
    RateLimitMiddleware._get_client_id (Http.with_state request st) =
      "ip:" +:+ RateLimitMiddleware._get_client_ip request.
Proof.
  intros Hf Hin Hdt Hw Hx Ht Hbl Hd Hsub Hexp.
  assert (Hlogin : snd (Account.login_user jwt_encode "demo@predictpesa.com"
                          "demo123456" s) =
                   Redis.Server
                     (<["predictpesa:user:demo-user-id" :=
                          Redis.Entry (Py.VDict (Account.demo_user "demo@predictpesa.com"))
                            (Some (Redis.now s + 300))]> (Redis.kv s))
                     (Redis.now s) []
                     (Redis.wire s ++
                      [Redis.SET "predictpesa:user:demo-user-id"
                         (Py.VDict (Account.demo_user "demo@predictpesa.com")) (Some 300)])).
  { unfold Account.login_user. cbn [String.eqb Ascii.eqb Bool.eqb andb].
    rewrite set_on_answer; [|apply next_fault_of_no_faults; assumption|lia|exact Hin].
    cbn [snd]. rewrite Hf. reflexivity. }
  rewrite Hlogin in Hw. clear Hlogin.
  assert (Hbl' : Redis.is_live (Http.store w)
            (RedisCache._make_key RedisCache.cache ("blacklist:" +:+ String a t)) = false).
  { rewrite Hw. apply not_live_later; [lia|].
    unfold Redis.is_live, Redis.live in *. cbn [Redis.kv Redis.now].
    rewrite lookup_insert_ne; [exact Hbl|].
    apply (user_key_not_blacklist_key "demo-user-id" (String a t)). }
  assert (Hsub' : Py.truthy_atom (Py.dict_get payload "sub") = true)
    by (rewrite Hsub; reflexivity).
  assert (Hd' : jwt_decode (Redis.now (Http.store w)) (String a t) = Decoded payload)
    by (rewrite Hw; exact Hd).
  assert (Hf' : Redis.faults (Http.store w) = []) by (rewrite Hw; reflexivity).
  unfold AuthMiddleware.dispatch. rewrite Hx, Ht.
  rewrite (validate_on_reachable_store (String a t) (Http.store w) payload
             Hf' Hbl' Hd' Hsub' Hexp).
  cbv zeta. rewrite Hsub.
  assert (Hlive : Redis.live (Http.store w)
                    (RedisCache._make_key RedisCache.cache
                       ("user:" +:+ Py.str (Py.AStr "demo-user-id"))) =
                  Some (Redis.Entry (Py.VDict (Account.demo_user "demo@predictpesa.com"))
                          (Some (Redis.now s + 300)))).
  { rewrite Hw.
    change (RedisCache._make_key RedisCache.cache
              ("user:" +:+ Py.str (Py.AStr "demo-user-id")))
      with "predictpesa:user:demo-user-id".
    rewrite live_advance_insert.
    destruct (Redis.now s + 300 <=? Redis.now s + dt) eqn:H; [lia|reflexivity]. }
  rewrite Hlive. cbn [Redis.payload Py.truthy Account.demo_user].
  eexists _, _. split; [reflexivity|].
  repeat split.
Qed.

End LoginTheorems.

Lemma login_only_with_demo_credentials_witness :
  Account.login_user (E := Demo.env) Sample.encode "demo@predictpesa.com" "wrong-password"
    Redis.fresh =
  (inr (Deps.raise 401 "Invalid credentials"), Redis.fresh).
Proof.
  apply (login_only_with_demo_credentials (E := Demo.env) Sample.encode Redis.fresh).
  right. discriminate.
Defined.

Lemma login_cache_hides_user_id_witness :
  let logged_in :=
    snd (Account.login_user (E := Sample.env) Sample.encode
           "demo@predictpesa.com" "demo123456" Redis.fresh) in
  let request := Demo.request "POST" "/api/v1/auth/logout" (Some "Bearer demo") in
  exists (st : Http.state) (w1 : Http.world),
    AuthMiddleware.dispatch (E := Sample.env) request (Http.serve Demo.ok)
      (Demo.world_of (Redis.advance 1 logged_in)) =
      Http.serve Demo.ok (Http.with_state request st) w1 /\
    Deps.get_current_user (Http.with_state request st) =
      inr (Deps.raise 401 "Invalid user data").
Proof.
  cbv zeta.
  destruct (login_cache_hides_user_id (E := Sample.env) Sample.encode
              (Demo.request "POST" "/api/v1/auth/logout" (Some "Bearer demo"))
              (Http.serve Demo.ok)
              (Demo.world_of
                 (Redis.advance 1
                    (snd (Account.login_user (E := Sample.env) Sample.encode
                            "demo@predictpesa.com" "demo123456" Redis.fresh))))
              "d" "emo"
              [ ("sub", Py.AStr "demo-user-id"); ("email", Py.AStr "demo@predictpesa.com");
                ("role", Py.AStr "user"); ("is_verified", Py.ABool true);
                ("exp", Py.AInt 1800) ]
              1 Redis.fresh eq_refl eq_refl)
    as (st & w1 & Hd & _ & _ & Hu & _);
    [lia | reflexivity | reflexivity | reflexivity | reflexivity | reflexivity
     | reflexivity | reflexivity |].
  exists st, w1. split; assumption.
Defined.

(** ** The user and the dependencies on it *)

Section DependencyTheorems.

(** X20. [get_current_user] returns a user only for an identity that is
    a dictionary with a true [user_id], and that user has this id and is
    active.  So the check of [get_current_active_user] never fails, and
    [get_current_verified_user] returns the same user when its
    verification flag is true and raises 403 "Email verification
    required" otherwise. *)
Theorem dependency_chain_on_current_user (request : Http.request) :
  (forall u : UserModel.User,
      Deps.get_current_user request = inl u ->
      exists d : list (string * Py.atom),
        Http.user (Http.rstate request) = Py.VDict d /\
        UserModel.id u = Py.dict_get d "user_id" /\
        Py.truthy_atom (UserModel.id u) = true /\
        UserModel.is_active u = Py.ABool true)
  /\
  Deps.get_current_active_user request = Deps.get_current_user request
  /\
  (forall u : UserModel.User,
      Deps.get_current_user request = inl u ->
      Deps.get_current_verified_user request =
        if Py.truthy_atom (UserModel.is_verified u) then inl u
        else inr (Deps.raise 403 "Email verification required"))
  /\
  (forall o : Http.outcome,
      Deps.get_current_user request = inr o ->
      Deps.get_current_verified_user request = inr o).
Proof.
  assert (Hcur : forall u, Deps.get_current_user request = inl u ->
                   exists d, Http.user (Http.rstate request) = Py.VDict d /\
                             UserModel.id u = Py.dict_get d "user_id" /\
                             Py.truthy_atom (UserModel.id u) = true /\
                             UserModel.is_active u = Py.ABool true).
  { intros u. unfold Deps.get_current_user.
    destruct (Py.truthy (Http.user (Http.rstate request))); cbn [negb]; [|discriminate].
    destruct (Http.user (Http.rstate request)) as [x|d]; [discriminate|].
    destruct (Py.truthy_atom (Py.dict_get d "user_id")) eqn:Hid; cbn [negb]; [|discriminate].
    intros H. injection H as <-. exists d. cbn. auto. }
  assert (Hact : Deps.get_current_active_user request = Deps.get_current_user request).
  { unfold Deps.get_current_active_user, Deps.depends.
    destruct (Deps.get_current_user request) as [u|o] eqn:Hu; [|reflexivity].
    destruct (Hcur u eq_refl) as (d & _ & _ & _ & ->). reflexivity. }
  split; [exact Hcur|]. split; [exact Hact|]. split.
  - intros u Hu. unfold Deps.get_current_verified_user. rewrite Hact, Hu.
    cbn [Deps.depends]. destruct (Py.truthy_atom (UserModel.is_verified u)); reflexivity.
  - intros o Ho. unfold Deps.get_current_verified_user. rewrite Hact, Ho. reflexivity.
Qed.

(** X21. The user that [get_current_user] builds has as role the plain
    value of the identity, never a member of [UserRole], and a plain
    value equals no member.  So [is_admin] and [is_oracle] are false for
    it: [get_admin_user] and [get_oracle_user] return no user for any
    request, and answer a verified user with 403. *)
Theorem role_gated_dependencies_always_refuse (request : Http.request) :
  (forall u : UserModel.User,
      Deps.get_current_user request = inl u ->
      UserModel.is_admin u = false /\ UserModel.is_moderator u = false /\
      UserModel.is_oracle u = false)
  /\
  (forall u : UserModel.User, Deps.get_admin_user request <> inl u)
  /\
  (forall u : UserModel.User, Deps.get_oracle_user request <> inl u)
  /\
  (forall u : UserModel.User,
      Deps.get_current_verified_user request = inl u ->
      Deps.get_admin_user request = inr (Deps.raise 403 "Admin privileges required") /\
      Deps.get_oracle_user request = inr (Deps.raise 403 "Oracle privileges required")).
Proof.
  assert (Hrole : forall u, Deps.get_current_user request = inl u ->
                    exists a, UserModel.role u = UserModel.RoleObject a).
  { intros u. unfold Deps.get_current_user.
    destruct (negb (Py.truthy (Http.user (Http.rstate request)))); [discriminate|].
    destruct (Http.user (Http.rstate request)) as [x|d]; [discriminate|].
    destruct (negb (Py.truthy_atom (Py.dict_get d "user_id"))); [discriminate|].
    intros H. injection H as <-. eexists. reflexivity. }
  assert (Hno : forall u, Deps.get_current_user request = inl u ->
                  UserModel.is_admin u = false /\ UserModel.is_moderator u = false /\
                  UserModel.is_oracle u = false).
  { intros u Hu. destruct (Hrole u Hu) as [a Ha].
    unfold UserModel.is_admin, UserModel.is_moderator, UserModel.is_oracle.
    rewrite Ha. repeat split. }
  assert (Hver : forall u, Deps.get_current_verified_user request = inl u ->
                   Deps.get_current_user request = inl u).
  { intros u. unfold Deps.get_current_verified_user, Deps.get_current_active_user,
      Deps.depends.
    destruct (Deps.get_current_user request) as [u0|o]; [|discriminate].
    destruct (negb (Py.truthy_atom (UserModel.is_active u0))); [discriminate|].
    destruct (negb (Py.truthy_atom (UserModel.is_verified u0))); [discriminate|].
    intros H. exact H. }
  assert (Hgate : forall u, Deps.get_current_verified_user request = inl u ->
            Deps.get_admin_user request = inr (Deps.raise 403 "Admin privileges required") /\
            Deps.get_oracle_user request = inr (Deps.raise 403 "Oracle privileges required")).
  { intros u Hu. destruct (Hno u (Hver u Hu)) as (Ha & _ & Ho).
    unfold Deps.get_admin_user, Deps.get_oracle_user. rewrite Hu. cbn [Deps.depends].
    rewrite Ha, Ho. split; reflexivity. }
  split; [exact Hno|]. split; [|split; [|exact Hgate]].
  - intros u H.
    destruct (Deps.get_current_verified_user request) as [u0|o] eqn:Hv.
    + destruct (Hgate u0 eq_refl) as [Hadm _]. congruence.
    + unfold Deps.get_admin_user in H. rewrite Hv in H. discriminate.
  - intros u H.
    destruct (Deps.get_current_verified_user request) as [u0|o] eqn:Hv.
    + destruct (Hgate u0 eq_refl) as [_ Hor]. congruence.
    + unfold Deps.get_oracle_user in H. rewrite Hv in H. discriminate.
Qed.

End DependencyTheorems.

Section RefreshTheorems.
Context {E : Env}.
Variable jwt_encode : list (string * Py.atom) -> string.

(** X22. [refresh_token] reads [current_user.role.value], which only a
    member of [UserRole] has.  For a user with such a role it issues a
    bearer token with the configured lifetime; for every user that
    [get_current_user] builds, whose role is a plain value, the attribute
    error ends in 500 "Token refresh failed". *)
Theorem refresh_needs_role_member (utcnow : Z) :
  (forall (request : Http.request) (u : UserModel.User),
      Deps.get_current_user request = inl u ->
      Account.refresh_token jwt_encode u utcnow =
        inr (Deps.raise 500 "Token refresh failed"))
  /\
  (forall (u : UserModel.User) (r : UserModel.UserRole),
      UserModel.role u = UserModel.RoleMember r ->
      exists claims : list (string * Py.atom),
        Account.refresh_token jwt_encode u utcnow =
          inl {| Account.access_token := jwt_encode claims;
                 Account.token_type := "bearer";
                 Account.expires_in := access_token_expire_minutes settings * 60 |} /\
        Py.dict_find claims "role" = Some (Py.AStr (UserModel.role_value r)) /\
        Py.dict_find claims "exp" =
          Some (Py.AInt (utcnow + access_token_expire_minutes settings * 60))).
Proof.
  split.
  - intros request u. unfold Deps.get_current_user.
    destruct (negb (Py.truthy (Http.user (Http.rstate request)))); [discriminate|].
    destruct (Http.user (Http.rstate request)) as [x|d]; [discriminate|].
    destruct (negb (Py.truthy_atom (Py.dict_get d "user_id"))); [discriminate|].
    intros H. injection H as <-. reflexivity.
  - intros u r Hr. unfold Account.refresh_token. rewrite Hr. cbn [Account.role_dot_value].
    unfold Account.create_access_token. eexists. split; [reflexivity|].
    unfold Account.claims_to_encode. rewrite !dict_find_update.
    split; reflexivity.
Qed.

End RefreshTheorems.

Section UserModelTheorems.

(** X23. On every user: an admin is a moderator; whoever can stake can
    create markets; and a user with a true email never has an empty name:
    [full_name] and [display_name] are true values, the user name coming
    first in [display_name] whenever there is one. *)
Theorem user_model_invariants (u : UserModel.User) :
  (UserModel.is_admin u = true -> UserModel.is_moderator u = true)
  /\
  (Py.truthy_atom (UserModel.can_stake u) = true ->
   Py.truthy_atom (UserModel.can_create_markets u) = true)
  /\
  (Py.truthy_atom (UserModel.email u) = true ->
   Py.truthy_atom (UserModel.full_name u) = true /\
   Py.truthy_atom (UserModel.display_name u) = true)
  /\
  (Py.truthy_atom (UserModel.username u) = true ->
   UserModel.display_name u = UserModel.username u).
Proof.
  split; [|split; [|split]].
  - unfold UserModel.is_admin, UserModel.is_moderator. cbn [existsb].
    intros ->. reflexivity.
  - unfold UserModel.can_stake, UserModel.can_create_markets, UserModel.py_and.
    destruct (Py.truthy_atom (UserModel.is_active u)) eqn:Ha; [|intros H; exact H].
    destruct (Py.truthy_atom (UserModel.is_verified u)) eqn:Hv; [|intros H; exact H].
    cbn [Py.truthy_atom].
    destruct (UserModel.status_is (UserModel.status u) UserModel.ACTIVE);
      [reflexivity | intros H; exact H].
  - intros He.
    assert (Hfull : Py.truthy_atom (UserModel.full_name u) = true).
    { unfold UserModel.full_name, UserModel.py_or.
      destruct (Py.truthy_atom (UserModel.first_name u)) eqn:Hf;
        destruct (Py.truthy_atom (UserModel.last_name u)) eqn:Hl; cbn [andb].
      - cbn [Py.truthy_atom].
        destruct (Py.str (UserModel.first_name u)); reflexivity.
      - exact Hf.
      - exact Hl.
      - destruct (Py.truthy_atom (UserModel.username u)) eqn:Hu; assumption. }
    split; [exact Hfull|].
    unfold UserModel.display_name, UserModel.py_or.
    destruct (Py.truthy_atom (UserModel.username u)) eqn:Hu; assumption.
  - intros Hu. unfold UserModel.display_name, UserModel.py_or. rewrite Hu. reflexivity.
Qed.

End UserModelTheorems.

Lemma dependency_chain_on_current_user_witness :
  let request :=
    Http.with_state (Demo.request "GET" "/api/v1/users/me" None)
      {| Http.user := Py.VDict [("user_id", Py.AStr "u1"); ("is_verified", Py.ABool false)];
         Http.user_id := Py.AStr "u1"; Http.request_id := None |} in
  Deps.get_current_active_user request = Deps.get_current_user request /\
  Deps.get_current_verified_user request =
    inr (Deps.raise 403 "Email verification required").
Proof.
  cbv zeta.
  pose proof (dependency_chain_on_current_user
                (Http.with_state (Demo.request "GET" "/api/v1/users/me" None)
                   {| Http.user := Py.VDict [("user_id", Py.AStr "u1");
                                             ("is_verified", Py.ABool false)];
                      Http.user_id := Py.AStr "u1"; Http.request_id := None |}))
    as (_ & Hact & Hver & _).
  split; [exact Hact|].
  rewrite (Hver _ eq_refl). reflexivity.
Defined.

Lemma role_gated_dependencies_always_refuse_witness :
  let request :=
    Http.with_state (Demo.request "POST" "/api/v1/oracle/submit" None)
      {| Http.user := Py.VDict [("user_id", Py.AStr "u1"); ("role", Py.AStr "oracle");
                                ("is_verified", Py.ABool true)];
         Http.user_id := Py.AStr "u1"; Http.request_id := None |} in
  Deps.get_oracle_user request = inr (Deps.raise 403 "Oracle privileges required").
Proof.
  cbv zeta.
  pose proof (role_gated_dependencies_always_refuse
                (Http.with_state (Demo.request "POST" "/api/v1/oracle/submit" None)
                   {| Http.user := Py.VDict [("user_id", Py.AStr "u1");
                                             ("role", Py.AStr "oracle");
                                             ("is_verified", Py.ABool true)];
                      Http.user_id := Py.AStr "u1"; Http.request_id := None |}))
    as (_ & _ & _ & Hgate).
  exact (proj2 (Hgate _ eq_refl)).
Defined.

Lemma refresh_needs_role_member_witness :
  let request :=
    Http.with_state (Demo.request "POST" "/api/v1/auth/refresh" None)
      {| Http.user := Py.VDict [("user_id", Py.AStr "u1"); ("role", Py.AStr "user")];
         Http.user_id := Py.AStr "u1"; Http.request_id := None |} in
  match Deps.get_current_user request with
  | inl u => Account.refresh_token (E := Demo.env) Sample.encode u 0 =
               inr (Deps.raise 500 "Token refresh failed")
  | inr _ => False
  end.
Proof.
  cbv zeta.
  destruct (Deps.get_current_user _) as [u|o] eqn:Hu.
  - exact (proj1 (refresh_needs_role_member (E := Demo.env) Sample.encode 0) _ u Hu).
  - discriminate Hu.
Defined.

Lemma user_model_invariants_witness :
  let u :=
    {| UserModel.id := Py.AInt 1; UserModel.email := Py.AStr "test@example.com";
       UserModel.username := Py.ANone; UserModel.first_name := Py.AStr "John";
       UserModel.last_name := Py.AStr "Doe"; UserModel.is_active := Py.ABool true;
       UserModel.is_verified := Py.ABool true;
       UserModel.role := UserModel.RoleMember UserModel.ADMIN;
       UserModel.status := UserModel.StatusMember UserModel.ACTIVE;
       UserModel.hedera_account_id := Py.AStr "0.0.123456" |} in
  UserModel.is_moderator u = true /\
  Py.truthy_atom (UserModel.can_create_markets u) = true /\
  Py.truthy_atom (UserModel.display_name u) = true.
Proof.
  cbv zeta.
  match goal with |- UserModel.is_moderator ?u = true /\ _ =>
    pose proof (user_model_invariants u) as (H1 & H2 & H3 & _) end.
  split; [apply H1; reflexivity|].
  split; [apply H2; reflexivity|].
  apply H3. reflexivity.
Defined.

(** ** Who is counted, and under which key *)

Section ClientFacts.

Lemma run_other_key (cs : list Redis.command) (k' : string) :
  forall s : Redis.server,
    Forall (fun c => k' <> Redis.command_key c) cs ->
    Redis.kv (snd (Redis.run cs s)) !! k' = Redis.kv s !! k' /\
    Redis.now (snd (Redis.run cs s)) = Redis.now s.
Proof.
  induction cs as [|c cs IH]; intros s Hall; cbn [Redis.run]; [auto|].
  apply Forall_cons_1 in Hall. destruct Hall as [Hc Hcs].
  pose proof (apply_other_key c s k' Hc) as Hk.
  pose proof (apply_frame c s) as (Hn & _ & _).
  destruct (Redis.apply c s) as [r s1]. cbn [snd] in *.
  destruct (IH s1 Hcs) as [Hk' Hn'].
  destruct (Redis.run cs s1) as [rs s2]. cbn [snd] in *.
  split; congruence.
Qed.

Lemma execute_other_key (cs : list Redis.command) (k' : string) (s : Redis.server) :
  Forall (fun c => k' <> Redis.command_key c) cs ->
  Redis.kv (snd (Redis.execute cs s)) !! k' = Redis.kv s !! k' /\
  Redis.now (snd (Redis.execute cs s)) = Redis.now s.
Proof.
  intros Hall. unfold Redis.execute, Redis.hand_over.
  destruct (Redis.next_fault s); [auto|].
  set (s1 := Redis.Server _ _ _ _).
  destruct (run_other_key cs k' s1 Hall) as [Hk Hn].
  destruct (Redis.run cs s1) as [rs s2]. cbn [snd] in *. auto.
Qed.

Lemma is_allowed_other_key (key k' : string) (limit window : Z) (s : Redis.server) :
  k' <> key ->
  Redis.kv (snd (RateLimiter.is_allowed key limit window s)) !! k' = Redis.kv s !! k' /\
  Redis.now (snd (RateLimiter.is_allowed key limit window s)) = Redis.now s.
Proof.
  intros Hne. unfold RateLimiter.is_allowed.
  assert (Hall : Forall (fun c => k' <> Redis.command_key c)
                   [Redis.INCRBY key 1; Redis.EXPIRE key window]).
  { repeat (apply List.Forall_cons; [exact Hne|]). apply List.Forall_nil. }
  pose proof (execute_other_key _ k' s Hall) as H.
  destruct (Redis.execute _ s) as [[[|[| |n|] rest]|] s']; try exact H.
  destruct (n <=? limit); exact H.
Qed.

End ClientFacts.

(** X24. The client id of a request with a true [user_id] in its state
    is [user:<id>], whatever its headers and peer address.  For a request
    without one, a non-empty X-Forwarded-For header decides alone: its
    first comma-separated entry, stripped, is the address, so a client
    that sends a clean address [x] there is counted as [ip:x] whatever
    X-Real-IP and the peer address are. *)
Theorem client_id_from_identity_or_forwarded_header (request : Http.request) :
  (Py.truthy_atom (Http.user_id (Http.rstate request)) = true ->
   RateLimitMiddleware._get_client_id request =
     "user:" +:+ Py.str (Http.user_id (Http.rstate request)))
  /\
  (forall x rest : string,
      Py.truthy_atom (Http.user_id (Http.rstate request)) = false ->
      x <> "" ->
      Py.cut "," x = None ->
      Py.strip x = x ->
      Http.x_forwarded_for (Http.hdrs request) = Some x \/
      Http.x_forwarded_for (Http.hdrs request) = Some (x +:+ "," +:+ rest) ->
      RateLimitMiddleware._get_client_id request = "ip:" +:+ x).
Proof.
  split.
  - intros H. unfold RateLimitMiddleware._get_client_id. rewrite H. reflexivity.
  - intros x rest Hu Hx Hc Hs Hh.
    unfold RateLimitMiddleware._get_client_id. rewrite Hu.
    unfold RateLimitMiddleware._get_client_ip.
    destruct x as [|a x]; [congruence|].
    destruct Hh as [-> | ->].
    + unfold Py.split_head. rewrite Hc, Hs. reflexivity.
    + change (String a x +:+ "," +:+ rest) with (String a (x +:+ "," +:+ rest)).
      change (String a (x +:+ "," +:+ rest)) with (String a x +:+ String "," rest).
      unfold Py.split_head. rewrite (cut_app "," (String a x) rest Hc), Hs.
      reflexivity.
Qed.

Lemma client_id_from_identity_or_forwarded_header_witness :
  RateLimitMiddleware._get_client_id
    {| Http.method := "GET"; Http.path := "/api/v1/users/me";
       Http.hdrs := {| Http.authorization := None;
                       Http.x_forwarded_for := Some "203.0.113.7, 10.0.0.2";
                       Http.x_real_ip := Some "10.0.0.3";
                       Http.x_request_id := None |};
       Http.client_host := Some "10.0.0.1"; Http.rstate := Http.no_state |} =
  "ip:203.0.113.7".
Proof.
  apply (proj2 (client_id_from_identity_or_forwarded_header _) "203.0.113.7" " 10.0.0.2");
    [reflexivity | discriminate | reflexivity | reflexivity | right; reflexivity].
Defined.

(** X25. Limits are kept per route: a check for one path changes
    neither the counter nor the expiry that the same client has for any
    other path. *)
Theorem routes_counted_separately
    (self : RateLimitMiddleware.t) (client_id : string) (request other : Http.request)
    (s : Redis.server) :
  Http.path request <> Http.path other ->
  let s1 := snd (RateLimitMiddleware._check_rate_limit self client_id request s) in
  Redis.live s1 (RateLimitMiddleware.rate_limit_key client_id other) =
    Redis.live s (RateLimitMiddleware.rate_limit_key client_id other) /\
  Redis.counter s1 (RateLimitMiddleware.rate_limit_key client_id other) =
    Redis.counter s (RateLimitMiddleware.rate_limit_key client_id other).
Proof.
  intros Hp. cbv zeta.
  assert (Hne : RateLimitMiddleware.rate_limit_key client_id other <>
                RateLimitMiddleware.rate_limit_key client_id request).
  { unfold RateLimitMiddleware.rate_limit_key. intros H.
    apply (append_inj_r "rate_limit:") in H. apply append_inj_r in H.
    apply (append_inj_r ":") in H. congruence. }
  unfold RateLimitMiddleware._check_rate_limit.
  destruct (RateLimitMiddleware._get_limits_for_path self _ _) as [limit window].
  destruct (is_allowed_other_key _ _ limit window s Hne) as [Hk Hn].
  assert (Hl : Redis.live (snd (RateLimiter.is_allowed
                                  (RateLimitMiddleware.rate_limit_key client_id request)
                                  limit window s))
                 (RateLimitMiddleware.rate_limit_key client_id other) =
               Redis.live s (RateLimitMiddleware.rate_limit_key client_id other)).
  { unfold Redis.live. rewrite Hk, Hn. reflexivity. }
  split; [exact Hl|]. unfold Redis.counter. rewrite Hl. reflexivity.
Qed.

Lemma routes_counted_separately_witness :
  let self := RateLimitMiddleware.__init__ (E := Demo.env) None None in
  let create := Demo.request "POST" "/api/v1/markets/create" None in
  let stake := Demo.request "POST" "/api/v1/stakes/create" None in
  let s := snd (RateLimitMiddleware._check_rate_limit self "ip:10.0.0.1" stake Redis.fresh) in
  Redis.counter
    (snd (RateLimitMiddleware._check_rate_limit self "ip:10.0.0.1" create s))
    (RateLimitMiddleware.rate_limit_key "ip:10.0.0.1" stake) =
  Redis.counter s (RateLimitMiddleware.rate_limit_key "ip:10.0.0.1" stake).
Proof.
  cbv zeta.
  apply (routes_counted_separately (RateLimitMiddleware.__init__ (E := Demo.env) None None)
           "ip:10.0.0.1" (Demo.request "POST" "/api/v1/markets/create" None)
           (Demo.request "POST" "/api/v1/stakes/create" None)).
  discriminate.
Defined.

(** ** Rejections *)

(** X26. A request on a path that is not exempt, from a client whose
    counter for the route has reached the route's limit, is answered by
    the rate limiter itself when the store answers the check (it is
    reachable, and 60 seconds from its clock are within its time range): a raised 429 with X-RateLimit-Limit the
    global value, X-RateLimit-Remaining 0 and X-RateLimit-Reset 60.  The
    next stage is not called, and the refused request is counted all the
    same: the counter goes up by one and its expiry moves. *)
Theorem over_limit_request_stops_at_limiter
    (self : RateLimitMiddleware.t) (request : Http.request) (w : Http.world) (n : Z) :
  let key :=
    RateLimitMiddleware.rate_limit_key (RateLimitMiddleware._get_client_id request) request in
  RateLimitMiddleware._is_exempt_path (Http.path request) = false ->
  Redis.next_fault (Http.store w) = false ->
  Redis.in_time_range (Http.store w) 60 = true ->
  Redis.counter (Http.store w) key = Some n ->
  0 <= n <= 2 ^ 63 - 2 ->
  fst (RateLimitMiddleware._get_limits_for_path self
         (Http.path request) (Http.method request)) <= n ->
  forall call_next : Http.app,
    RateLimitMiddleware.dispatch self request call_next w =
      (Http.RaisedException
         {| Http.status_code := 429;
            Http.detail := "Rate limit exceeded. Please try again later.";
            Http.headers_out :=
              [ ("X-RateLimit-Limit",
                 Py.str_of_int (RateLimitMiddleware.requests_per_minute self));
                ("X-RateLimit-Remaining", "0");
                ("X-RateLimit-Reset", "60") ] |},
       Http.with_store w (Redis.bumped key 60 n (Http.store w))).
Proof.
  cbv zeta. intros Hx Hf Hin Hc Hn Hl call_next.
  unfold RateLimitMiddleware.dispatch. rewrite Hx.
  unfold RateLimitMiddleware._check_rate_limit.
  pose proof (limits_window self (Http.path request) (Http.method request)) as Hwin.
  destruct (RateLimitMiddleware._get_limits_for_path self _ _) as [limit window].
  cbn [fst snd] in *. subst window.
  rewrite (is_allowed_answered _ limit 60 (Http.store w) n Hf eq_refl Hin Hc)
    by (apply int64_intro; lia).
  destruct (n + 1 <=? limit) eqn:H; [lia|].
  reflexivity.
Qed.

Lemma over_limit_request_stops_at_limiter_witness :
  let self := RateLimitMiddleware.__init__ (E := Demo.env) None None in
  let request := Demo.request "POST" "/api/v1/auth/login" None in
  let s := snd (RateLimiter.successive 5 "rate_limit:ip:10.0.0.1:/api/v1/auth/login" 5 60
                  Redis.fresh) in
  Http.outcome_status
    (fst (RateLimitMiddleware.dispatch self request (Http.serve Demo.ok) (Demo.world_of s))) =
  Some 429.
Proof.
  cbv zeta.
  rewrite (over_limit_request_stops_at_limiter
             (RateLimitMiddleware.__init__ (E := Demo.env) None None)
             (Demo.request "POST" "/api/v1/auth/login" None)
             (Demo.world_of
                (snd (RateLimiter.successive 5 "rate_limit:ip:10.0.0.1:/api/v1/auth/login"
                        5 60 Redis.fresh)))
             5 eq_refl eq_refl eq_refl eq_refl);
    [reflexivity | lia | cbn; lia].
Defined.

Section RequestIdTheorems.
Context {E : Env}.

(** X27. The request-ID middleware answers with the id the routed
    application saw in [request.state]: a non-empty X-Request-ID of the
    client is passed on and echoed as it is, without drawing a UUID;
    without one, the id is the next UUID, so two such requests in a row get
    the UUIDs of two successive draws. *)
Theorem request_id_echoed_or_drawn (router : Http.endpoint) (w : Http.world) :
  (forall (request : Http.request) (a : ascii) (rid : string),
      Http.x_request_id (Http.hdrs request) = Some (String a rid) ->
      exists (request' : Http.request) (w1 : Http.world),
        Http.request_id (Http.rstate request') = Some (String a rid) /\
        RequestIDMiddleware.dispatch request (Http.serve router) w =
          (Http.Response
             (Http.set_header "X-Request-ID" (String a rid)
                (fst (router request' (Http.store w)))), w1) /\
        Http.draws w1 = Http.draws w)
  /\
  (forall r1 r2 : Http.request,
      Http.x_request_id (Http.hdrs r1) = None \/ Http.x_request_id (Http.hdrs r1) = Some "" ->
      Http.x_request_id (Http.hdrs r2) = None \/ Http.x_request_id (Http.hdrs r2) = Some "" ->
      exists (m1 m2 : Http.message) (w1 w2 : Http.world),
        RequestIDMiddleware.dispatch r1 (Http.serve router) w = (Http.Response m1, w1) /\
        RequestIDMiddleware.dispatch r2 (Http.serve router) w1 = (Http.Response m2, w2) /\
        Http.get_item "X-Request-ID" (Http.headers_out m1) = Some (uuid4 (Http.draws w)) /\
        Http.get_item "X-Request-ID" (Http.headers_out m2) =
          Some (uuid4 (S (Http.draws w)))).
Proof.
  split.
  - intros request a rid Hh.
    unfold RequestIDMiddleware.dispatch, RequestIDMiddleware._get_or_generate_request_id.
    rewrite Hh. unfold Http.serve.
    match goal with |- context [router ?r ?s] =>
      exists r; destruct (router r s) as [m s1] eqn:Hr end.
    eexists. split; [reflexivity|]. split; [reflexivity|]. reflexivity.
  - assert (Hone : forall (r : Http.request) (w0 : Http.world),
              Http.x_request_id (Http.hdrs r) = None \/
              Http.x_request_id (Http.hdrs r) = Some "" ->
              exists (m : Http.message) (w1 : Http.world),
                RequestIDMiddleware.dispatch r (Http.serve router) w0 =
                  (Http.Response m, w1) /\
                Http.get_item "X-Request-ID" (Http.headers_out m) =
                  Some (uuid4 (Http.draws w0)) /\
                Http.draws w1 = S (Http.draws w0)).
    { intros r w0 Hh.
      unfold RequestIDMiddleware.dispatch, RequestIDMiddleware._get_or_generate_request_id.
      destruct Hh as [-> | ->]; unfold Http.serve;
        match goal with |- context [router ?r ?s] => destruct (router r s) as [m s1] end;
        eexists _, _; (split; [reflexivity|]); cbn;
        (split; [apply get_set_item | reflexivity]). }
    intros r1 r2 H1 H2.
    destruct (Hone r1 w H1) as (m1 & w1 & Hd1 & Hg1 & Hdr1).
    destruct (Hone r2 w1 H2) as (m2 & w2 & Hd2 & Hg2 & _).
    exists m1, m2, w1, w2. rewrite Hdr1 in Hg2. auto.
Qed.

End RequestIdTheorems.

Lemma request_id_echoed_or_drawn_witness :
  exists (m1 m2 : Http.message) (w1 w2 : Http.world),
    RequestIDMiddleware.dispatch (E := Demo.env) (Demo.request "GET" "/health" None)
      (Http.serve Demo.ok) (Demo.world_of Redis.fresh) = (Http.Response m1, w1) /\
    RequestIDMiddleware.dispatch (E := Demo.env) (Demo.request "GET" "/health" None)
      (Http.serve Demo.ok) w1 = (Http.Response m2, w2) /\
    Http.get_item "X-Request-ID" (Http.headers_out m1) = Some "uuid-0" /\
    Http.get_item "X-Request-ID" (Http.headers_out m2) = Some "uuid-1".
Proof.
  apply (proj2 (request_id_echoed_or_drawn (E := Demo.env) Demo.ok
                  (Demo.world_of Redis.fresh))
           (Demo.request "GET" "/health" None) (Demo.request "GET" "/health" None));
    left; reflexivity.
Defined.

Section RefusalFacts.
Context {E : Env}.

Lemma exists_kv (self : RedisCache.t) (key : string) (s : Redis.server) :
  Redis.kv (snd (RedisCache.exists_ self key s)) = Redis.kv s.
Proof.
  unfold RedisCache.exists_, Redis.call, Redis.hand_over.
  destruct (Redis.next_fault s); reflexivity.
Qed.

(** A validation that returns no identity has written nothing. *)
Lemma validate_none_kv (token : string) (s : Redis.server) :
  fst (AuthMiddleware._validate_token token s) = Py.VAtom Py.ANone ->
  Redis.kv (snd (AuthMiddleware._validate_token token s)) = Redis.kv s.
Proof.
  unfold AuthMiddleware._validate_token.
  pose proof (exists_kv RedisCache.cache ("blacklist:" +:+ token) s) as Hk.
  destruct (RedisCache.exists_ RedisCache.cache ("blacklist:" +:+ token) s) as [b s1].
  cbn [snd] in Hk.
  destruct b; [intros _; exact Hk|].
  destruct (jwt_decode (Redis.now s1) token) as [payload| | |]; try (intros _; exact Hk).
  destruct (negb (Py.truthy_atom (Py.dict_get payload "sub"))); [intros _; exact Hk|].
  destruct (negb (Py.truthy_atom (Py.dict_get payload "exp"))); [intros _; exact Hk|].
  destruct (RedisCache.get RedisCache.cache _ s1) as [u s2].
  destruct (Py.truthy u) eqn:Ht; cbn [negb].
  - cbn [fst]. intros ->. discriminate Ht.
  - destruct (RedisCache.set RedisCache.cache _ _ _ s2) as [ok s3].
    cbn [fst]. discriminate.
Qed.

End RefusalFacts.

Section RefusalTheorems.
Context {E : Env}.

(** X28. A request that authentication refuses, for a missing token on
    a protected path, a token that does not decode or a blacklisted
    token, leaves no mark: no response of the routed application comes
    out (the request ends in the [TypeError] of the returned exception),
    the data of the store is as before, so no rate-limit counter has
    moved, and no request id has been drawn. *)
Theorem refused_request_changes_nothing
    (router : Http.endpoint) (request : Http.request) (w : Http.world) :
  AuthMiddleware._is_exempt_path (Http.path request) = false ->
  ( (AuthMiddleware._requires_auth (Http.path request) = true /\
     (AuthMiddleware._extract_token request = None \/
      AuthMiddleware._extract_token request = Some ""))
    \/
    (exists (a : ascii) (t : string),
        AuthMiddleware._extract_token request = Some (String a t) /\
        ( (forall payload,
              jwt_decode (Redis.now (Http.store w)) (String a t) <> Decoded payload)
          \/ (Redis.next_fault (Http.store w) = false /\
              Redis.is_live (Http.store w)
                (RedisCache._make_key RedisCache.cache ("blacklist:" +:+ String a t)) = true))) ) ->
  fst (Main.application router request w) = Http.Error "TypeError" /\
  Redis.kv (Http.store (snd (Main.application router request w))) = Redis.kv (Http.store w) /\
  Http.draws (snd (Main.application router request w)) = Http.draws w.
Proof.
  intros Hx Hcause.
  split; [apply pipeline_rejects; assumption|].
  destruct (application_auth_outermost router request w) as (inner & w' & Hs & Hdr & ->).
  cbn [snd].
  unfold AuthMiddleware.dispatch. rewrite Hx.
  destruct Hcause as [[Hr [Ht | Ht]] | (a & t & Ht & Hc)]; rewrite Ht.
  - rewrite Hr. cbn. rewrite Hs. auto.
  - rewrite Hr. cbn. rewrite Hs. auto.
  - assert (Hnone : fst (AuthMiddleware._validate_token (String a t) (Http.store w')) =
                    Py.VAtom Py.ANone).
    { rewrite Hs. destruct Hc as [Hd | [Hf Hl]].
      - apply validate_decode_failure. exact Hd.
      - apply validate_blacklisted. rewrite exists_answered by assumption. exact Hl. }
    pose proof (validate_none_kv _ _ Hnone) as Hk.
    destruct (AuthMiddleware._validate_token (String a t) (Http.store w')) as [u s1].
    cbn [fst snd] in *. subst u. cbn. rewrite Hk, Hs. auto.
Qed.

End RefusalTheorems.

Lemma refused_request_changes_nothing_witness :
  let w := Demo.world_of (snd (RateLimiter.successive 2 "rate_limit:ip:10.0.0.1:/api/v1/users/me"
                                 100 60 Redis.fresh)) in
  let after := snd (Main.application (E := Demo.env) Demo.ok
                      (Demo.request "GET" "/api/v1/users/me" (Some "Bearer forged")) w) in
  Redis.kv (Http.store after) = Redis.kv (Http.store w) /\
  Http.draws after = Http.draws w.
Proof.
  cbv zeta.
  apply (refused_request_changes_nothing (E := Demo.env) Demo.ok
           (Demo.request "GET" "/api/v1/users/me" (Some "Bearer forged"))); [reflexivity|].
  right. exists "f"%char, "orged". split; [reflexivity|]. left. discriminate.
Defined.

(** ** Arguments that the store refuses *)

(** X29. A lifetime outside the time range of the store is refused, and
    the code goes on without it.  On a reachable store [set] with such an
    [expire] and [expire] with such a number of seconds return [False] and
    leave the data as they were.  [is_allowed] with such a window fails
    open: it answers [(True, limit)] whatever the count, while its
    increment has gone through, so the counter goes up by one and keeps
    the expiry it had, none at all for a counter that the call created. *)
Theorem lifetime_out_of_range_fails_soft
    (self : RedisCache.t) (key : string) (v : Py.value) (seconds : Z) (s : Redis.server) :
  Redis.next_fault s = false ->
  Redis.in_time_range s seconds = false ->
  (fst (RedisCache.set self key v (Some seconds) s) = false /\
   Redis.kv (snd (RedisCache.set self key v (Some seconds) s)) = Redis.kv s) /\
  (fst (RedisCache.expire self key seconds s) = false /\
   Redis.kv (snd (RedisCache.expire self key seconds s)) = Redis.kv s) /\
  (forall (limit n : Z),
      Redis.counter s key = Some n ->
      Redis.int64 (n + 1) = true ->
      let s1 := snd (RateLimiter.is_allowed key limit seconds s) in
      fst (RateLimiter.is_allowed key limit seconds s) = (true, limit) /\
      Redis.counter s1 key = Some (n + 1) /\
      Redis.expires_at <$> Redis.live s1 key =
        Some (match Redis.live s key with
              | Some e => Redis.expires_at e
              | None => None
              end)).
Proof.
  intros Hf Hin. split; [|split].
  - rewrite set_out_of_range by assumption. split; reflexivity.
  - unfold RedisCache.expire. rewrite call_answered by assumption.
    cbn [Redis.apply].
    change (Redis.in_time_range (snd (Redis.hand_over _ s)) seconds)
      with (Redis.in_time_range s seconds).
    rewrite Hin. split; reflexivity.
  - intros limit n Hc Hr. cbv zeta.
    unfold RateLimiter.is_allowed, Redis.execute, Redis.hand_over. rewrite Hf.
    set (s0 := Redis.Server _ _ _ _).
    assert (Hlive : Redis.live s0 key = Redis.live s key) by reflexivity.
    assert (Hin0 : forall m, Redis.in_time_range (Redis.with_kv s0 m) seconds = false)
      by (intros m; exact Hin).
    cbn [Redis.run Redis.apply]. change (Redis.int64 1) with true. cbn [negb].
    rewrite Hlive. unfold Redis.counter in *.
    destruct (Redis.live s key) as [[[[| |m|]|] ex]|] eqn:Hl; try discriminate.
    + destruct (Redis.int64 m) eqn:Hm; [|discriminate].
      injection Hc as ->. rewrite Hr. cbn [andb].
      rewrite Hin0. cbn [negb Redis.replies fst snd].
      split; [reflexivity|].
      rewrite live_with_kv_insert. cbn [Redis.expires_at].
      assert (Hex : match ex with
                    | Some t => if t <=? Redis.now s0 then None
                                else Some (Redis.Entry (Py.VAtom (Py.AInt (n + 1))) ex)
                    | None => Some (Redis.Entry (Py.VAtom (Py.AInt (n + 1))) ex)
                    end = Some (Redis.Entry (Py.VAtom (Py.AInt (n + 1))) ex)).
      { unfold Redis.live in Hl. destruct (Redis.kv s !! key) as [e0|]; [|discriminate].
        destruct (Redis.expires_at e0) as [t0|] eqn:He0.
        - destruct (t0 <=? Redis.now s) eqn:Ht; [discriminate|].
          injection Hl as ->. cbn in He0. subst ex.
          change (Redis.now s0) with (Redis.now s). rewrite Ht. reflexivity.
        - injection Hl as ->. cbn in He0. subst ex. reflexivity. }
      rewrite Hex, Hr. split; reflexivity.
    + injection Hc as <-.
      rewrite Hin0. cbn [negb Redis.replies fst snd].
      split; [reflexivity|].
      rewrite live_with_kv_insert. cbn [Redis.expires_at]. split; reflexivity.
Qed.

Lemma lifetime_out_of_range_fails_soft_witness :
  fst (RedisCache.set RedisCache.cache "user:u1" (Py.VAtom (Py.ABool true))
         (Some (2 ^ 62)) Redis.fresh) = false /\
  fst (RateLimiter.successive 6 "k" 5 (2 ^ 62) Redis.fresh) = replicate 6 (true, 5) /\
  Redis.live (snd (RateLimiter.successive 6 "k" 5 (2 ^ 62) Redis.fresh)) "k" =
    Some (Redis.Entry (Py.VAtom (Py.AInt 6)) None).
Proof.
  split; [|split].
  - apply (lifetime_out_of_range_fails_soft RedisCache.cache "user:u1"
             (Py.VAtom (Py.ABool true)) (2 ^ 62) Redis.fresh); reflexivity.
  - reflexivity.
  - reflexivity.
Defined.

(** X30. An increment by an amount that is not a 64-bit integer, or that
    would take the counter out of that range, is refused: on a reachable
    store [increment] returns [None] and the counter is as before. *)
Theorem increment_out_of_range_refused
    (self : RedisCache.t) (key : string) (amount n : Z) (s : Redis.server) :
  Redis.next_fault s = false ->
  Redis.counter s (RedisCache._make_key self key) = Some n ->
  Redis.int64 amount = false \/ Redis.int64 (n + amount) = false ->
  fst (RedisCache.increment self key amount s) = None /\
  Redis.kv (snd (RedisCache.increment self key amount s)) = Redis.kv s.
Proof.
  intros Hf Hc Hout.
  unfold RedisCache.increment. rewrite call_answered by assumption.
  set (K := RedisCache._make_key self key) in *.
  set (s0 := snd (Redis.hand_over _ s)).
  cbn [Redis.apply].
  destruct (Redis.int64 amount) eqn:Ha; cbn [negb]; [|split; reflexivity].
  destruct Hout as [Hout | Hout]; [discriminate|].
  change (Redis.live s0 K) with (Redis.live s K).
  unfold Redis.counter in Hc.
  destruct (Redis.live s K) as [[[[| |m|]|] ex]|] eqn:Hl; try discriminate.
  - destruct (Redis.int64 m); [|discriminate]. injection Hc as ->.
    rewrite Hout. cbn [andb]. split; reflexivity.
  - injection Hc as <-. rewrite Z.add_0_l in Hout. congruence.
Qed.

Lemma increment_out_of_range_refused_witness :
  fst (RedisCache.increment RedisCache.cache "hits" (2 ^ 63)
         (snd (RedisCache.increment RedisCache.cache "hits" (-1) Redis.fresh))) = None.
Proof.
  apply (increment_out_of_range_refused RedisCache.cache "hits" (2 ^ 63) (-1)
           (snd (RedisCache.increment RedisCache.cache "hits" (-1) Redis.fresh)));
    [reflexivity | reflexivity | left; reflexivity].
Defined.
